(** * proj_prec_merge: hourly MERGE precipitation to daily capital series

    A shallow embedding of [utils.py] and of the script [app.py], and the
    properties of the pipeline proved on it.

    - Timestamps of the grids are pandas [datetime64[ns]] values: signed
      64-bit counts of nanoseconds since 1970-01-01T00:00, modelled by
      [Z].  [Time.no_overflow] says that line 103 of [utils.py] stays
      within the 64 bits on a timestamp (every timestamp from
      1677-09-22T12:00 on): there [Time.ref_time] is the number that the
      code computes.
    - The [datetime] objects of the script always stand on a whole hour;
      they are modelled by the number of hours since 1970-01-01T00:00.
    - Coordinates are binary64 numbers, modelled by the rationals they
      denote.  The arithmetic on them ([+ 180], [% 360], [- 180]) rounds
      as binary64 does: to the nearest representable number, ties to the
      even one ([b64]).  Infinities and NaN do not occur as coordinates.
    - Cell values are binary floats, a null cell is NaN.  Sums run from the
      first member of a group to the last.
    - Exceptions are values of [exn]; a computation that can raise returns a
      [result].  An object that a function changes in place is returned
      next to the function's result.
    - The file system is a state.  The HTTP server, the GRIB decoder and the
      geometry test "this cell centre lies inside that polygon" are
      parameters of the model.
    - Console output ([print]) does not influence control flow and is left
      out. *)

From Stdlib Require Import ZArith QArith Qround Qpower Qabs Lqa List String Ascii Lia Bool.
From Stdlib Require Import Sorting.Sorted Sorting.Permutation.
From Stdlib Require Import Floats.PrimFloat Floats.SpecFloat Floats.FloatOps.
From Stdlib Require Import Numbers.Cyclic.Int63.Uint63.
From stdpp Require Import gmap strings list.
Import ListNotations.

Local Open Scope string_scope.
Local Open Scope Z_scope.

(* ===================================================================== *)
(** ** Time *)
(* ===================================================================== *)

Module Time.

Definition ns_per_hour : Z := 3600 * 1000000000.
Definition ns_per_day : Z := 24 * ns_per_hour.

(** [pd.Timedelta(hours=h)] in nanoseconds. *)
Definition Timedelta_hours (h : Z) : Z := h * ns_per_hour.

(** [.dt.floor("1D")]: round down to a multiple of one day. *)
Definition floor_1D (t : Z) : Z := (t / ns_per_day) * ns_per_day.

(** utils.py line 103:
    [(ds.valid_time - pd.Timedelta(hours=12)).dt.floor("1D") + pd.Timedelta(hours=12)] *)
Definition ref_time (t : Z) : Z :=
  floor_1D (t - Timedelta_hours 12) + Timedelta_hours 12.

(** The values of [datetime64[ns]]: signed 64-bit counts, the smallest
    pattern standing for NaT. *)
Definition int64_min : Z := - 2 ^ 63.
Definition int64_max : Z := 2 ^ 63 - 1.
Definition representable (t : Z) : Prop := int64_min < t <= int64_max.

(** Line 103 stays within the 64 bits on [t]: the timestamp, its shift by
    12 hours and the floor of the shift are representable (the key, which
    lies between the floor and [t], then is too).  On such a timestamp
    [ref_time] is the number that the code computes. *)
Definition no_overflow (t : Z) : Prop :=
  representable t
  /\ representable (t - Timedelta_hours 12)
  /\ representable (floor_1D (t - Timedelta_hours 12)).

(** Days since 1970-01-01 of a proleptic Gregorian date. *)
Definition days_from_civil (y m d : Z) : Z :=
  let y' := if m <=? 2 then y - 1 else y in
  let era := y' / 400 in
  let yoe := y' - era * 400 in
  let mp := if 2 <? m then m - 3 else m + 9 in
  let doy := (153 * mp + 2) / 5 + d - 1 in
  let doe := yoe * 365 + yoe / 4 - yoe / 100 + doy in
  era * 146097 + doe - 719468.

(** The date (year, month, day) of a day number. *)
Definition civil_from_days (z : Z) : Z * Z * Z :=
  let z' := z + 719468 in
  let era := z' / 146097 in
  let doe := z' - era * 146097 in
  let yoe := (doe - doe / 1460 + doe / 36524 - doe / 146096) / 365 in
  let doy := doe - (365 * yoe + yoe / 4 - yoe / 100) in
  let mp := (5 * doy + 2) / 153 in
  let d := doy - (153 * mp + 2) / 5 + 1 in
  let m := if mp <? 10 then mp + 3 else mp - 9 in
  let y := yoe + era * 400 in
  ((if m <=? 2 then y + 1 else y), m, d).

(** [datetime(y, m, d, h)]: hours since the epoch. *)
Definition datetime (y m d h : Z) : Z := days_from_civil y m d * 24 + h.

(** The [datetime64[ns]] value of the same instant. *)
Definition timestamp (y m d h : Z) : Z := datetime y m d h * ns_per_hour.

(** [dt + timedelta(hours=1)] *)
Definition add_hour (dt : Z) : Z := dt + 1.

Definition digit (n : Z) : ascii := ascii_of_nat (48 + Z.to_nat (n mod 10)).
Definition pad2 (n : Z) : string := String (digit (n / 10)) (String (digit n) "").
Definition pad4 (n : Z) : string :=
  String (digit (n / 1000)) (String (digit (n / 100)) (pad2 n)).

Definition year_of (dt : Z) : Z := fst (fst (civil_from_days (dt / 24))).
Definition month_of (dt : Z) : Z := snd (fst (civil_from_days (dt / 24))).
Definition day_of (dt : Z) : Z := snd (civil_from_days (dt / 24)).
Definition hour_of (dt : Z) : Z := dt mod 24.

(** [dt.strftime('%Y%m%d%H')] *)
Definition strftime_YmdH (dt : Z) : string :=
  pad4 (year_of dt) ++ pad2 (month_of dt) ++ pad2 (day_of dt) ++ pad2 (hour_of dt).

End Time.


(* ===================================================================== *)
(** ** Exceptions *)
(* ===================================================================== *)

Inductive exn : Type :=
| NameError (name : string)
| AttributeError (attr : string)
| KeyError (key : string)
| ValueError (msg : string)
| TypeError (msg : string)
| FileNotFoundError (path : string)
| FileExistsError (path : string)
| ConnectionError (url : string)
| DecodeError (path : string)
| NoDataInBounds
| MissingCRS
| NotModelled (what : string).

Inductive result (A : Type) : Type :=
| Ok (a : A)
| Raise (e : exn).

Arguments Ok {A} a.
Arguments Raise {A} e.

Definition bind_result {A B} (r : result A) (k : A -> result B) : result B :=
  match r with
  | Ok a => k a
  | Raise e => Raise e
  end.

(* ===================================================================== *)
(** ** Grids and datasets *)
(* ===================================================================== *)

(** A cell of a field: a float, NaN for "null". *)
Definition cell : Type := float.

(** One two-dimensional field, latitude (rows) by longitude (columns). *)
Definition Grid : Type := list (list cell).

(** What [xr.open_dataset] gives for one hourly file: two-dimensional data
    variables over [latitude] and [longitude], and a scalar [valid_time]. *)
Record HourlyDataset : Type := mkHourly {
  h_valid_time : Z;
  h_latitude : list Q;
  h_longitude : list Q;
  h_data_vars : list (string * Grid)
}.

(** The name of the time dimension of a three-dimensional dataset. *)
Inductive TimeName : Type := valid_time | ref_time.

(** A dataset with the variable [prec] over (time, latitude, longitude).
    [rio_dims] and [spatial_ref] are what rioxarray keeps on the object: the
    declared (x, y) dimensions and the written coordinate reference. *)
Record Dataset : Type := mkDataset {
  time_name : TimeName;
  time : list Z;
  latitude : list Q;
  longitude : list Q;
  prec : list Grid;
  attrs : list (string * string);
  rio_dims : option (string * string);
  spatial_ref : option string
}.

(* ===================================================================== *)
(** ** Coordinate Normalizer: [fix_coordinates] *)
(* ===================================================================== *)

(** *** Binary64 arithmetic on the rationals *)

Definition pow2 (e : Z) : Q := (2 ^ e)%Q.

(** The exponent [e] with [2^e <= x < 2^(e+1)], for a positive [x]. *)
Definition binade (x : Q) : Z :=
  let e0 := Z.log2 (Qnum x) - Z.log2 (Zpos (Qden x)) in
  if Qle_bool (pow2 e0) x then e0 else e0 - 1.

(** The nearest integer, the even one of two that are equally near. *)
Definition rne (q : Q) : Z :=
  let f := Qfloor q in
  match (q - inject_Z f ?= 1 # 2)%Q with
  | Lt => f
  | Gt => f + 1
  | Eq => if Z.even f then f else f + 1
  end.

(** The exponent of the unit in the last place of a positive [x]: 53
    significant bits, and no unit below [2^-1074]. *)
Definition ulp_exp (x : Q) : Z := Z.max (binade x - 52) (-1074).

Definition round_pos (x : Q) : Q :=
  (inject_Z (rne (x / pow2 (ulp_exp x))) * pow2 (ulp_exp x))%Q.

(** The binary64 number nearest to [x], ties to even; the result of an
    arithmetic operation whose exact result is [x].  (No result of the
    operations below on finite coordinates reaches the overflow
    threshold.) *)
Definition b64 (x : Q) : Q :=
  Qred (match (x ?= 0)%Q with
        | Eq => 0
        | Gt => round_pos x
        | Lt => - round_pos (- x)
        end)%Q.

(** The rational that a finite binary64 number denotes. *)
Definition float_value (f : float) : Q :=
  match Prim2SF f with
  | S754_finite s m e => ((if s then -1 else 1) * inject_Z (Zpos m) * pow2 e)%Q
  | _ => 0%Q
  end.

(** [x - m * floor(x / m)] for a positive [m]. *)
Definition Qmod (x m : Q) : Q := (x - m * inject_Z (Qfloor (x / m)))%Q.

(** C's [fmod(a, m)] for a positive [m]: the remainder with the sign of
    [a].  It is exact: the remainder of a binary64 number is one. *)
Definition fmod (a m : Q) : Q :=
  if Qle_bool 0 a then Qmod a m else (- Qmod (- a) m)%Q.

(** numpy's [a % m] on binary64, for a positive [m]: [fmod], and [m] added
    to a negative remainder; that addition rounds. *)
Definition np_remainder (a m : Q) : Q :=
  let r := fmod a m in
  if Qle_bool 0 r then r else b64 (r + m).

(** [((lon + 180) % 360) - 180] *)
Definition remap_longitude (lon : Q) : Q :=
  b64 (np_remainder (b64 (lon + 180)) 360 - 180).

(** [(lon > 180).any()] *)
Definition any_above_180 (lon : list Q) : bool :=
  existsb (fun l => negb (Qle_bool l 180)) lon.

(** Stable insertion into a list of keyed items sorted by key: the new item
    goes before the first item whose key is not smaller. *)
Fixpoint insert_keyed {A : Type} (k : Q) (a : A) (l : list (Q * A)) : list (Q * A) :=
  match l with
  | [] => [(k, a)]
  | (k', a') :: l' =>
      if Qle_bool k k' then (k, a) :: (k', a') :: l'
      else (k', a') :: insert_keyed k a l'
  end.

(** Stable sort by key, ascending. *)
Fixpoint sort_keyed {A : Type} (l : list (Q * A)) : list (Q * A) :=
  match l with
  | [] => []
  | (k, a) :: l' => insert_keyed k a (sort_keyed l')
  end.

(** Reorder [xs] the way a stable ascending sort of [keys] reorders [keys]. *)
Definition reorder_by {A : Type} (keys : list Q) (xs : list A) : list A :=
  map snd (sort_keyed (combine keys xs)).

(** [ds.sortby("longitude")]: the axis and every row of every variable. *)
Definition sortby_longitude (ds : HourlyDataset) : HourlyDataset :=
  let lon := h_longitude ds in
  {| h_valid_time := h_valid_time ds;
     h_latitude := h_latitude ds;
     h_longitude := reorder_by lon lon;
     h_data_vars :=
       map (fun v : string * Grid => (fst v, map (reorder_by lon) (snd v)))
           (h_data_vars ds) |}.

(** [ds.sortby("latitude")]: the axis and the rows of every variable. *)
Definition sortby_latitude (ds : HourlyDataset) : HourlyDataset :=
  let lat := h_latitude ds in
  {| h_valid_time := h_valid_time ds;
     h_latitude := reorder_by lat lat;
     h_longitude := h_longitude ds;
     h_data_vars :=
       map (fun v : string * Grid => (fst v, reorder_by lat (snd v)))
           (h_data_vars ds) |}.

(** [ds.assign_coords(longitude=...)] *)
Definition assign_longitude (lon : list Q) (ds : HourlyDataset) : HourlyDataset :=
  {| h_valid_time := h_valid_time ds;
     h_latitude := h_latitude ds;
     h_longitude := lon;
     h_data_vars := h_data_vars ds |}.

(** utils.py lines 65-87. *)
Definition fix_coordinates (ds : HourlyDataset) : HourlyDataset :=
  let lon := h_longitude ds in
  let ds1 :=
    if any_above_180 lon then assign_longitude (map remap_longitude lon) ds
    else ds in
  let ds2 := sortby_longitude ds1 in
  sortby_latitude ds2.

(** An axis in ascending order, weakly and strictly. *)
Definition ascending (l : list Q) : Prop := StronglySorted Qle l.
Definition strictly_ascending (l : list Q) : Prop := StronglySorted Qlt l.

(** A longitude in the half-open range from -180 to 180. *)
Definition in_pm180 (l : Q) : Prop := (-180 <= l /\ l < 180)%Q.

(** A longitude in the closed range from -180 to 180. *)
Definition within_pm180 (l : Q) : Prop := (-180 <= l /\ l <= 180)%Q.

(** Two longitudes that differ by at least [2^-40] of a degree, and by at
    most a full turn less that much. *)
Definition apart (x y : Q) : Prop :=
  ((1 # 2 ^ 40) <= Qabs (x - y) /\ Qabs (x - y) <= 360 - (1 # 2 ^ 40))%Q.

Fixpoint well_separated (l : list Q) : Prop :=
  match l with
  | [] => True
  | x :: l' => Forall (apart x) l' /\ well_separated l'
  end.

(** No value occurs twice on the axis. *)
Fixpoint distinct_values (l : list Q) : Prop :=
  match l with
  | [] => True
  | x :: l' => Forall (fun y => ~ (x == y)%Q) l' /\ distinct_values l'
  end.

(* ===================================================================== *)
(** ** Temporal Aggregator: [diary_prec_12z] *)
(* ===================================================================== *)

(** Insertion of a key into a sorted list without repetition. *)
Fixpoint insert_unique (k : Z) (l : list Z) : list Z :=
  match l with
  | [] => [k]
  | k' :: l' =>
      if k <? k' then k :: k' :: l'
      else if k =? k' then k' :: l'
      else k' :: insert_unique k l'
  end.

(** The distinct values of a list, ascending: the group labels of a
    [groupby], and the sorted union of time indexes. *)
Definition unique_sorted (l : list Z) : list Z :=
  fold_right insert_unique [] l.

(** The members of the group [k], in their original order. *)
Fixpoint select_group {A : Type} (k : Z) (keys : list Z) (xs : list A) : list A :=
  match keys, xs with
  | k' :: keys', x :: xs' =>
      if k' =? k then x :: select_group k keys' xs' else select_group k keys' xs'
  | _, _ => []
  end.

(** A sum with [skipna]: a null counts as zero. *)
Definition nan_to_zero (x : cell) : cell := if is_nan x then 0%float else x.

Definition add_grid (a b : Grid) : Grid := zip_with (zip_with PrimFloat.add) a b.

(** [.sum()] over the members of one group, cell by cell, nulls skipped;
    a group is never empty. *)
Definition nansum_grids (gs : list Grid) : Grid :=
  match map (map (map nan_to_zero)) gs with
  | [] => []
  | g :: rest => fold_left add_grid rest g
  end.

Definition aggregation_period : string * string :=
  ("aggregation_period", "From 12Z to 11Z (ref_time = 12Z start of period)").

(** utils.py lines 90-111.  The dataset must have [valid_time]; grouping
    nothing fails. *)
Definition diary_prec_12z (ds : Dataset) : result Dataset :=
  match time_name ds with
  | ref_time => Raise (AttributeError "valid_time")
  | valid_time =>
      let keys := map Time.ref_time (time ds) in
      match unique_sorted keys with
      | [] => Raise (ValueError "Failed to group data")
      | labels =>
          Ok {| time_name := ref_time;
                time := labels;
                latitude := latitude ds;
                longitude := longitude ds;
                prec := map (fun k => nansum_grids (select_group k keys (prec ds))) labels;
                attrs := [aggregation_period];
                rio_dims := None;
                spatial_ref := spatial_ref ds |}
      end
  end.

(* ===================================================================== *)
(** ** Tables *)
(* ===================================================================== *)

(** A pandas frame indexed by window start: the index and the named
    columns, each as long as the index. *)
Record DataFrame : Type := mkDataFrame {
  index : list Z;
  columns : list (string * list cell)
}.

Definition column_names (df : DataFrame) : list string := map fst (columns df).

(** The value of a column at the label [t], null where the label is absent. *)
Definition lookup_row (idx : list Z) (vals : list cell) (t : Z) : cell :=
  match List.find (fun p : Z * cell => fst p =? t) (combine idx vals) with
  | Some p => snd p
  | None => nan
  end.

Definition reindex (new_index old_index : list Z) (col : string * list cell)
  : string * list cell :=
  (fst col, map (lookup_row old_index (snd col)) new_index).

(** [pd.concat(frames, axis=1)]: outer join on the (datetime) index, which
    comes out as the sorted union; nothing to concatenate is an error. *)
Definition pd_concat_axis1 (frames : list DataFrame) : result DataFrame :=
  match frames with
  | [] => Raise (ValueError "No objects to concatenate")
  | _ :: _ =>
      let idx := unique_sorted (concat (map index frames)) in
      Ok {| index := idx;
            columns :=
              concat (map (fun df => map (reindex idx (index df)) (columns df)) frames) |}
  end.

(** [.mean(dim=['latitude', 'longitude'])] of one field: the mean of the
    cells that are not null, null when there is none. *)
Definition valid_cells (g : Grid) : list cell :=
  List.filter (fun v => negb (is_nan v)) (concat g).

Definition float_of_nat (n : nat) : float := of_uint63 (of_Z (Z.of_nat n)).

Definition nanmean (g : Grid) : cell :=
  match valid_cells g with
  | [] => nan
  | v :: vs => PrimFloat.div (fold_left PrimFloat.add vs v) (float_of_nat (length (v :: vs)))
  end.

Section Pipeline.

(** The polygons of the boundary dataset, and the test that a cell centre
    (latitude, longitude) lies inside one. *)
Variable polygon : Type.
Variable contains : polygon -> Q -> Q -> bool.

(** A row of the boundary dataset. *)
Record Feature : Type := mkFeature {
  SIGLA_UF : string;
  NM_MUN : string;
  geometry : polygon
}.

Definition GeoDataFrame : Type := list Feature.

(* --------------------------------------------------------------------- *)
(** *** The outside world *)
(* --------------------------------------------------------------------- *)

Inductive file_content : Type :=
| RawBytes (bytes : list Byte.byte)
| ShapefileData (gdf : GeoDataFrame)
| ParquetData (df : DataFrame).

(** One [insert_many]: database, collection, and the documents, each a list
    of fields; the index is the field [ref_time]. *)
Record MongoInsert : Type := mkMongoInsert {
  mi_db : string;
  mi_collection : string;
  mi_documents : list (Z * list (string * cell))
}.

(** Steps of the script that leave a mark outside the file system. *)
Inductive event : Type :=
| HttpGet (url : string)
| Invoked (function : string)
| InsertMany (ins : MongoInsert).

Record World : Type := mkWorld {
  files : gmap string file_content;
  dirs : gset string;
  trace : list event
}.

(** A computation on the world that may raise. *)
Definition M (A : Type) : Type := World -> result A * World.

Definition ret {A} (a : A) : M A := fun w => (Ok a, w).
Definition raise {A} (e : exn) : M A := fun w => (Raise e, w).
Definition bind {A B} (m : M A) (k : A -> M B) : M B :=
  fun w => match m w with
           | (Ok a, w') => k a w'
           | (Raise e, w') => (Raise e, w')
           end.
Definition lift {A} (r : result A) : M A := fun w => (r, w).
Definition log (e : event) : M unit :=
  fun w => (Ok tt, {| files := files w; dirs := dirs w; trace := trace w ++ [e] |}).

(** [try: body except Exception: handler] *)
Definition try_except {A} (body : M A) (handler : exn -> M A) : M A :=
  fun w => match body w with
           | (Ok a, w') => (Ok a, w')
           | (Raise e, w') => handler e w'
           end.

Notation "'let*' x ':=' m 'in' k" := (bind m (fun x => k))
  (at level 10, x name, m at level 100, k at level 200).
Notation "'do' m 'then' k" := (bind m (fun _ => k))
  (at level 10, m at level 100, k at level 200).

(** [gpd.read_file(path)] *)
Definition gpd_read_file (path : string) : M GeoDataFrame :=
  fun w => match files w !! path with
           | Some (ShapefileData gdf) => (Ok gdf, w)
           | Some _ => (Raise (DecodeError path), w)
           | None => (Raise (FileNotFoundError path), w)
           end.

(* --------------------------------------------------------------------- *)
(** *** Capital Resolver: [extract_capitals_from_shapefile] *)
(* --------------------------------------------------------------------- *)

(** [row['SIGLA_UF'] in capitals_dict and
     row['NM_MUN'] == capitals_dict[row['SIGLA_UF']]] *)
Definition is_capital (capitals_dict : gmap string string) (row : Feature) : bool :=
  match capitals_dict !! SIGLA_UF row with
  | Some name => String.eqb (NM_MUN row) name
  | None => false
  end.

(** utils.py lines 114-136. *)
Definition extract_capitals_from_shapefile
    (shapefile_path : string) (capitals_dict : gmap string string) : M GeoDataFrame :=
  let* gdf := gpd_read_file shapefile_path in
  ret (List.filter (is_capital capitals_dict) gdf).

(* --------------------------------------------------------------------- *)
(** *** Spatial Masker: [mask_data] *)
(* --------------------------------------------------------------------- *)

(** [ds.rio.set_spatial_dims(x_dim=x, y_dim=y, inplace=True)] *)
Definition set_spatial_dims (x y : string) (ds : Dataset) : Dataset :=
  {| time_name := time_name ds; time := time ds;
     latitude := latitude ds; longitude := longitude ds;
     prec := prec ds; attrs := attrs ds;
     rio_dims := Some (x, y); spatial_ref := spatial_ref ds |}.

(** [ds.rio.write_crs(crs, inplace=True)]: the reference goes into the
    coordinate [spatial_ref]; an attribute [crs] of the dataset, if any, is
    removed. *)
Definition write_crs (crs : string) (ds : Dataset) : Dataset :=
  {| time_name := time_name ds; time := time ds;
     latitude := latitude ds; longitude := longitude ds;
     prec := prec ds;
     attrs := List.filter (fun kv : string * string => negb (String.eqb (fst kv) "crs"))
                          (attrs ds);
     rio_dims := rio_dims ds; spatial_ref := Some crs |}.

Definition inside (geoms : list polygon) (la lo : Q) : bool :=
  existsb (fun p => contains p la lo) geoms.

Definition clip_cell (geoms : list polygon) (la lo : option Q) (v : cell) : cell :=
  match la, lo with
  | Some la, Some lo => if inside geoms la lo then v else nan
  | _, _ => nan
  end.

Definition clip_grid (geoms : list polygon) (lat lon : list Q) (g : Grid) : Grid :=
  imap (fun i row => imap (fun j v => clip_cell geoms (lat !! i) (lon !! j) v) row) g.

(** [ds.rio.clip(geometries, crs, drop=False)]: the axes stay, a cell
    outside every geometry becomes null.  It needs a coordinate reference
    on the dataset, some geometry, and a grid that is not empty. *)
Definition rio_clip (geoms : list polygon) (ds : Dataset) : result Dataset :=
  match spatial_ref ds, geoms, latitude ds, longitude ds with
  | None, _, _, _ => Raise MissingCRS
  | Some _, [], _, _ =>
      Raise (ValueError "No valid geometry objects found for rasterize")
  | Some _, _ :: _, [], _ => Raise NoDataInBounds
  | Some _, _ :: _, _ :: _, [] => Raise NoDataInBounds
  | Some _, _ :: _, _ :: _, _ :: _ =>
      Ok {| time_name := time_name ds; time := time ds;
            latitude := latitude ds; longitude := longitude ds;
            prec := map (clip_grid geoms (latitude ds) (longitude ds)) (prec ds);
            attrs := attrs ds;
            rio_dims := rio_dims ds; spatial_ref := spatial_ref ds |}
  end.

(** The second argument of [mask_data]: a frame, or the path of a shapefile. *)
Inductive MaskArg : Type :=
| MaskFrame (gdf : GeoDataFrame)
| MaskPath (path : string).

(** utils.py lines 139-170.  [ds] is changed in place: the first component
    of the outcome is the object [ds] after the call, the second what the
    call returns or raises. *)
Definition mask_data (w : World) (ds : Dataset) (mask : MaskArg) : Dataset * result Dataset :=
  let geo_df :=
    match mask with
    | MaskFrame gdf => Ok gdf
    | MaskPath path => fst (gpd_read_file path w)
    end in
  match geo_df with
  | Raise e => (ds, Raise e)
  | Ok geo_df =>
      let ds1 := set_spatial_dims "longitude" "latitude" ds in
      let ds2 := write_crs "epsg:4326" ds1 in
      (ds2, rio_clip (map geometry geo_df) ds2)
  end.

(* --------------------------------------------------------------------- *)
(** *** Timeseries Extractor: [extract_capitals_timeseries] *)
(* --------------------------------------------------------------------- *)

(** Lines 192-205 for one capital: spatial mean, rows without a value
    dropped, one column named after the capital. *)
Definition capital_frame (capital : string) (ds_capital : Dataset) : DataFrame :=
  let means := map nanmean (prec ds_capital) in
  let rows :=
    List.filter (fun r : Z * cell => negb (is_nan (snd r)))
                (combine (time ds_capital) means) in
  {| index := map fst rows; columns := [(capital, map snd rows)] |}.

(** The body of the loop over [gdf_capitals['NM_MUN']], for the capitals
    still to come; [ds_daily] and [df_br_list] are threaded through. *)
Fixpoint capitals_loop (w : World) (gdf_capitals : GeoDataFrame) (todo : list string)
    (ds_daily : Dataset) (df_br_list : list DataFrame)
  : Dataset * result (list DataFrame) :=
  match todo with
  | [] => (ds_daily, Ok df_br_list)
  | capital :: todo' =>
      let mask := List.filter (fun row => String.eqb (NM_MUN row) capital) gdf_capitals in
      match mask_data w ds_daily (MaskFrame mask) with
      | (ds_daily', Raise e) => (ds_daily', Raise e)
      | (ds_daily', Ok ds_capital) =>
          capitals_loop w gdf_capitals todo' ds_daily'
                        (df_br_list ++ [capital_frame capital ds_capital])
      end
  end.

(** utils.py lines 173-210; the first component is [ds_daily] after the call. *)
Definition extract_capitals_timeseries (w : World) (ds_daily : Dataset)
    (gdf_capitals : GeoDataFrame) : Dataset * result DataFrame :=
  match capitals_loop w gdf_capitals (map NM_MUN gdf_capitals) ds_daily [] with
  | (ds_daily', Raise e) => (ds_daily', Raise e)
  | (ds_daily', Ok df_br_list) => (ds_daily', pd_concat_axis1 df_br_list)
  end.

(* --------------------------------------------------------------------- *)
(** *** Download: [download_merge_cptec] *)
(* --------------------------------------------------------------------- *)

(** What [requests.get(url, stream=True)] returns: the status, and the
    body, which is read only when [iter_content] is iterated: the chunks
    that arrive, and the exception that ends the stream after them when the
    transfer breaks off ([None]: the body ends regularly). *)
Record Response : Type := mkResponse {
  status_code : Z;
  iter_content : list (list Byte.byte);
  stream_error : option exn
}.

(** The HTTP server (a connection failure raises) and the GRIB decoder of
    [xr.open_dataset(..., engine="cfgrib")] ([None]: the bytes do not decode). *)
Variable requests_get : string -> result Response.
Variable cfgrib_decode : list Byte.byte -> option HourlyDataset.

Definition set_files (f : gmap string file_content) (w : World) : World :=
  {| files := f; dirs := dirs w; trace := trace w |}.

Definition set_dirs (d : gset string) (w : World) : World :=
  {| files := files w; dirs := d; trace := trace w |}.

(** [os.makedirs(path, exist_ok=True)]: fails only if [path] is a file. *)
Definition makedirs (path : string) : M unit :=
  fun w => match files w !! path with
           | Some _ => (Raise (FileExistsError path), w)
           | None => (Ok tt, set_dirs ({[path]} ∪ dirs w) w)
           end.

(** [with open(path, "wb") as f: ...]: afterwards the file holds what has
    been written, whatever it held before.  The path is taken to be
    writable. *)
Definition write_file (path : string) (content : file_content) : M unit :=
  fun w => (Ok tt, set_files (<[path := content]> (files w)) w).

(** [os.path.join(a, b)] for a relative [b]. *)
Definition path_join (a b : string) : string := (a ++ "/" ++ b)%string.

Definition merge_url (date : Z) : string :=
  ("https://ftp.cptec.inpe.br/modelos/tempo/MERGE/GPM/HOURLY/"
   ++ Time.pad4 (Time.year_of date) ++ "/" ++ Time.pad2 (Time.month_of date) ++ "/"
   ++ Time.pad2 (Time.day_of date) ++ "/MERGE_CPTEC_" ++ Time.strftime_YmdH date
   ++ ".grib2")%string.

Definition merge_basename (date : Z) : string :=
  ("MERGE_CPTEC_" ++ Time.strftime_YmdH date ++ ".grib2")%string.

(** Lines 51-55: [open(filename, "wb")] empties the file, the chunks are
    written as they arrive, and the file is closed with what has been
    written when the stream raises. *)
Definition save_stream (filename : string) (response : Response) : M unit :=
  do write_file filename (RawBytes (concat (iter_content response))) then
  match stream_error response with
  | Some e => raise e
  | None => ret tt
  end.

(** utils.py lines 28-62. *)
Definition download_merge_cptec (date : Z) (output_dir : string) : M string :=
  do makedirs output_dir then
  let url := merge_url date in
  let filename := path_join output_dir (merge_basename date) in
  do log (HttpGet url) then
  let* response := lift (requests_get url) in
  do (if status_code response =? 200
      then save_stream filename response
      else ret tt) then
  ret filename.

(* --------------------------------------------------------------------- *)
(** *** Persistence: [save_parquet_to_mongodb] *)
(* --------------------------------------------------------------------- *)

(** [df.reset_index().to_dict(orient="records")] *)
Definition to_records (df : DataFrame) : list (Z * list (string * cell)) :=
  imap (fun i t => (t, map (fun col : string * list cell =>
                              (fst col, nth i (snd col) nan)) (columns df)))
       (index df).

(** utils.py lines 213-247; the database server is taken to be reachable. *)
Definition save_parquet_to_mongodb (parquet_path db_name collection_name : string) : M unit :=
  fun w =>
    match files w !! parquet_path with
    | None =>
        if bool_decide (parquet_path ∈ dirs w)
        then (Raise (DecodeError parquet_path), w)
        else (Raise (FileNotFoundError parquet_path), w)
    | Some (ParquetData df) =>
        match to_records df with
        | [] => (Raise (TypeError "documents must be a non-empty list"), w)
        | docs =>
            log (InsertMany {| mi_db := db_name; mi_collection := collection_name;
                               mi_documents := docs |}) w
        end
    | Some _ => (Raise (DecodeError parquet_path), w)
    end.

(* --------------------------------------------------------------------- *)
(** *** The script [app.py] *)
(* --------------------------------------------------------------------- *)

Definition uf_br : gmap string string :=
  list_to_map
    [ ("AC", "Rio Branco"); ("AP", "Macapá"); ("AM", "Manaus"); ("PA", "Belém");
      ("RO", "Porto Velho"); ("RR", "Boa Vista"); ("TO", "Palmas");
      ("AL", "Maceió"); ("BA", "Salvador"); ("CE", "Fortaleza"); ("MA", "São Luís");
      ("PB", "João Pessoa"); ("PE", "Recife"); ("PI", "Teresina"); ("RN", "Natal");
      ("SE", "Aracaju");
      ("DF", "Brasília"); ("GO", "Goiânia"); ("MT", "Cuiabá"); ("MS", "Campo Grande");
      ("MG", "Belo Horizonte"); ("ES", "Vitória"); ("RJ", "Rio de Janeiro");
      ("SP", "São Paulo");
      ("PR", "Curitiba"); ("RS", "Porto Alegre"); ("SC", "Florianópolis") ].

(** [xr.open_dataset(filename, engine="cfgrib", decode_timedelta=True)] *)
Definition xr_open_dataset (filename : string) : M HourlyDataset :=
  fun w => match files w !! filename with
           | None => (Raise (FileNotFoundError filename), w)
           | Some (RawBytes bytes) =>
               match cfgrib_decode bytes with
               | Some ds => (Ok ds, w)
               | None => (Raise (DecodeError filename), w)
               end
           | Some _ => (Raise (DecodeError filename), w)
           end.

Definition is_prec (v : string * Grid) : bool := String.eqb (fst v) "prec".

(** [ds[["prec"]]] *)
Definition select_prec (ds : HourlyDataset) : result HourlyDataset :=
  match List.find is_prec (h_data_vars ds) with
  | Some v =>
      Ok {| h_valid_time := h_valid_time ds; h_latitude := h_latitude ds;
            h_longitude := h_longitude ds; h_data_vars := [v] |}
  | None => Raise (KeyError "prec")
  end.

(** [ds.expand_dims("valid_time")]: the scalar time becomes a dimension of
    length one.  The three-dimensional model carries the variable [prec]
    only, which the script has selected before. *)
Definition expand_dims_valid_time (ds : HourlyDataset) : result Dataset :=
  match List.find is_prec (h_data_vars ds) with
  | Some v =>
      Ok {| time_name := valid_time; time := [h_valid_time ds];
            latitude := h_latitude ds; longitude := h_longitude ds;
            prec := [snd v]; attrs := []; rio_dims := None; spatial_ref := None |}
  | None => Raise (KeyError "prec")
  end.

Definition same_axis (a b : list Q) : bool :=
  (length a =? length b)%nat && forallb (fun p : Q * Q => Qeq_bool (fst p) (snd p)) (combine a b).

(** [xr.concat(datasets, dim="valid_time")] for hours on one grid; the
    alignment of hours on different grids is outside the model. *)
Definition xr_concat (datasets : list Dataset) : result Dataset :=
  match datasets with
  | [] => Raise (ValueError "must supply at least one object to concatenate")
  | d :: rest =>
      if forallb (fun d' => same_axis (latitude d) (latitude d')
                            && same_axis (longitude d) (longitude d')) rest
      then Ok {| time_name := valid_time; time := concat (map time datasets);
                 latitude := latitude d; longitude := longitude d;
                 prec := concat (map prec datasets); attrs := attrs d;
                 rio_dims := None; spatial_ref := spatial_ref d |}
      else Raise (NotModelled "xr.concat of hours on different grids")
  end.

Definition merge_data_dir : string := "./merge_data".
Definition output_dir : string := "./output".
Definition shapefile_path : string := ".\BR_Municipios_2024\BR_Municipios_2024.shp".
Definition parquet_path : string := "./output/capitals_br_daily_prec.parquet".

(** app.py lines 83-107: the [try] block for one hour and its [except]. *)
Definition process_hour (dt : Z) (datasets : list Dataset) : M (list Dataset) :=
  try_except
    (do download_merge_cptec dt merge_data_dir then
     let filename := ("./merge_data/MERGE_CPTEC_" ++ Time.strftime_YmdH dt ++ ".grib2")%string in
     let* ds := xr_open_dataset filename in
     let* ds := lift (select_prec ds) in
     let ds := fix_coordinates ds in
     let* ds := lift (expand_dims_valid_time ds) in
     ret (datasets ++ [ds])%list)
    (fun _ => ret datasets).

(** The hours [dt = start, start + 1h, ...] for which [dt <= end] holds. *)
Definition hours_in_range (start end_ : Z) : list Z :=
  map (fun i => start + Z.of_nat i) (seq 0 (Z.to_nat (end_ - start + 1))).

(** app.py lines 82-110: [while dt <= end: ...; dt += timedelta(hours=1)]. *)
Fixpoint hours_loop (hours : list Z) (datasets : list Dataset) : M (list Dataset) :=
  match hours with
  | [] => ret datasets
  | dt :: hours' =>
      let* datasets' := process_hour dt datasets in
      hours_loop hours' datasets'
  end.

(** app.py lines 75-110. *)
Definition collect_hours (start end_ : Z) : M (list Dataset) :=
  if end_ <? start then ret [] else hours_loop (hours_in_range start end_) [].

(** app.py lines 112-141.  [ds_all] is bound only in the first branch of
    line 112; reading it unbound on line 121 is a [NameError], raised before
    [diary_prec_12z] is entered. *)
Definition after_loop (datasets : list Dataset) : M unit :=
  let* ds_all :=
    match datasets with
    | _ :: _ => let* d := lift (xr_concat datasets) in ret (Some d)
    | [] => ret None
    end in
  let* ds_all :=
    match ds_all with
    | Some d => ret d
    | None => raise (NameError "ds_all")
    end in
  do log (Invoked "diary_prec_12z") then
  let* ds_daily := lift (diary_prec_12z ds_all) in
  let* gdf_capitals := extract_capitals_from_shapefile shapefile_path uf_br in
  let* df_br := (fun w => (snd (extract_capitals_timeseries w ds_daily gdf_capitals), w)) in
  do makedirs output_dir then
  do write_file (path_join output_dir "capitals_br_daily_prec.parquet") (ParquetData df_br) then
  save_parquet_to_mongodb parquet_path "capitals" "precipitacao_diaria".

Definition main (start end_ : Z) : M unit :=
  let* datasets := collect_hours start end_ in
  after_loop datasets.

(** The run of [app.py] as committed. *)
Definition app : M unit :=
  main (Time.datetime 2025 1 2 23) (Time.datetime 2025 1 5 23).

End Pipeline.

Arguments mkFeature {polygon}.
Arguments SIGLA_UF {polygon}.
Arguments NM_MUN {polygon}.
Arguments geometry {polygon}.
Arguments MaskFrame {polygon}.
Arguments MaskPath {polygon}.
Arguments RawBytes {polygon}.
Arguments ShapefileData {polygon}.
Arguments ParquetData {polygon}.
Arguments mkWorld {polygon}.
Arguments files {polygon}.
Arguments dirs {polygon}.
Arguments trace {polygon}.
Arguments is_capital {polygon}.
Arguments extract_capitals_from_shapefile {polygon}.
Arguments mask_data {polygon}.
Arguments rio_clip {polygon}.
Arguments clip_grid {polygon}.
Arguments clip_cell {polygon}.
Arguments inside {polygon}.
Arguments capitals_loop {polygon}.
Arguments extract_capitals_timeseries {polygon}.
Arguments gpd_read_file {polygon}.
Arguments ret {polygon A}.
Arguments raise {polygon A}.
Arguments lift {polygon A}.
Arguments log {polygon}.
Arguments set_dirs {polygon}.
Arguments makedirs {polygon}.
Arguments write_file {polygon}.
Arguments save_stream {polygon}.
Arguments download_merge_cptec {polygon}.
Arguments save_parquet_to_mongodb {polygon}.
Arguments after_loop {polygon}.
Arguments set_files {polygon}.
Arguments bind {polygon A B}.
Arguments try_except {polygon A}.
Arguments xr_open_dataset {polygon}.
Arguments process_hour {polygon}.
Arguments hours_loop {polygon}.
Arguments collect_hours {polygon}.
Arguments main {polygon}.
Arguments app {polygon}.

(* ===================================================================== *)
(** ** Vocabulary of the statements *)
(* ===================================================================== *)

(** The cell of a field at row [i], column [j]. *)
Definition cell_row_at (g : list (list cell)) (i j : nat) : option cell :=
  match g !! i with
  | Some row => row !! j
  | None => None
  end.

(** The cell of the field at time index [t], row [i], column [j]. *)
Definition cell_at (p : list (list (list cell))) (t i j : nat) : option cell :=
  match p !! t with
  | Some g => cell_row_at g i j
  | None => None
  end.

(** The shape of a stack of fields: the lengths of the rows of each. *)
Definition shape (p : list Grid) : list (list nat) := map (map (@length cell)) p.

(** The longitude axis that [fix_coordinates] sorts. *)
Definition remapped_longitude (lon : list Q) : list Q :=
  if any_above_180 lon then map remap_longitude lon else lon.

(** Steps 4 to 6 of the loop body on an opened file: what the hour
    contributes to [datasets]. *)
Definition hourly_entry (ds : HourlyDataset) : result Dataset :=
  bind_result (select_prec ds)
              (fun ds' => expand_dims_valid_time (fix_coordinates ds')).

(** A path inside the download directory. *)
Definition in_merge_data (path : string) : bool := String.prefix "./merge_data/" path.

(** [w'] differs from [w] by downloads at most: files only under the
    download directory, no directory but that one, no event but requests. *)
Definition only_downloads {polygon : Type} (w w' : World polygon) : Prop :=
  (forall path, in_merge_data path = false -> files w' !! path = files w !! path)
  /\ (forall dir, dir ∈ dirs w' -> dir ∈ dirs w \/ dir = merge_data_dir)
  /\ (forall e, In e (trace w') -> In e (trace w) \/ exists url, e = HttpGet url).

(** The world once the directory is made and the request is sent. *)
Definition after_request {polygon : Type} (dt : Z) (dir : string) (w : World polygon)
  : World polygon :=
  {| files := files w;
     dirs := {[dir]} ∪ dirs w;
     trace := trace w ++ [HttpGet (merge_url dt)] |}.

(** Two datasets with the same times, coordinates and values. *)
Definition same_data (a b : Dataset) : Prop :=
  time_name a = time_name b /\ time a = time b /\ latitude a = latitude b
  /\ longitude a = longitude b /\ prec a = prec b.

(** The rows of a frame that belong to the region [uf]. *)
Definition rows_of_region {polygon : Type} (uf : string) (gdf : list (Feature polygon))
  : list (Feature polygon) :=
  List.filter (fun row => String.eqb (SIGLA_UF row) uf) gdf.

(** The rows of a frame whose code and name are [uf] and [name]. *)
Definition rows_matching {polygon : Type} (uf name : string) (gdf : list (Feature polygon))
  : list (Feature polygon) :=
  List.filter (fun row => String.eqb (SIGLA_UF row) uf && String.eqb (NM_MUN row) name) gdf.

(* ===================================================================== *)
(** ** Inputs of the scenarios *)
(* ===================================================================== *)

(** A grid of [nlat] rows and [nlon] columns holding [v] everywhere. *)
Definition const_grid (nlat nlon : nat) (v : cell) : Grid :=
  repeat (repeat v nlon) nlat.

(** [n] consecutive hourly timestamps from [t0] on. *)
Definition hourly_from (t0 : Z) (n : nat) : list Z :=
  map (fun i => t0 + Z.of_nat i * Time.ns_per_hour) (seq 0 n).

(** An hourly dataset on the given axes whose every cell at every hour is [v]. *)
Definition constant_hours (lat lon : list Q) (t0 : Z) (n : nat) (v : cell) : Dataset :=
  {| time_name := valid_time;
     time := hourly_from t0 n;
     latitude := lat;
     longitude := lon;
     prec := repeat (const_grid (length lat) (length lon) v) n;
     attrs := [];
     rio_dims := None;
     spatial_ref := None |}.


(** One record keyed at 12:00, on a grid of one row and two columns. *)
Definition record_at_noon : Dataset :=
  {| time_name := valid_time;
     time := [Time.timestamp 2025 1 2 12];
     latitude := [0%Q];
     longitude := [0%Q; 1%Q];
     prec := [[[1.5%float; 0%float]]];
     attrs := [];
     rio_dims := None;
     spatial_ref := None |}.


(** Rectangles as polygons: a cell centre is inside when both coordinates
    are within the bounds. *)
Record Box : Type := mkBox {
  lat_min : Q; lat_max : Q; lon_min : Q; lon_max : Q
}.

Definition box_contains (b : Box) (la lo : Q) : bool :=
  Qle_bool (lat_min b) la && Qle_bool la (lat_max b)
  && Qle_bool (lon_min b) lo && Qle_bool lo (lon_max b).

(** One daily record on a grid of two rows and two columns. *)
Definition daily_2x2 : Dataset :=
  {| time_name := ref_time;
     time := [Time.timestamp 2025 1 2 12];
     latitude := [(-16)%Q; (-15)%Q];
     longitude := [(-48)%Q; (-47)%Q];
     prec := [[[1%float; 2%float]; [3%float; 4%float]]];
     attrs := [aggregation_period];
     rio_dims := None;
     spatial_ref := None |}.

Definition box_brasilia : Box :=
  {| lat_min := (-33 # 2)%Q; lat_max := (-31 # 2)%Q;
     lon_min := (-97 # 2)%Q; lon_max := (-95 # 2)%Q |}.

Definition box_goiania : Box :=
  {| lat_min := (-31 # 2)%Q; lat_max := (-29 # 2)%Q;
     lon_min := (-97 # 2)%Q; lon_max := (-93 # 2)%Q |}.

Definition row_brasilia : Feature Box :=
  {| SIGLA_UF := "DF"; NM_MUN := "Brasília"; geometry := box_brasilia |}.

(** The capital of GO under a name that is not the one of [uf_br]. *)
Definition row_goiania_misspelt : Feature Box :=
  {| SIGLA_UF := "GO"; NM_MUN := "Goiania"; geometry := box_goiania |}.

Definition row_goiania : Feature Box :=
  {| SIGLA_UF := "GO"; NM_MUN := "Goiânia"; geometry := box_goiania |}.

(** The same municipality in two rows. *)
Definition row_goiania_again : Feature Box :=
  {| SIGLA_UF := "GO"; NM_MUN := "Goiânia"; geometry := box_brasilia |}.

Definition empty_world : World Box :=
  {| files := ∅; dirs := ∅; trace := [] |}.

(** A world whose boundary file holds the given rows. *)
Definition world_with_boundaries (gdf : list (Feature Box)) : World Box :=
  {| files := {[ shapefile_path := ShapefileData gdf ]};
     dirs := ∅;
     trace := [] |}.

(** A grid whose longitudes reach 180 without exceeding it, and one that
    holds both ends of the circle. *)
Definition grid_lon_0_90_180 : HourlyDataset :=
  {| h_valid_time := Time.timestamp 2025 1 2 23;
     h_latitude := [0%Q];
     h_longitude := [0%Q; 90%Q; 180%Q];
     h_data_vars := [("prec", [[1%float; 2%float; 3%float]])] |}.

Definition grid_lon_0_360 : HourlyDataset :=
  {| h_valid_time := Time.timestamp 2025 1 2 23;
     h_latitude := [0%Q];
     h_longitude := [0%Q; 360%Q];
     h_data_vars := [("prec", [[1%float; 2%float]])] |}.

(** A grid as the MERGE files have it: longitudes counted from 0 to 360,
    latitudes from north to south. *)
Definition grid_merge_like : HourlyDataset :=
  {| h_valid_time := Time.timestamp 2024 12 31 0;
     h_latitude := [(-15)%Q; (-16)%Q];
     h_longitude := [312%Q; 313%Q];
     h_data_vars := [("prec", [[1%float; 2%float]; [3%float; 4%float]])] |}.

(** A server that has no file, a decoder that reads every file as
    [grid_merge_like], and a world where the file of the first hour of the
    run is left from before. *)
Definition server_404 : string -> result Response :=
  fun _ => Ok {| status_code := 404; iter_content := []; stream_error := None |}.

Definition decode_as_merge_like : list Byte.byte -> option HourlyDataset :=
  fun _ => Some grid_merge_like.

Definition world_with_stale_file : World Box :=
  {| files := {[ "./merge_data/MERGE_CPTEC_2025010223.grib2" := RawBytes [Byte.x47] ]};
     dirs := {[ "./merge_data" ]};
     trace := [] |}.

(** A server that has every file. *)
Definition server_200 : string -> result Response :=
  fun _ => Ok {| status_code := 200;
                 iter_content := [[Byte.x47; Byte.x52]; [Byte.x49; Byte.x42]];
                 stream_error := None |}.

(** A server whose transfers break off after the first chunk. *)
Definition server_200_broken : string -> result Response :=
  fun url => Ok {| status_code := 200;
                   iter_content := [[Byte.x47; Byte.x52]];
                   stream_error := Some (ConnectionError url) |}.

(* ===================================================================== *)
(** ** Vocabulary of the further properties *)
(* ===================================================================== *)

(** The cells of a row, and of a field, each with its coordinates. *)
Definition labelled_row (la : Q) (lon : list Q) (row : list cell) : list (Q * Q * cell) :=
  map (fun p : Q * cell => (la, fst p, snd p)) (combine lon row).

Definition labelled_cells (lat lon : list Q) (g : Grid) : list (Q * Q * cell) :=
  flat_map (fun p : Q * list cell => labelled_row (fst p) lon (snd p)) (combine lat g).

(** A field with one row per latitude and one cell per longitude. *)
Definition well_shaped (lat lon : list Q) (g : Grid) : Prop :=
  length g = length lat /\ Forall (fun row : list cell => length row = length lon) g.

(** The fields of the hours of [ds] that lie in the 24 hours from [k] on,
    in their order. *)
Definition in_window (k t : Z) : bool := (k <=? t) && (t <? k + Time.ns_per_day).

Definition hours_in_window (ds : Dataset) (k : Z) : list Grid :=
  map snd (List.filter (fun p : Z * Grid => in_window k (fst p))
                       (combine (time ds) (prec ds))).

(** The items of a list, each with its position. *)
Definition indexed {A : Type} (xs : list A) : list (nat * A) :=
  combine (seq 0 (length xs)) xs.

(** The hourly records of [ds] whose timestamp lies in the 24 hours from
    [k] on: the position of each in [ds] and its field, in their order. *)
Definition window_records (ds : Dataset) (k : Z) : list (nat * Grid) :=
  map snd (List.filter (fun p : Z * (nat * Grid) => in_window k (fst p))
                       (combine (time ds) (indexed (prec ds)))).


(** The polygons of the rows of [gdf] named [capital]. *)
Definition region_geometries {polygon : Type} (gdf : list (Feature polygon))
    (capital : string) : list polygon :=
  map geometry (List.filter (fun row => String.eqb (NM_MUN row) capital) gdf).

(** For each window of [ds], the mean of the cells that are not null and
    lie in the polygons of [capital]; null when there is no such cell. *)
Definition region_means {polygon : Type} (contains : polygon -> Q -> Q -> bool)
    (ds : Dataset) (gdf : list (Feature polygon)) (capital : string) : list (Z * cell) :=
  combine (time ds)
          (map (fun g => nanmean (clip_grid contains (region_geometries gdf capital)
                                            (latitude ds) (longitude ds) g))
               (prec ds)).

(** The mean of [capital] at the window [t], null where there is none. *)
Definition region_value {polygon : Type} (contains : polygon -> Q -> Q -> bool)
    (ds : Dataset) (gdf : list (Feature polygon)) (capital : string) (t : Z) : cell :=
  match List.find (fun p : Z * cell => fst p =? t) (region_means contains ds gdf capital) with
  | Some p => if is_nan (snd p) then nan else snd p
  | None => nan
  end.

(** The one-column frame of [capital]: its means, without the null ones. *)
Definition region_frame {polygon : Type} (contains : polygon -> Q -> Q -> bool)
    (ds : Dataset) (gdf : list (Feature polygon)) (capital : string) : DataFrame :=
  let rows := List.filter (fun r : Z * cell => negb (is_nan (snd r)))
                          (region_means contains ds gdf capital) in
  {| index := map fst rows; columns := [(capital, map snd rows)] |}.

(** A capital whose polygon holds no cell centre of [daily_2x2]. *)
Definition row_manaus_far : Feature Box :=
  {| SIGLA_UF := "AM"; NM_MUN := "Manaus";
     geometry := {| lat_min := (-4)%Q; lat_max := (-2)%Q;
                    lon_min := (-61)%Q; lon_max := (-59)%Q |} |}.

(** What the loop accumulates for one hour: a dataset over [valid_time]
    with a single record, on ascending axes. *)
Definition hourly_record (ds : Dataset) : Prop :=
  time_name ds = valid_time
  /\ length (time ds) = 1%nat /\ length (prec ds) = 1%nat
  /\ ascending (latitude ds) /\ ascending (longitude ds).

(** A world in which the table of the script is on the disk, with one row
    and one column. *)
Definition world_with_table : World Box :=
  {| files := {[ parquet_path :=
                   ParquetData {| index := [Time.timestamp 2024 12 30 12];
                                  columns := [("Brasília", [9%float])] |} ]};
     dirs := {[ output_dir ]};
     trace := [] |}.

(** The payload of a keyed pair replaced, the key kept. *)
Definition relabel {A B : Type} (h : Q * A -> B) (p : Q * A) : Q * B := (fst p, h p).
(* ===================================================================== *)
(** ** Checks of the time model on dates *)
(* ===================================================================== *)

Example strftime_start :
  Time.strftime_YmdH (Time.datetime 2025 1 2 23) = "2025010223".
Proof. reflexivity. Qed.

Example strftime_leap :
  Time.strftime_YmdH (Time.add_hour (Time.datetime 2024 2 28 23)) = "2024022900".
Proof. reflexivity. Qed.

Example ref_time_13h :
  Time.ref_time (Time.timestamp 2025 1 2 13) = Time.timestamp 2025 1 2 12.
Proof. reflexivity. Qed.

Example ref_time_noon_next_day :
  Time.ref_time (Time.timestamp 2025 1 3 12) = Time.timestamp 2025 1 3 12.
Proof. reflexivity. Qed.

Example ref_time_11h :
  Time.ref_time (Time.timestamp 2025 1 3 11) = Time.timestamp 2025 1 2 12.
Proof. reflexivity. Qed.

(* ===================================================================== *)
(** ** Accumulation windows *)
(* ===================================================================== *)

Section Windows.
Import Time.

Lemma ns_per_day_value : ns_per_day = 86400000000000.
Proof. reflexivity. Qed.

Lemma twelve_hours_value : Timedelta_hours 12 = 43200000000000.
Proof. reflexivity. Qed.

Ltac window_arith :=
  unfold ref_time, floor_1D in *;
  rewrite ?twelve_hours_value, ?ns_per_day_value in *;
  Z.div_mod_to_equations; lia.

Lemma ref_time_contains (t : Z) :
  ref_time t <= t < ref_time t + ns_per_day.
Proof. window_arith. Qed.

Lemma ref_time_at_noon (t : Z) :
  ref_time t mod ns_per_day = Timedelta_hours 12.
Proof. window_arith. Qed.

Lemma ref_time_unique (t k : Z) :
  k mod ns_per_day = Timedelta_hours 12 ->
  k <= t < k + ns_per_day ->
  k = ref_time t.
Proof. intros Hk Ht. window_arith. Qed.

Lemma ref_time_next_day (t : Z) :
  ref_time (t + ns_per_day) = ref_time t + ns_per_day.
Proof. window_arith. Qed.

Lemma ref_time_spacing (t t' : Z) :
  exists n : Z, ref_time t' - ref_time t = n * ns_per_day.
Proof.
  exists ((t' - Timedelta_hours 12) / ns_per_day - (t - Timedelta_hours 12) / ns_per_day).
  unfold ref_time, floor_1D. lia.
Qed.

Lemma ref_time_monotone (t t' : Z) : t <= t' -> ref_time t <= ref_time t'.
Proof. intros H. window_arith. Qed.

End Windows.

Lemma insert_unique_In (k x : Z) (l : list Z) :
  In x (insert_unique k l) <-> x = k \/ In x l.
Proof.
  induction l as [|y l IH]; simpl.
  - intuition.
  - destruct (k <? y) eqn:Hlt; [simpl; intuition|].
    destruct (k =? y) eqn:Heq.
    + apply Z.eqb_eq in Heq. subst. simpl. intuition.
    + simpl. rewrite IH. intuition.
Qed.

Lemma unique_sorted_In (x : Z) (l : list Z) :
  In x (unique_sorted l) <-> In x l.
Proof.
  induction l as [|y l IH]; simpl; [tauto|].
  rewrite insert_unique_In, IH. intuition.
Qed.

Lemma insert_unique_sorted (k : Z) (l : list Z) :
  StronglySorted Z.lt l -> StronglySorted Z.lt (insert_unique k l).
Proof.
  induction 1 as [|y l Hs IH Hall]; simpl.
  - repeat constructor.
  - destruct (k <? y) eqn:Hlt.
    + apply Z.ltb_lt in Hlt. constructor; [constructor; assumption|].
      constructor; [assumption|].
      rewrite List.Forall_forall in Hall |- *. intros x Hx.
      specialize (Hall _ Hx). lia.
    + destruct (k =? y) eqn:Heq; [constructor; assumption|].
      apply Z.ltb_ge in Hlt. apply Z.eqb_neq in Heq.
      constructor; [assumption|].
      apply List.Forall_forall. intros x Hx. apply insert_unique_In in Hx.
      destruct Hx as [->|Hx]; [lia|].
      rewrite List.Forall_forall in Hall. auto.
Qed.

Lemma unique_sorted_sorted (l : list Z) : StronglySorted Z.lt (unique_sorted l).
Proof.
  induction l; simpl; [constructor|]. now apply insert_unique_sorted.
Qed.

Lemma sorted_lt_NoDup (l : list Z) : StronglySorted Z.lt l -> List.NoDup l.
Proof.
  induction 1 as [|y l Hs IH Hall]; constructor; [|assumption].
  intros Hin. rewrite List.Forall_forall in Hall. specialize (Hall _ Hin). lia.
Qed.








Lemma select_group_map {A B : Type} (f : A -> B) (k : Z) (keys : list Z) (xs : list A) :
  select_group k keys (map f xs) = map f (select_group k keys xs).
Proof.
  revert xs. induction keys as [|k' keys IH]; intros [|x xs]; simpl; try reflexivity.
  destruct (k' =? k); simpl; now rewrite IH.
Qed.


Lemma in_window_ref_time (k t : Z) :
  k mod Time.ns_per_day = Time.Timedelta_hours 12 ->
  in_window k t = (Time.ref_time t =? k).
Proof.
  intros Hk. unfold in_window.
  pose proof (ref_time_contains t) as Ht.
  destruct (Time.ref_time t =? k) eqn:E.
  - apply Z.eqb_eq in E. subst k.
    apply andb_true_iff. split; [apply Z.leb_le | apply Z.ltb_lt]; lia.
  - apply Z.eqb_neq in E. apply andb_false_iff.
    destruct (Z_le_gt_dec k t) as [Hle|Hgt]; [|left; apply Z.leb_gt; lia].
    destruct (Z_lt_le_dec t (k + Time.ns_per_day)) as [Hlt|Hge];
      [|right; apply Z.ltb_ge; lia].
    exfalso. apply E. symmetry. now apply ref_time_unique.
Qed.

Lemma select_group_in_window {A : Type} (k : Z) (ts : list Z) (gs : list A) :
  k mod Time.ns_per_day = Time.Timedelta_hours 12 ->
  select_group k (map Time.ref_time ts) gs
  = map snd (List.filter (fun p : Z * A => in_window k (fst p)) (combine ts gs)).
Proof.
  intros Hk. revert gs. induction ts as [|t ts IH]; intros [|g gs]; try reflexivity.
  cbn [map select_group combine List.filter fst].
  rewrite (in_window_ref_time k t Hk).
  destruct (Time.ref_time t =? k); cbn [map snd]; now rewrite IH.
Qed.

Lemma diary_prec_12z_ok (ds : Dataset) :
  time_name ds = valid_time -> time ds <> [] ->
  diary_prec_12z ds
  = Ok {| time_name := ref_time;
          time := unique_sorted (map Time.ref_time (time ds));
          latitude := latitude ds;
          longitude := longitude ds;
          prec := map (fun k => nansum_grids
                                  (select_group k (map Time.ref_time (time ds)) (prec ds)))
                      (unique_sorted (map Time.ref_time (time ds)));
          attrs := [aggregation_period];
          rio_dims := None;
          spatial_ref := spatial_ref ds |}.
Proof.
  intros Hname Hne. unfold diary_prec_12z. rewrite Hname.
  destruct (unique_sorted (map Time.ref_time (time ds))) as [|k labels] eqn:Hl;
    [|reflexivity].
  exfalso. destruct (time ds) as [|t ts]; [congruence|].
  assert (Hin : In (Time.ref_time t) (unique_sorted (map Time.ref_time (t :: ts))))
    by (apply unique_sorted_In; now left).
  rewrite Hl in Hin. destruct Hin.
Qed.

Lemma select_group_present {A : Type} (k : Z) (keys : list Z) (xs : list A) :
  length keys = length xs -> In k keys -> select_group k keys xs <> [].
Proof.
  revert xs. induction keys as [|k' keys IH]; intros xs Hlen Hin; [destruct Hin|].
  destruct xs as [|x xs]; [discriminate|].
  cbn [select_group]. destruct (k' =? k) eqn:E; [discriminate|].
  apply IH; [now injection Hlen|].
  destruct Hin as [Hin|Hin]; [|exact Hin].
  apply Z.eqb_neq in E. contradiction.
Qed.

(** What the aggregator returns, group by group. *)
Lemma diary_prec_12z_groups (ds out : Dataset) :
  diary_prec_12z ds = Ok out ->
  let keys := map Time.ref_time (time ds) in
  time out = unique_sorted keys
  /\ prec out = map (fun k => nansum_grids (select_group k keys (prec ds))) (time out)
  /\ (forall k, In k (time out) -> In k keys)
  /\ (forall k, In k (time out) ->
       select_group k keys (prec ds) = hours_in_window ds k).
Proof.
  intros Hout keys.
  destruct (time_name ds) eqn:Hname;
    [|unfold diary_prec_12z in Hout; rewrite Hname in Hout; discriminate].
  assert (Hne : time ds <> []).
  { intros E. unfold diary_prec_12z in Hout. rewrite Hname, E in Hout. discriminate. }
  rewrite (diary_prec_12z_ok ds Hname Hne) in Hout.
  injection Hout as <-. cbn [time prec]. fold keys.
  split; [reflexivity|]. split; [reflexivity|].
  assert (Hin : forall k, In k (unique_sorted keys) -> In k keys)
    by (intros k Hk; now apply (proj1 (unique_sorted_In k _)) in Hk).
  split; [exact Hin|].
  intros k Hk. apply Hin in Hk. subst keys.
  apply in_map_iff in Hk. destruct Hk as [t [<- _]].
  apply select_group_in_window. apply ref_time_at_noon.
Qed.

Lemma no_overflow_bounds (t : Z) :
  Time.no_overflow t <-> Time.timestamp 1677 9 22 12 <= t <= Time.int64_max.
Proof.
  unfold Time.no_overflow, Time.representable, Time.floor_1D.
  change (Time.timestamp 1677 9 22 12) with (-9223243200000000000).
  change Time.int64_min with (-9223372036854775808).
  change Time.int64_max with 9223372036854775807.
  change (Time.Timedelta_hours 12) with 43200000000000.
  change Time.ns_per_day with 86400000000000.
  split; intros H; Z.div_mod_to_equations; lia.
Qed.

Lemma ref_time_representable (t : Z) :
  Time.no_overflow t -> Time.no_overflow (Time.ref_time t).
Proof.
  intros H. apply no_overflow_bounds in H. apply no_overflow_bounds.
  revert H. unfold Time.ref_time, Time.floor_1D.
  change (Time.timestamp 1677 9 22 12) with (-9223243200000000000).
  change Time.int64_max with 9223372036854775807.
  change (Time.Timedelta_hours 12) with 43200000000000.
  change Time.ns_per_day with 86400000000000.
  intros H. Z.div_mod_to_equations. lia.
Qed.

Lemma map_snd_indexed {A : Type} (xs : list A) : map snd (indexed xs) = xs.
Proof.
  unfold indexed. generalize 0%nat. induction xs as [|x xs IH]; intros n; [reflexivity|].
  cbn [length seq combine map snd]. now rewrite IH.
Qed.

Lemma in_combine_indexed {A : Type} (ts : list Z) (xs : list A) (n : nat)
    (t : Z) (j : nat) (x : A) :
  In (t, (j, x)) (combine ts (combine (seq n (length xs)) xs))
  <-> exists i : nat, j = (n + i)%nat /\ ts !! i = Some t /\ xs !! i = Some x.
Proof.
  revert xs n. induction ts as [|t0 ts IH]; intros xs n.
  - cbn. split; [tauto|]. intros (i & _ & H & _). destruct i; discriminate.
  - destruct xs as [|x0 xs].
    + cbn. split; [tauto|]. intros (i & _ & _ & H). destruct i; discriminate.
    + cbn [length seq combine In]. rewrite (IH xs (S n)). split.
      * intros [H|(i & -> & Ht & Hx)].
        -- injection H as -> -> ->. exists 0%nat. repeat split. lia.
        -- exists (S i). repeat split; [lia|assumption..].
      * intros ([|i] & -> & Ht & Hx).
        -- left. cbn in Ht, Hx. injection Ht as ->. injection Hx as ->.
           now rewrite Nat.add_0_r.
        -- right. exists i. repeat split; [lia|assumption..].
Qed.

Lemma window_records_In (ds : Dataset) (k : Z) (i : nat) (g : Grid) :
  In (i, g) (window_records ds k)
  <-> exists t, time ds !! i = Some t /\ prec ds !! i = Some g /\ in_window k t = true.
Proof.
  unfold window_records, indexed. rewrite in_map_iff. split.
  - intros ([t [j x]] & Heq & Hin). cbn [snd] in Heq. injection Heq as -> ->.
    apply filter_In in Hin as [Hin Hw]. cbn [fst] in Hw.
    apply in_combine_indexed in Hin as (i' & -> & Ht & Hx).
    exists t. repeat split; assumption.
  - intros (t & Ht & Hx & Hw). exists (t, (i, g)). split; [reflexivity|].
    apply filter_In. split; [|exact Hw].
    apply in_combine_indexed. exists i. repeat split; assumption.
Qed.

Lemma window_records_fields (ds : Dataset) (k : Z) :
  k mod Time.ns_per_day = Time.Timedelta_hours 12 ->
  select_group k (map Time.ref_time (time ds)) (prec ds)
  = map snd (window_records ds k).
Proof.
  intros Hk. rewrite <- (map_snd_indexed (prec ds)) at 1.
  rewrite select_group_map. f_equal. now apply select_group_in_window.
Qed.

Lemma sorted_lookup_lt (l : list Z) (i j : nat) (a b : Z) :
  StronglySorted Z.lt l -> (i < j)%nat ->
  l !! i = Some a -> l !! j = Some b -> a < b.
Proof.
  intros Hs. revert i j. induction Hs as [|x l Hs IH Hall]; intros i j Hij Hi Hj.
  - destruct i; discriminate.
  - destruct j as [|j]; [lia|]. cbn in Hj. destruct i as [|i].
    + cbn in Hi. injection Hi as ->.
      rewrite List.Forall_forall in Hall. apply Hall.
      apply list_elem_of_In. exact (list_elem_of_lookup_2 _ _ _ Hj).
    + cbn in Hi. apply (IH i j); [lia|assumption..].
Qed.

(** C6: the aggregator puts every hourly record into exactly one window,
    the one whose key is [floor(t - 12h, 1 day) + 12h] for the timestamp
    [t] of the record.  That key stands once among the windows of the
    output and [t] lies in its 24 hours; every window of the output holds
    the sum of the records whose timestamps lie in the 24 hours from its
    key on, the record at hand is among them for its own key and for no
    other, and every key falls at 12:00.  A record 24 hours later belongs
    to the window whose key is 24 hours later.  The keys of two windows
    that follow each other in the output differ by a whole number of days:
    by exactly 24 hours when the input has an hour in the 24 hours after
    the first window, by more only when it has none.  (Stated for
    timestamps on which line 103 stays within the 64 bits of
    [datetime64[ns]].) *)
Theorem window_assignment (ds out : Dataset) (i : nat) (t : Z) (g : Grid) :
  length (time ds) = length (prec ds) ->
  Forall Time.no_overflow (time ds) ->
  diary_prec_12z ds = Ok out ->
  time ds !! i = Some t ->
  prec ds !! i = Some g ->
  let k := Time.floor_1D (t - Time.Timedelta_hours 12) + Time.Timedelta_hours 12 in
  (exists w : nat, time out !! w = Some k /\ forall w', time out !! w' = Some k -> w' = w)
  /\ k <= t < k + Time.ns_per_day
  /\ (forall (w : nat) (k' : Z),
        time out !! w = Some k' ->
        prec out !! w = Some (nansum_grids (map snd (window_records ds k')))
        /\ (In (i, g) (window_records ds k') <-> k' = k)
        /\ k' mod Time.ns_per_day = Time.Timedelta_hours 12
        /\ Time.representable k')
  /\ (forall (j : nat) (g' : Grid),
        time ds !! j = Some (t + Time.ns_per_day) -> prec ds !! j = Some g' ->
        forall (w : nat) (k' : Z),
          time out !! w = Some k' ->
          (In (j, g') (window_records ds k') <-> k' = k + Time.ns_per_day))
  /\ (forall (w : nat) (k1 k2 : Z),
        time out !! w = Some k1 -> time out !! S w = Some k2 ->
        (exists n : Z, 1 <= n /\ k2 - k1 = n * Time.ns_per_day)
        /\ (k2 - k1 = Time.ns_per_day <->
            exists t', In t' (time ds)
                       /\ k1 + Time.ns_per_day <= t' < k1 + 2 * Time.ns_per_day)).
Proof.
  intros Hlen Hrange Hout Ht Hg k. fold (Time.ref_time t) in k.
  destruct (diary_prec_12z_groups ds out Hout) as (Htime & Hprec & Hkeys & _).
  set (keys := map Time.ref_time (time ds)) in *.
  assert (Hsorted : StronglySorted Z.lt (time out))
    by (rewrite Htime; apply unique_sorted_sorted).
  assert (Hnodup : NoDup (time out))
    by (apply NoDup_ListNoDup, sorted_lt_NoDup, Hsorted).
  assert (Hlabel : forall t', In t' (time ds) -> In (Time.ref_time t') (time out)).
  { intros t' Hin. rewrite Htime. apply unique_sorted_In. now apply in_map. }
  assert (Hfrom : forall k', In k' (time out) ->
            exists t', In t' (time ds) /\ Time.ref_time t' = k').
  { intros k' Hin. apply Hkeys in Hin. apply in_map_iff in Hin as (t' & <- & Hin). eauto. }
  assert (Hin_t : In t (time ds))
    by (apply list_elem_of_In; exact (list_elem_of_lookup_2 _ _ _ Ht)).
  assert (Hat : forall w k', time out !! w = Some k' -> In k' (time out))
    by (intros w k' H; apply list_elem_of_In; exact (list_elem_of_lookup_2 _ _ _ H)).
  assert (Hnoon : forall w k', time out !! w = Some k' ->
            k' mod Time.ns_per_day = Time.Timedelta_hours 12).
  { intros w k' Hw. destruct (Hfrom k' (Hat w k' Hw)) as (t' & _ & <-).
    apply ref_time_at_noon. }
  assert (Hmember : forall (j : nat) (tj : Z) (gj : Grid) (w : nat) (k' : Z),
            time ds !! j = Some tj -> prec ds !! j = Some gj ->
            time out !! w = Some k' ->
            (In (j, gj) (window_records ds k') <-> k' = Time.ref_time tj)).
  { intros j tj gj w k' Htj Hgj Hw. pose proof (Hnoon w k' Hw) as Hk'.
    rewrite window_records_In. split.
    - intros (t0 & Ht0 & _ & Hw0). rewrite Htj in Ht0. injection Ht0 as <-.
      rewrite (in_window_ref_time _ tj Hk') in Hw0. apply Z.eqb_eq in Hw0.
      now symmetry.
    - intros Heq. exists tj. split; [exact Htj|]. split; [exact Hgj|].
      rewrite (in_window_ref_time _ tj Hk'). apply Z.eqb_eq. now symmetry. }
  split.
  { pose proof (Hlabel t Hin_t) as Hk. apply list_elem_of_In in Hk.
    apply list_elem_of_lookup_1 in Hk as [w Hw]. exists w. split; [exact Hw|].
    intros w' Hw'. exact (NoDup_lookup _ _ _ _ Hnodup Hw' Hw). }
  split; [apply ref_time_contains|].
  split.
  { intros w k' Hw.
    split.
    { rewrite Hprec. change (map ?f ?l) with (f <$> l).
      rewrite list_lookup_fmap, Hw. cbn [fmap option_fmap option_map].
      f_equal. f_equal. apply window_records_fields. exact (Hnoon w k' Hw). }
    split; [exact (Hmember i t g w k' Ht Hg Hw)|].
    split; [exact (Hnoon w k' Hw)|].
    destruct (Hfrom k' (Hat w k' Hw)) as (t' & Hin' & <-).
    rewrite List.Forall_forall in Hrange.
    exact (proj1 (ref_time_representable t' (Hrange t' Hin'))). }
  split.
  { intros j g' Htj Hgj w k' Hw.
    rewrite (Hmember j _ g' w k' Htj Hgj Hw), ref_time_next_day. reflexivity. }
  intros w k1 k2 Hw1 Hw2.
  assert (Hlt : k1 < k2) by (apply (sorted_lookup_lt (time out) w (S w)); auto).
  destruct (Hfrom k1 (Hat _ _ Hw1)) as (t1 & Hin1 & Hk1).
  destruct (Hfrom k2 (Hat _ _ Hw2)) as (t2 & Hin2 & Hk2).
  destruct (ref_time_spacing t1 t2) as [n Hn]. rewrite Hk1, Hk2 in Hn.
  pose proof ns_per_day_value as Hday.
  assert (Hn1 : 1 <= n) by (rewrite Hday in Hn; lia).
  split; [exists n; split; assumption|].
  split.
  - intros Hd. exists t2. split; [exact Hin2|].
    pose proof (ref_time_contains t2) as Hc. rewrite Hk2 in Hc. lia.
  - intros (t' & Hin' & Ht').
    assert (Hm : k1 + Time.ns_per_day = Time.ref_time t').
    { apply ref_time_unique; [|lia].
      pose proof (Hnoon _ _ Hw1) as Hn12.
      revert Hn12. rewrite Hday. change (Time.Timedelta_hours 12) with 43200000000000.
      intros Hn12. Z.div_mod_to_equations. lia. }
    pose proof (Hlabel t' Hin') as Hl. rewrite <- Hm in Hl.
    apply list_elem_of_In in Hl. apply list_elem_of_lookup_1 in Hl as [j Hj].
    destruct (Nat.lt_ge_cases w j) as [Hwj|Hjw].
    + destruct (Nat.eq_dec j (S w)) as [->|Hne].
      * rewrite Hw2 in Hj. injection Hj as Hj. lia.
      * assert (H : k2 < k1 + Time.ns_per_day)
          by (apply (sorted_lookup_lt (time out) (S w) j); auto; lia).
        rewrite Hday in *. nia.
    + destruct (Nat.eq_dec j w) as [->|Hne].
      * rewrite Hw1 in Hj. injection Hj as Hj. rewrite Hday in Hj. lia.
      * assert (H : k1 + Time.ns_per_day < k1)
          by (apply (sorted_lookup_lt (time out) j w); auto; lia).
        rewrite Hday in H. lia.
Qed.

(* ===================================================================== *)
(** ** Binary64 rounding *)
(* ===================================================================== *)

Section Binary64.
Local Open Scope Q_scope.

Lemma pow2_pos (e : Z) : 0 < pow2 e.
Proof. apply Qpower_0_lt. reflexivity. Qed.

Lemma pow2_plus (a b : Z) : pow2 (a + b) == pow2 a * pow2 b.
Proof. apply Qpower_plus. discriminate. Qed.

Lemma pow2_le (a b : Z) : (a <= b)%Z -> pow2 a <= pow2 b.
Proof. intros H. apply Qpower_le_compat_l; [exact H|discriminate]. Qed.

Lemma pow2_lt (a b : Z) : (a < b)%Z -> pow2 a < pow2 b.
Proof. intros H. apply Qpower_lt_compat_l; [exact H|reflexivity]. Qed.

Lemma pow2_lt_inv (a b : Z) : pow2 a < pow2 b -> (a < b)%Z.
Proof. intros H. apply (Qpower_lt_compat_l_inv 2); [exact H|reflexivity]. Qed.

Lemma pow2_Z (n : Z) : (0 <= n)%Z -> pow2 n == inject_Z (2 ^ n).
Proof. intros H. unfold pow2. now rewrite Zpower_Qpower. Qed.

Lemma pow2_succ (a : Z) : pow2 (a + 1) == 2 * pow2 a.
Proof. rewrite pow2_plus. unfold pow2 at 2. rewrite Qpower_1_r. ring. Qed.

Lemma pow2_minus (a b : Z) : pow2 (a - b) == pow2 a / pow2 b.
Proof. apply Qpower_minus. discriminate. Qed.

(** Between the powers of two of the logarithms of numerator and
    denominator. *)
Lemma log2_brackets (x : Q) :
  0 < x ->
  let e0 := (Z.log2 (Qnum x) - Z.log2 (Zpos (Qden x)))%Z in
  pow2 (e0 - 1) < x /\ x < pow2 (e0 + 1).
Proof.
  intros Hx e0. destruct x as [n d]. cbn [Qnum Qden] in *.
  assert (Hn : (0 < n)%Z) by (unfold Qlt in Hx; cbn in Hx; lia).
  pose proof (Z.log2_spec n Hn) as [Hn1 Hn2].
  pose proof (Z.log2_spec (Zpos d) (Pos2Z.is_pos d)) as [Hd1 Hd2].
  pose proof (Z.log2_nonneg n) as Ha. pose proof (Z.log2_nonneg (Zpos d)) as Hb.
  set (a := Z.log2 n) in *. set (b := Z.log2 (Zpos d)) in *.
  assert (Hq : n # d == inject_Z n / inject_Z (Zpos d)) by apply Qmake_Qdiv.
  assert (Hdpos : 0 < inject_Z (Zpos d)) by reflexivity.
  assert (Ha1 : pow2 a <= inject_Z n) by (rewrite pow2_Z by lia; now rewrite <- Zle_Qle).
  assert (Ha2 : inject_Z n < 2 * pow2 a).
  { rewrite <- pow2_succ, pow2_Z by lia. rewrite <- Zlt_Qlt. unfold Z.succ in Hn2. lia. }
  assert (Hb1 : pow2 b <= inject_Z (Zpos d)) by (rewrite pow2_Z by lia; now rewrite <- Zle_Qle).
  assert (Hb2 : inject_Z (Zpos d) < 2 * pow2 b).
  { rewrite <- pow2_succ, pow2_Z by lia. rewrite <- Zlt_Qlt. unfold Z.succ in Hd2. lia. }
  pose proof (pow2_pos a) as HA. pose proof (pow2_pos b) as HB.
  subst e0. rewrite Hq.
  set (N := inject_Z n) in *. set (D := inject_Z (Zpos d)) in *.
  replace (a - b - 1)%Z with (a - (b + 1))%Z by lia.
  replace (a - b + 1)%Z with (a + 1 - b)%Z by lia.
  rewrite !pow2_minus, !pow2_succ.
  set (A := pow2 a) in *. set (B := pow2 b) in *.
  split.
  - apply Qlt_shift_div_l; [exact Hdpos|].
    assert (H : A / (2 * B) * D == (A * D) / (2 * B)) by (field; lra).
    rewrite H. apply Qlt_shift_div_r; [lra|]. nra.
  - apply Qlt_shift_div_r; [exact Hdpos|].
    assert (H : 2 * A / B * D == (2 * A * D) / B) by (field; lra).
    rewrite H. apply Qlt_shift_div_l; [exact HB|]. nra.
Qed.

Lemma binade_spec (x : Q) : 0 < x -> pow2 (binade x) <= x /\ x < pow2 (binade x + 1).
Proof.
  intros Hx. destruct (log2_brackets x Hx) as [Hlo Hhi]. unfold binade.
  set (e0 := (Z.log2 (Qnum x) - Z.log2 (Zpos (Qden x)))%Z) in *.
  destruct (Qle_bool (pow2 e0) x) eqn:Hle.
  - apply Qle_bool_iff in Hle. split; assumption.
  - assert (Hlt : x < pow2 e0).
    { apply Qnot_le_lt. intros H. apply Qle_bool_iff in H. congruence. }
    replace (e0 - 1 + 1)%Z with e0 by lia. split; [now apply Qlt_le_weak|exact Hlt].
Qed.

Lemma binade_unique (x : Q) (e : Z) :
  pow2 e <= x -> x < pow2 (e + 1) -> binade x = e.
Proof.
  intros Hlo Hhi.
  assert (Hx : 0 < x) by (pose proof (pow2_pos e); lra).
  destruct (binade_spec x Hx) as [Hlo' Hhi'].
  assert (H1 : (binade x < e + 1)%Z) by (apply pow2_lt_inv; lra).
  assert (H2 : (e < binade x + 1)%Z) by (apply pow2_lt_inv; lra).
  lia.
Qed.

Lemma binade_comp (x y : Q) : 0 < x -> x == y -> binade x = binade y.
Proof.
  intros Hx Hxy. symmetry. destruct (binade_spec x Hx) as [Hlo Hhi].
  apply binade_unique; rewrite <- Hxy; assumption.
Qed.

Lemma binade_mono (x y : Q) : 0 < x -> x <= y -> (binade x <= binade y)%Z.
Proof.
  intros Hx Hxy.
  destruct (binade_spec x Hx) as [Hlo _].
  destruct (binade_spec y) as [_ Hhi]; [lra|].
  assert (H : (binade x < binade y + 1)%Z) by (apply pow2_lt_inv; lra).
  lia.
Qed.

(* rounding to the nearest integer, ties to even *)

Lemma rne_bounds (q : Q) : (Qfloor q <= rne q <= Qfloor q + 1)%Z.
Proof.
  unfold rne. destruct (q - inject_Z (Qfloor q) ?= 1 # 2); [destruct (Z.even _)|..]; lia.
Qed.

Lemma rne_comp (q q' : Q) : q == q' -> rne q = rne q'.
Proof.
  intros H. unfold rne. rewrite (Qfloor_comp _ _ H).
  assert (Hc : (q - inject_Z (Qfloor q') ?= 1 # 2) = (q' - inject_Z (Qfloor q') ?= 1 # 2)).
  { apply Qcompare_comp; [now rewrite H|reflexivity]. }
  now rewrite Hc.
Qed.

Lemma rne_Z (n : Z) : rne (inject_Z n) = n.
Proof.
  unfold rne. rewrite Qfloor_Z.
  assert (H : (inject_Z n - inject_Z n ?= 1 # 2) = Lt).
  { apply (proj1 (Qlt_alt _ _)). set (z := inject_Z n). lra. }
  now rewrite H.
Qed.

Lemma rne_mono (q q' : Q) : q <= q' -> (rne q <= rne q')%Z.
Proof.
  intros Hle.
  pose proof (Qfloor_resp_le _ _ Hle) as Hf.
  pose proof (rne_bounds q) as Hb. pose proof (rne_bounds q') as Hb'.
  destruct (Z.eq_dec (Qfloor q) (Qfloor q')) as [Heq|Hne]; [|lia].
  unfold rne in *. rewrite <- Heq in *. clear Hb Hb' Hf.
  set (f := Qfloor q) in *. set (F := inject_Z f) in *.
  destruct (Qcompare_spec (q - F) (1 # 2)); destruct (Qcompare_spec (q' - F) (1 # 2));
    try (destruct (Z.even f)); try lia; lra.
Qed.

Lemma rne_error (q : Q) : Qabs (inject_Z (rne q) - q) <= 1 # 2.
Proof.
  pose proof (Qfloor_le q) as Hlo. pose proof (Qlt_floor q) as Hhi.
  rewrite inject_Z_plus in Hhi. change (inject_Z 1) with 1 in Hhi.
  unfold rne. set (f := Qfloor q) in *. set (F := inject_Z f) in *.
  apply Qabs_Qle_condition.
  destruct (Qcompare_spec (q - F) (1 # 2));
    try (destruct (Z.even f));
    rewrite ?inject_Z_plus; change (inject_Z 1) with 1; fold F; split; lra.
Qed.

Lemma ulp_exp_mono (x y : Q) : 0 < x -> x <= y -> (ulp_exp x <= ulp_exp y)%Z.
Proof. intros Hx Hxy. unfold ulp_exp. pose proof (binade_mono x y Hx Hxy). lia. Qed.

Lemma ulp_exp_comp (x y : Q) : 0 < x -> x == y -> ulp_exp x = ulp_exp y.
Proof. intros Hx Hxy. unfold ulp_exp. now rewrite (binade_comp x y Hx Hxy). Qed.

Lemma div_pow2 (x : Q) (u : Z) : x / pow2 u * pow2 u == x.
Proof. pose proof (pow2_pos u). field. lra. Qed.

Lemma pow2_ratio (k u : Z) : (u <= k)%Z -> pow2 k / pow2 u == inject_Z (2 ^ (k - u)).
Proof. intros H. rewrite <- pow2_minus. apply pow2_Z. lia. Qed.

(** A positive number at most (at least) a multiple of its own unit is
    rounded to at most (at least) that multiple. *)
Lemma round_pos_le_grid (x : Q) (n : Z) :
  x <= inject_Z n * pow2 (ulp_exp x) -> round_pos x <= inject_Z n * pow2 (ulp_exp x).
Proof.
  intros H. unfold round_pos. set (u := ulp_exp x) in *.
  pose proof (pow2_pos u) as Hu.
  apply Qmult_le_compat_r; [|lra].
  rewrite <- Zle_Qle. rewrite <- (rne_Z n). apply rne_mono.
  apply Qle_shift_div_r; assumption.
Qed.

Lemma round_pos_ge_grid (x : Q) (n : Z) :
  inject_Z n * pow2 (ulp_exp x) <= x -> inject_Z n * pow2 (ulp_exp x) <= round_pos x.
Proof.
  intros H. unfold round_pos. set (u := ulp_exp x) in *.
  pose proof (pow2_pos u) as Hu.
  apply Qmult_le_compat_r; [|lra].
  rewrite <- Zle_Qle. rewrite <- (rne_Z n) at 1. apply rne_mono.
  apply Qle_shift_div_l; assumption.
Qed.

Lemma pow2_on_grid (k u : Z) : (u <= k)%Z -> pow2 k == inject_Z (2 ^ (k - u)) * pow2 u.
Proof.
  intros H. rewrite <- pow2_ratio by exact H. pose proof (pow2_pos u). field. lra.
Qed.

Lemma round_pos_le_pow (x : Q) (k : Z) :
  (ulp_exp x <= k)%Z -> x <= pow2 k -> round_pos x <= pow2 k.
Proof.
  intros Hu Hx. rewrite (pow2_on_grid k (ulp_exp x) Hu) in *.
  now apply round_pos_le_grid.
Qed.

Lemma round_pos_ge_pow (x : Q) (k : Z) :
  (ulp_exp x <= k)%Z -> pow2 k <= x -> pow2 k <= round_pos x.
Proof.
  intros Hu Hx. rewrite (pow2_on_grid k (ulp_exp x) Hu) in *.
  now apply round_pos_ge_grid.
Qed.

Lemma round_pos_nonneg (x : Q) : 0 <= x -> 0 <= round_pos x.
Proof.
  intros Hx.
  assert (H : inject_Z 0 * pow2 (ulp_exp x) <= round_pos x).
  { apply round_pos_ge_grid. change (inject_Z 0) with 0. lra. }
  change (inject_Z 0) with 0 in H. lra.
Qed.

Lemma round_pos_mono (x y : Q) : 0 < x -> x <= y -> round_pos x <= round_pos y.
Proof.
  intros Hx Hxy.
  pose proof (ulp_exp_mono x y Hx Hxy) as Hu.
  destruct (Z.eq_dec (ulp_exp x) (ulp_exp y)) as [Heq|Hne].
  - unfold round_pos. rewrite Heq. set (u := ulp_exp y).
    pose proof (pow2_pos u) as Hp.
    apply Qmult_le_compat_r; [|lra].
    rewrite <- Zle_Qle. apply rne_mono.
    apply Qle_shift_div_l; [exact Hp|]. rewrite div_pow2. exact Hxy.
  - assert (Hy : 0 < y) by lra.
    destruct (binade_spec x Hx) as [_ Hhi]. destruct (binade_spec y Hy) as [Hlo _].
    assert (Hb : (binade x + 1 <= binade y)%Z) by (unfold ulp_exp in *; lia).
    apply Qle_trans with (pow2 (binade y)).
    + apply round_pos_le_pow; [unfold ulp_exp in *; lia|].
      pose proof (pow2_le _ _ Hb). lra.
    + apply round_pos_ge_pow; [unfold ulp_exp in *; lia|exact Hlo].
Qed.

Lemma round_pos_comp (x y : Q) : 0 < x -> x == y -> round_pos x == round_pos y.
Proof.
  intros Hx Hxy. unfold round_pos. rewrite (ulp_exp_comp x y Hx Hxy).
  assert (H : x / pow2 (ulp_exp y) == y / pow2 (ulp_exp y)) by now rewrite Hxy.
  now rewrite (rne_comp _ _ H).
Qed.

Lemma b64_neg (x : Q) : x < 0 -> b64 x == - round_pos (- x).
Proof.
  intros H. unfold b64. rewrite Qred_correct.
  destruct (Qcompare_spec x 0); [lra|reflexivity|lra].
Qed.

Lemma b64_pos (x : Q) : 0 < x -> b64 x == round_pos x.
Proof.
  intros H. unfold b64. rewrite Qred_correct.
  destruct (Qcompare_spec x 0); [lra|lra|reflexivity].
Qed.

Lemma b64_zero (x : Q) : x == 0 -> b64 x == 0.
Proof.
  intros H. unfold b64. rewrite Qred_correct.
  destruct (Qcompare_spec x 0); [reflexivity|lra|lra].
Qed.

(** Rounding keeps the order. *)
Lemma b64_mono (x y : Q) : x <= y -> b64 x <= b64 y.
Proof.
  intros Hxy.
  destruct (Qcompare_spec x 0) as [Hx|Hx|Hx]; destruct (Qcompare_spec y 0) as [Hy|Hy|Hy];
    try lra;
    rewrite ?(b64_zero x) by assumption; rewrite ?(b64_zero y) by assumption;
    rewrite ?(b64_neg x) by assumption; rewrite ?(b64_neg y) by assumption;
    rewrite ?(b64_pos x) by assumption; rewrite ?(b64_pos y) by assumption;
    try lra.
  - assert (H : 0 <= round_pos y) by (apply round_pos_nonneg; lra). lra.
  - assert (H : 0 <= round_pos (- x)) by (apply round_pos_nonneg; lra). lra.
  - assert (H : round_pos (- y) <= round_pos (- x)) by (apply round_pos_mono; lra). lra.
  - assert (H : 0 <= round_pos (- x)) by (apply round_pos_nonneg; lra).
    assert (H' : 0 <= round_pos y) by (apply round_pos_nonneg; lra). lra.
  - apply round_pos_mono; lra.
Qed.

Lemma b64_comp (x y : Q) : x == y -> b64 x = b64 y.
Proof.
  intros Hxy. unfold b64. apply Qred_complete.
  destruct (Qcompare_spec x 0) as [Hx|Hx|Hx]; destruct (Qcompare_spec y 0) as [Hy|Hy|Hy];
    try lra; try reflexivity.
  - apply Qopp_comp. apply round_pos_comp; [lra|now rewrite Hxy].
  - now apply round_pos_comp.
Qed.

(** The error of a rounding is at most half a unit. *)
Lemma round_pos_error (x : Q) :
  Qabs (round_pos x - x) <= pow2 (ulp_exp x) / 2.
Proof.
  unfold round_pos. set (u := ulp_exp x). pose proof (pow2_pos u) as Hp.
  pose proof (rne_error (x / pow2 u)) as He.
  apply Qabs_Qle_condition in He. apply Qabs_Qle_condition.
  pose proof (div_pow2 x u) as Hx.
  set (q := x / pow2 u) in *. set (r := inject_Z (rne q)) in *. set (P := pow2 u) in *.
  destruct He as [He1 He2].
  assert (H1 : (r - q) * P <= (1 # 2) * P) by (apply Qmult_le_compat_r; lra).
  assert (H2 : - (1 # 2) * P <= (r - q) * P) by (apply Qmult_le_compat_r; lra).
  assert (H3 : P / 2 == (1 # 2) * P) by field.
  rewrite H3. split; lra.
Qed.

(** [b64] against the binary64 arithmetic of the machine: sums and
    differences of the kind the remapping makes, a tie, a quotient, a
    number below the normal range. *)
Example b64_is_binary64 :
  let lon := 0x1.e01999999999ap+7%float in
  let tiny := 0x1p-45%float in
  b64 (float_value lon + 180) == float_value (lon + 180)
  /\ b64 (float_value (lon + 180) - 360) == float_value (lon + 180 - 360)
  /\ b64 (- float_value tiny + 360) == float_value (- tiny + 360)
  /\ b64 (1 / 3) == float_value (1 / 3)
  /\ b64 (float_value 0x1.999999999999ap-4 + float_value 0x1.999999999999ap-3)
     == float_value (0x1.999999999999ap-4 + 0x1.999999999999ap-3)
  /\ b64 (3 * pow2 (-1075)) == float_value (0x1p-1073)
  /\ b64 (float_value lon) == float_value lon.
Proof. repeat split; vm_compute; reflexivity. Qed.

Lemma b64_constants :
  b64 0 = 0 /\ b64 180 = 180 /\ b64 360 = 360 /\ b64 (-180) = -180.
Proof. repeat split; vm_compute; reflexivity. Qed.

Lemma b64_between (lo hi x : Q) :
  b64 lo = lo -> b64 hi = hi -> lo <= x <= hi -> lo <= b64 x <= hi.
Proof.
  intros Hlo Hhi [H1 H2].
  pose proof (b64_mono lo x H1) as A. pose proof (b64_mono x hi H2) as B.
  rewrite Hlo in A. rewrite Hhi in B. split; assumption.
Qed.

End Binary64.

(* ===================================================================== *)
(** ** Coordinate Normalizer *)
(* ===================================================================== *)

Lemma Qmod_bounds (x : Q) : (0 <= Qmod x 360 /\ Qmod x 360 < 360)%Q.
Proof.
  unfold Qmod.
  pose proof (Qfloor_le (x / 360)) as Hlo.
  pose proof (Qlt_floor (x / 360)) as Hhi.
  rewrite inject_Z_plus in Hhi.
  assert (Hx : (x == 360 * (x / 360))%Q) by field.
  set (q := (x / 360)%Q) in *.
  set (f := inject_Z (Qfloor q)) in *.
  change (inject_Z 1) with 1%Q in Hhi.
  split; lra.
Qed.

Lemma fmod_bounds (a : Q) : (-360 < fmod a 360 /\ fmod a 360 < 360)%Q.
Proof.
  unfold fmod. destruct (Qle_bool 0 a).
  - destruct (Qmod_bounds a). split; lra.
  - destruct (Qmod_bounds (- a)). split; lra.
Qed.

(** The remainder is within the period, both ends included: a negative
    remainder next to zero is rounded up to the period itself. *)
Lemma np_remainder_bounds (a : Q) :
  (0 <= np_remainder a 360 /\ np_remainder a 360 <= 360)%Q.
Proof.
  unfold np_remainder. destruct (fmod_bounds a) as [Hlo Hhi].
  destruct (Qle_bool 0 (fmod a 360)) eqn:Hr.
  - apply Qle_bool_iff in Hr. split; lra.
  - destruct b64_constants as (H0 & _ & H360 & _).
    apply b64_between; [exact H0|exact H360|].
    assert (Hneg : (fmod a 360 < 0)%Q).
    { apply Qnot_le_lt. intros H. apply Qle_bool_iff in H. congruence. }
    split; lra.
Qed.

Lemma remap_longitude_range (l : Q) : within_pm180 (remap_longitude l).
Proof.
  unfold within_pm180, remap_longitude.
  destruct b64_constants as (_ & H180 & _ & Hm180).
  apply b64_between; [exact Hm180|exact H180|].
  destruct (np_remainder_bounds (b64 (l + 180))). split; lra.
Qed.

(** Binary64 at work: a longitude one unit in the last place below -180
    comes out as 180 itself, and longitudes that differ by less than the
    rounding come out equal. *)
Example remap_longitude_reaches_180 :
  remap_longitude (-180 - (1 # 2 ^ 45)) = 180%Q.
Proof. vm_compute. reflexivity. Qed.

(** A longitude of the MERGE grid, 240.05: the remapping is the binary64
    computation [lon + 180], less a full turn, less 180. *)
Example remap_longitude_of_merge_value :
  let lon := 0x1.e01999999999ap+7%float in
  (remap_longitude (float_value lon) == float_value (lon + 180 - 360 - 180))%Q.
Proof. vm_compute. reflexivity. Qed.

Example remap_longitude_merges :
  remap_longitude 0 = remap_longitude (1 # 10 ^ 20).
Proof. vm_compute. reflexivity. Qed.

Section KeyedSort.
Context {A : Type}.

Definition key_le (p q : Q * A) : Prop := (fst p <= fst q)%Q.
Definition key_lt (p q : Q * A) : Prop := (fst p < fst q)%Q.

Lemma insert_keyed_perm (k : Q) (a : A) (l : list (Q * A)) :
  Permutation ((k, a) :: l) (insert_keyed k a l).
Proof.
  induction l as [|[k' a'] l IH]; simpl; [reflexivity|].
  destruct (Qle_bool k k'); [reflexivity|].
  etransitivity; [apply perm_swap|]. now apply perm_skip.
Qed.

Lemma sort_keyed_perm (l : list (Q * A)) : Permutation l (sort_keyed l).
Proof.
  induction l as [|[k a] l IH]; simpl; [reflexivity|].
  etransitivity; [apply perm_skip, IH|]. apply insert_keyed_perm.
Qed.

Lemma insert_keyed_sorted (k : Q) (a : A) (l : list (Q * A)) :
  StronglySorted key_le l -> StronglySorted key_le (insert_keyed k a l).
Proof.
  induction 1 as [|[k' a'] l Hs IH Hall]; simpl.
  - repeat constructor.
  - destruct (Qle_bool k k') eqn:Hk.
    + apply Qle_bool_iff in Hk.
      constructor; [constructor; assumption|].
      constructor; [exact Hk|].
      rewrite List.Forall_forall in Hall |- *. intros x Hx.
      specialize (Hall _ Hx). unfold key_le in *. simpl in *. lra.
    + assert (Hk' : (k' <= k)%Q).
      { apply Qlt_le_weak, Qnot_le_lt. intros Hle.
        apply Qle_bool_iff in Hle. congruence. }
      constructor; [assumption|].
      rewrite List.Forall_forall in Hall |- *. intros x Hx.
      apply (Permutation_in _ (Permutation_sym (insert_keyed_perm k a l))) in Hx.
      destruct Hx as [<-|Hx]; [exact Hk'|auto].
Qed.

Lemma sort_keyed_sorted (l : list (Q * A)) : StronglySorted key_le (sort_keyed l).
Proof.
  induction l as [|[k a] l IH]; simpl; [constructor|].
  now apply insert_keyed_sorted.
Qed.

Lemma insert_keyed_strict (k : Q) (a : A) (l : list (Q * A)) :
  Forall (fun p => ~ (k == fst p)%Q) l ->
  StronglySorted key_lt l -> StronglySorted key_lt (insert_keyed k a l).
Proof.
  intros Hne Hs. induction Hs as [|[k' a'] l Hs IH Hall]; simpl.
  - repeat constructor.
  - apply List.Forall_cons_iff in Hne. destruct Hne as [Hne1 Hne].
    simpl in Hne1.
    destruct (Qle_bool k k') eqn:Hk.
    + apply Qle_bool_iff in Hk.
      assert (Hlt : (k < k')%Q).
      { destruct (Qlt_le_dec k k') as [H|H]; [exact H|].
        exfalso. apply Hne1. now apply Qle_antisym. }
      constructor; [constructor; assumption|].
      constructor; [exact Hlt|].
      rewrite List.Forall_forall in Hall |- *. intros x Hx.
      specialize (Hall _ Hx). unfold key_lt in *. simpl in *. lra.
    + assert (Hk' : (k' < k)%Q).
      { apply Qnot_le_lt. intros Hle. apply Qle_bool_iff in Hle. congruence. }
      constructor; [now apply IH|].
      rewrite List.Forall_forall in Hall |- *. intros x Hx.
      apply (Permutation_in _ (Permutation_sym (insert_keyed_perm k a l))) in Hx.
      destruct Hx as [<-|Hx]; [exact Hk'|auto].
Qed.

Lemma sort_keyed_strict (l : list (Q * A)) :
  distinct_values (map fst l) -> StronglySorted key_lt (sort_keyed l).
Proof.
  induction l as [|[k a] l IH]; simpl; [constructor|].
  intros [Hne Hd]. apply insert_keyed_strict; [|auto].
  rewrite List.Forall_forall in Hne |- *. intros p Hp.
  apply (Permutation_in _ (Permutation_sym (sort_keyed_perm l))) in Hp.
  apply Hne. now apply in_map.
Qed.

End KeyedSort.

Lemma sorted_map_fst {A : Type} (R : Q -> Q -> Prop) (l : list (Q * A)) :
  StronglySorted (fun p q => R (fst p) (fst q)) l -> StronglySorted R (map fst l).
Proof.
  induction 1 as [|p l Hs IH Hall]; simpl; constructor; [assumption|].
  rewrite List.Forall_forall in Hall |- *. intros x Hx.
  apply in_map_iff in Hx. destruct Hx as [q [<- Hq]]. auto.
Qed.

Lemma combine_self_fst (k : list Q) : map fst (combine k k) = k.
Proof. induction k; simpl; congruence. Qed.

Lemma combine_self_snd (k : list Q) : map snd (combine k k) = k.
Proof. induction k; simpl; congruence. Qed.

Lemma combine_self_diag (k : list Q) (p : Q * Q) : In p (combine k k) -> fst p = snd p.
Proof.
  induction k as [|x k IH]; simpl; [tauto|].
  intros [<-|H]; [reflexivity|auto].
Qed.

(** Sorting an axis by itself gives the sorted axis. *)
Lemma reorder_self (k : list Q) : reorder_by k k = map fst (sort_keyed (combine k k)).
Proof.
  unfold reorder_by. apply map_ext_in. intros p Hp. symmetry.
  apply combine_self_diag with (k := k).
  exact (Permutation_in _ (Permutation_sym (sort_keyed_perm _)) Hp).
Qed.

Lemma reorder_self_perm (k : list Q) : Permutation k (reorder_by k k).
Proof.
  unfold reorder_by. rewrite <- (combine_self_snd k) at 1.
  apply Permutation_map, sort_keyed_perm.
Qed.

Lemma reorder_self_ascending (k : list Q) : ascending (reorder_by k k).
Proof.
  rewrite reorder_self. apply sorted_map_fst. apply sort_keyed_sorted.
Qed.

Lemma reorder_self_strict (k : list Q) :
  distinct_values k -> strictly_ascending (reorder_by k k).
Proof.
  intros Hd. rewrite reorder_self. apply sorted_map_fst.
  apply sort_keyed_strict. now rewrite combine_self_fst.
Qed.

Lemma any_above_180_false (lon : list Q) :
  any_above_180 lon = false -> Forall (fun l => (l <= 180)%Q) lon.
Proof.
  unfold any_above_180. induction lon as [|x lon IH]; simpl; [constructor|].
  intros H. apply orb_false_iff in H. destruct H as [Hx H].
  constructor; [|auto].
  apply negb_false_iff in Hx. now apply Qle_bool_iff.
Qed.

Section RemapSeparation.
Local Open Scope Q_scope.

Lemma pow2_half (k : Z) : pow2 k / 2 == pow2 (k - 1).
Proof.
  rewrite pow2_minus. unfold pow2 at 3. rewrite Qpower_1_r. reflexivity.
Qed.

Lemma ulp_exp_below (x : Q) (k : Z) :
  0 < x -> x < pow2 k -> (-1074 <= k - 53)%Z -> (ulp_exp x <= k - 53)%Z.
Proof.
  intros Hx Hk Hmin. destruct (binade_spec x Hx) as [Hlo _].
  assert (H : (binade x < k)%Z) by (apply pow2_lt_inv; lra).
  unfold ulp_exp. lia.
Qed.

(** Below [2^k] the error of a rounding is at most [2^(k-54)]. *)
Lemma b64_error (x : Q) (k : Z) :
  Qabs x < pow2 k -> (-1074 <= k - 53)%Z -> Qabs (b64 x - x) <= pow2 (k - 54).
Proof.
  intros Hk Hmin.
  assert (Hstep : forall y, 0 < y -> y < pow2 k -> Qabs (round_pos y - y) <= pow2 (k - 54)).
  { intros y Hy Hyk. eapply Qle_trans; [apply round_pos_error|].
    rewrite pow2_half. apply pow2_le.
    pose proof (ulp_exp_below y k Hy Hyk Hmin). lia. }
  pose proof (pow2_pos (k - 54)) as Hp.
  destruct (Qcompare_spec x 0) as [Hx|Hx|Hx].
  - rewrite (b64_zero x Hx). apply Qabs_Qle_condition. split; lra.
  - rewrite (b64_neg x Hx).
    assert (Habs : Qabs x == - x) by (apply Qabs_neg; lra).
    rewrite Habs in Hk. specialize (Hstep (- x) ltac:(lra) Hk).
    apply Qabs_Qle_condition in Hstep. apply Qabs_Qle_condition. split; lra.
  - rewrite (b64_pos x Hx).
    assert (Habs : Qabs x == x) by (apply Qabs_pos; lra).
    rewrite Habs in Hk. exact (Hstep x Hx Hk).
Qed.

Lemma Qfloor_unique (q : Q) (n : Z) :
  inject_Z n <= q -> q < inject_Z n + 1 -> Qfloor q = n.
Proof.
  intros Hlo Hhi.
  pose proof (Qfloor_le q) as H1. pose proof (Qlt_floor q) as H2.
  rewrite inject_Z_plus in H2. change (inject_Z 1) with 1 in H2.
  assert (A : inject_Z (Qfloor q) < inject_Z (n + 1))
    by (rewrite inject_Z_plus; change (inject_Z 1) with 1; lra).
  assert (B : inject_Z n < inject_Z (Qfloor q + 1))
    by (rewrite inject_Z_plus; change (inject_Z 1) with 1; lra).
  rewrite <- Zlt_Qlt in A, B. lia.
Qed.

Lemma Qmod_first_turn (x : Q) : 0 <= x -> x < 360 -> Qmod x 360 == x.
Proof.
  intros Hlo Hhi. unfold Qmod.
  assert (H : Qfloor (x / 360) = 0%Z).
  { apply Qfloor_unique; change (inject_Z 0) with 0.
    - apply Qle_shift_div_l; lra.
    - apply Qlt_shift_div_r; lra. }
  rewrite H. change (inject_Z 0) with 0. ring.
Qed.

Lemma Qmod_second_turn (x : Q) : 360 <= x -> x < 720 -> Qmod x 360 == x - 360.
Proof.
  intros Hlo Hhi. unfold Qmod.
  assert (H : Qfloor (x / 360) = 1%Z).
  { apply Qfloor_unique; change (inject_Z 1) with 1.
    - apply Qle_shift_div_l; lra.
    - apply Qlt_shift_div_r; lra. }
  rewrite H. change (inject_Z 1) with 1. ring.
Qed.

Lemma np_remainder_nonneg (a : Q) : 0 <= a -> np_remainder a 360 == Qmod a 360.
Proof.
  intros Ha. unfold np_remainder, fmod.
  assert (H : Qle_bool 0 a = true) by now apply Qle_bool_iff.
  rewrite H.
  assert (H' : Qle_bool 0 (Qmod a 360) = true)
    by (apply Qle_bool_iff; apply Qmod_bounds).
  now rewrite H'.
Qed.

(** What the remapping is on the longitudes from 0 to 360: one rounding of
    [lon + 180], an exact remainder, and one rounding of the difference. *)
Lemma remap_longitude_shape (l : Q) :
  0 <= l -> l < 360 ->
  exists A D : Q,
    remap_longitude l = b64 D
    /\ Qabs (A - (l + 180)) <= pow2 (-44)
    /\ 180 <= A /\ A <= 540
    /\ (A < 360 -> D == A - 180)
    /\ (360 <= A -> D == A - 540)
    /\ Qabs (b64 D - D) <= pow2 (-46).
Proof.
  intros Hlo Hhi. set (A := b64 (l + 180)).
  assert (HA : 180 <= A /\ A <= 540).
  { apply b64_between; [vm_compute; reflexivity|vm_compute; reflexivity|]. split; lra. }
  assert (Herr : Qabs (A - (l + 180)) <= pow2 (-44)).
  { apply (b64_error (l + 180) 10); [|lia].
    assert (Habs : Qabs (l + 180) == l + 180) by (apply Qabs_pos; lra).
    rewrite Habs. change (pow2 10) with 1024. lra. }
  assert (Hrem : np_remainder A 360 == Qmod A 360) by (apply np_remainder_nonneg; lra).
  exists A, (np_remainder A 360 - 180).
  split; [reflexivity|]. split; [exact Herr|]. split; [tauto|]. split; [tauto|].
  destruct HA as [HA1 HA2].
  assert (Hcases : (A < 360 -> np_remainder A 360 - 180 == A - 180)
                   /\ (360 <= A -> np_remainder A 360 - 180 == A - 540)).
  { split; intros H; rewrite Hrem.
    - rewrite Qmod_first_turn by lra. reflexivity.
    - rewrite Qmod_second_turn by lra. ring. }
  split; [tauto|]. split; [tauto|].
  apply (b64_error _ 8); [|lia].
  change (pow2 8) with 256.
  destruct (Qlt_le_dec A 360) as [H|H].
  - rewrite (proj1 Hcases H). apply Qabs_Qlt_condition. split; lra.
  - rewrite (proj2 Hcases H). apply Qabs_Qlt_condition. split; lra.
Qed.

(** Longitudes from 0 to 360 that are apart are remapped to different
    values: the roundings are too small to bring them together. *)
Lemma remap_longitude_separates (l l' : Q) :
  0 <= l -> l' < 360 -> l <= l' -> apart l l' ->
  ~ remap_longitude l == remap_longitude l'.
Proof.
  intros Hl Hl' Hle [Hs1 Hs2] Heq.
  assert (Habs : Qabs (l - l') == l' - l).
  { rewrite Qabs_neg by lra. ring. }
  rewrite Habs in Hs1, Hs2.
  destruct (remap_longitude_shape l) as (A & D & HR & HeA & HA1 & HA2 & Hc1 & Hc2 & HeD);
    [lra|lra|].
  destruct (remap_longitude_shape l') as (A' & D' & HR' & HeA' & HA1' & HA2' & Hc1' & Hc2' & HeD');
    [lra|lra|].
  rewrite HR, HR' in Heq.
  apply Qabs_Qle_condition in HeA, HeA', HeD, HeD'.
  assert (E44 : pow2 (-44) == 1 # 17592186044416) by reflexivity.
  assert (E46 : pow2 (-46) == 1 # 70368744177664) by reflexivity.
  rewrite E44 in HeA, HeA'. rewrite E46 in HeD, HeD'.
  change (1 # 2 ^ 40) with (1 # 1099511627776) in Hs1, Hs2.
  destruct (Qlt_le_dec A 360) as [H|H]; destruct (Qlt_le_dec A' 360) as [H'|H'];
    [specialize (Hc1 H); specialize (Hc1' H')
    |specialize (Hc1 H); specialize (Hc2' H')
    |specialize (Hc2 H); specialize (Hc1' H')
    |specialize (Hc2 H); specialize (Hc2' H')];
    lra.
Qed.

Lemma apart_distinct (x y : Q) : apart x y -> ~ x == y.
Proof.
  intros [H _] Heq.
  assert (E : Qabs (x - y) == 0).
  { assert (Hz : x - y == 0) by lra. rewrite Hz. reflexivity. }
  rewrite E in H. revert H. unfold Qle. cbn. lia.
Qed.

Lemma apart_sym (x y : Q) : apart x y -> apart y x.
Proof.
  unfold apart. assert (E : Qabs (y - x) == Qabs (x - y)).
  { rewrite <- Qabs_opp. apply Qabs_wd. ring. }
  now rewrite E.
Qed.

Lemma well_separated_distinct (lon : list Q) :
  well_separated lon -> distinct_values lon.
Proof.
  induction lon as [|x lon IH]; cbn [well_separated distinct_values]; [tauto|].
  intros [Hx Hs]. split; [|auto].
  eapply List.Forall_impl; [|exact Hx]. intros y. apply apart_distinct.
Qed.

Lemma well_separated_remap (lon : list Q) :
  Forall (fun l => 0 <= l /\ l < 360) lon ->
  well_separated lon -> distinct_values (map remap_longitude lon).
Proof.
  induction lon as [|x lon IH]; cbn [well_separated distinct_values map]; [tauto|].
  intros Hr [Hx Hs]. apply List.Forall_cons_iff in Hr. destruct Hr as [Hxr Hr].
  split; [|auto].
  rewrite List.Forall_forall in Hx, Hr |- *. intros y Hy.
  apply in_map_iff in Hy. destruct Hy as [z [<- Hz]].
  specialize (Hx z Hz). specialize (Hr z Hz).
  destruct (Qlt_le_dec z x) as [Hlt|Hge].
  - intros Heq.
    apply (remap_longitude_separates z x);
      [lra|lra|lra|now apply apart_sym|now symmetry].
  - apply remap_longitude_separates; [lra|lra|lra|assumption].
Qed.

End RemapSeparation.

Lemma fix_coordinates_longitude (ds : HourlyDataset) :
  h_longitude (fix_coordinates ds)
  = reorder_by (remapped_longitude (h_longitude ds)) (remapped_longitude (h_longitude ds)).
Proof.
  unfold fix_coordinates, remapped_longitude.
  destruct (any_above_180 (h_longitude ds)); reflexivity.
Qed.

Lemma fix_coordinates_latitude (ds : HourlyDataset) :
  h_latitude (fix_coordinates ds) = reorder_by (h_latitude ds) (h_latitude ds).
Proof.
  unfold fix_coordinates.
  destruct (any_above_180 (h_longitude ds)); reflexivity.
Qed.

(** C5 (amended): after [fix_coordinates] both axes are in ascending
    order, and each holds the values it held before, the longitudes after
    the remapping; an axis is strictly ascending when no value repeats on
    it (for the longitudes: after the remapping).  Longitudes from 0 to 360
    that lie apart (by [2^-40] of a degree at least, and not by a full turn)
    are remapped to different values, so such an axis comes out strictly
    ascending.  When some input longitude exceeds 180, every output
    longitude lies in the range from -180 to 180, both ends included (the
    arithmetic is binary64: a longitude next to -180 can come out as 180);
    when none does, the longitudes are only sorted and keep their values.
    In both cases no output longitude exceeds 180. *)
Theorem fix_coordinates_axes (ds : HourlyDataset) :
  let out := fix_coordinates ds in
  ascending (h_longitude out)
  /\ ascending (h_latitude out)
  /\ Permutation (remapped_longitude (h_longitude ds)) (h_longitude out)
  /\ Permutation (h_latitude ds) (h_latitude out)
  /\ (any_above_180 (h_longitude ds) = true -> Forall within_pm180 (h_longitude out))
  /\ (any_above_180 (h_longitude ds) = false ->
        Permutation (h_longitude ds) (h_longitude out))
  /\ Forall (fun l => (l <= 180)%Q) (h_longitude out)
  /\ (distinct_values (h_latitude ds) -> strictly_ascending (h_latitude out))
  /\ (distinct_values (remapped_longitude (h_longitude ds)) ->
        strictly_ascending (h_longitude out))
  /\ (Forall (fun l => (0 <= l /\ l < 360)%Q) (h_longitude ds) ->
      well_separated (h_longitude ds) ->
        strictly_ascending (h_longitude out)).
Proof.
  intros out. subst out.
  rewrite fix_coordinates_longitude, fix_coordinates_latitude.
  split; [apply reorder_self_ascending|].
  split; [apply reorder_self_ascending|].
  split; [apply reorder_self_perm|].
  split; [apply reorder_self_perm|].
  assert (Hin : forall x, In x (reorder_by (remapped_longitude (h_longitude ds))
                                           (remapped_longitude (h_longitude ds))) ->
                          In x (remapped_longitude (h_longitude ds))).
  { intros x Hx. exact (Permutation_in _ (Permutation_sym (reorder_self_perm _)) Hx). }
  split.
  { intros Hany. apply List.Forall_forall. intros x Hx. apply Hin in Hx.
    unfold remapped_longitude in Hx. rewrite Hany in Hx.
    apply in_map_iff in Hx. destruct Hx as [l [<- _]].
    apply remap_longitude_range. }
  split.
  { intros Hany. unfold remapped_longitude. rewrite Hany. apply reorder_self_perm. }
  split.
  { apply List.Forall_forall. intros x Hx. apply Hin in Hx.
    unfold remapped_longitude in Hx.
    destruct (any_above_180 (h_longitude ds)) eqn:Hany.
    - apply in_map_iff in Hx. destruct Hx as [l [<- _]].
      apply remap_longitude_range.
    - pose proof (any_above_180_false _ Hany) as Hall.
      rewrite List.Forall_forall in Hall. auto. }
  split; [apply reorder_self_strict|].
  split; [apply reorder_self_strict|].
  intros Hr Hs. apply reorder_self_strict. unfold remapped_longitude.
  destruct (any_above_180 (h_longitude ds)).
  - now apply well_separated_remap.
  - now apply well_separated_distinct.
Qed.

(* ===================================================================== *)
(** ** Temporal Aggregator *)
(* ===================================================================== *)

Lemma zip_with_repeat {A B C : Type} (f : A -> B -> C) (x : A) (y : B) (n : nat) :
  zip_with f (repeat x n) (repeat y n) = repeat (f x y) n.
Proof. induction n; simpl; congruence. Qed.

Lemma map_repeat' {A B : Type} (f : A -> B) (x : A) (n : nat) :
  map f (repeat x n) = repeat (f x) n.
Proof. induction n; simpl; congruence. Qed.

Lemma add_grid_const (a b : nat) (x y : cell) :
  add_grid (const_grid a b x) (const_grid a b y) = const_grid a b (PrimFloat.add x y).
Proof.
  unfold add_grid, const_grid. now rewrite !zip_with_repeat.
Qed.

Lemma nan_to_zero_const (a b : nat) (x : cell) :
  map (map nan_to_zero) (const_grid a b x) = const_grid a b (nan_to_zero x).
Proof. unfold const_grid. now rewrite !map_repeat'. Qed.

(** The sum of a group of constant grids, written out addition by addition. *)
Lemma nansum_grids_const_cons (a b : nat) (x : cell) (xs : list cell) :
  nansum_grids (map (const_grid a b) (x :: xs))
  = const_grid a b (fold_left PrimFloat.add (map nan_to_zero xs) (nan_to_zero x)).
Proof.
  unfold nansum_grids. simpl map at 1. rewrite nan_to_zero_const.
  generalize (nan_to_zero x) as acc. clear x.
  induction xs as [|y xs IH]; intros acc; simpl; [reflexivity|].
  rewrite nan_to_zero_const, add_grid_const. apply IH.
Qed.

Lemma repeat_as_map {A B : Type} (f : A -> B) (x : A) (n : nat) :
  repeat (f x) n = map f (repeat x n).
Proof. now rewrite map_repeat'. Qed.

(** The constant hourly dataset, with its grids as the image of its values. *)
Lemma constant_hours_prec (lat lon : list Q) (t0 : Z) (n : nat) (v : cell) :
  prec (constant_hours lat lon t0 n v)
  = map (const_grid (length lat) (length lon)) (repeat v n).
Proof. simpl. apply repeat_as_map. Qed.

Ltac aggregate_constant_hours :=
  unfold diary_prec_12z;
  rewrite constant_hours_prec;
  cbn [time_name time latitude longitude spatial_ref constant_hours];
  match goal with
  | |- context [map Time.ref_time ?ts] =>
      let keys := eval vm_compute in (map Time.ref_time ts) in
      change (map Time.ref_time ts) with keys
  end;
  match goal with
  | |- context [unique_sorted ?ks] =>
      let labels := eval vm_compute in (unique_sorted ks) in
      change (unique_sorted ks) with labels
  end;
  cbn [map];
  rewrite !select_group_map;
  repeat match goal with
  | |- context [select_group ?k ?ks ?vs] =>
      let members := eval vm_compute in (select_group k ks vs) in
      change (select_group k ks vs) with members
  end;
  rewrite !nansum_grids_const_cons;
  reflexivity.

Lemma aggregate_13h_to_12h (lat lon : list Q) :
  diary_prec_12z (constant_hours lat lon (Time.timestamp 2025 1 2 13) 24 1%float)
  = Ok {| time_name := ref_time;
          time := [Time.timestamp 2025 1 2 12; Time.timestamp 2025 1 3 12];
          latitude := lat;
          longitude := lon;
          prec := [const_grid (length lat) (length lon) 23%float;
                   const_grid (length lat) (length lon) 1%float];
          attrs := [aggregation_period];
          rio_dims := None;
          spatial_ref := None |}.
Proof. aggregate_constant_hours. Qed.

Lemma aggregate_12h_to_11h (lat lon : list Q) :
  diary_prec_12z (constant_hours lat lon (Time.timestamp 2025 1 2 12) 24 1%float)
  = Ok {| time_name := ref_time;
          time := [Time.timestamp 2025 1 2 12];
          latitude := lat;
          longitude := lon;
          prec := [const_grid (length lat) (length lon) 24%float];
          attrs := [aggregation_period];
          rio_dims := None;
          spatial_ref := None |}.
Proof. aggregate_constant_hours. Qed.

(** C2 (amended): the 24 hourly grids from 2025-01-02T13:00 through
    2025-01-03T12:00, each cell 1.0, give two windows: the one keyed
    2025-01-02T12:00 with every cell 23.0 and the one keyed 2025-01-03T12:00
    with every cell 1.0, because the hour 12:00 opens the next window.  The
    24 hours from 2025-01-02T12:00 through 2025-01-03T11:00 are the ones
    that give the single window keyed 2025-01-02T12:00 with every cell
    24.0. *)
Theorem scenario_24_hours (lat lon : list Q) :
  diary_prec_12z (constant_hours lat lon (Time.timestamp 2025 1 2 13) 24 1%float)
  = Ok {| time_name := ref_time;
          time := [Time.timestamp 2025 1 2 12; Time.timestamp 2025 1 3 12];
          latitude := lat;
          longitude := lon;
          prec := [const_grid (length lat) (length lon) 23%float;
                   const_grid (length lat) (length lon) 1%float];
          attrs := [aggregation_period];
          rio_dims := None;
          spatial_ref := None |}
  /\
  diary_prec_12z (constant_hours lat lon (Time.timestamp 2025 1 2 12) 24 1%float)
  = Ok {| time_name := ref_time;
          time := [Time.timestamp 2025 1 2 12];
          latitude := lat;
          longitude := lon;
          prec := [const_grid (length lat) (length lon) 24%float];
          attrs := [aggregation_period];
          rio_dims := None;
          spatial_ref := None |}.
Proof.
  split; [apply aggregate_13h_to_12h | apply aggregate_12h_to_11h].
Qed.

(** C2, as stated, fails: on a grid of one cell the 24 hours from
    2025-01-02T13:00 through 2025-01-03T12:00 do not come out as the single
    window keyed 2025-01-02T12:00 holding 24.0. *)
Lemma scenario_24_hours_not_one_window :
  ~ exists out : Dataset,
      diary_prec_12z (constant_hours [0%Q] [0%Q] (Time.timestamp 2025 1 2 13) 24 1%float)
        = Ok out
      /\ time out = [Time.timestamp 2025 1 2 12]
      /\ prec out = [const_grid 1 1 24%float].
Proof.
  intros [out [Hout [Htime _]]].
  rewrite aggregate_13h_to_12h in Hout.
  injection Hout as <-. simpl in Htime. discriminate Htime.
Qed.





(** The aggregator cannot take its own output: that has [ref_time], not
    [valid_time]. *)
Lemma diary_prec_12z_on_own_output (ds out : Dataset) :
  diary_prec_12z ds = Ok out ->
  diary_prec_12z out = Raise (AttributeError "valid_time").
Proof.
  unfold diary_prec_12z at 1. destruct (time_name ds); [|discriminate].
  destruct (unique_sorted (map Time.ref_time (time ds))); [discriminate|].
  intros H. injection H as <-. reflexivity.
Qed.




(* ===================================================================== *)
(** ** Spatial Masker *)
(* ===================================================================== *)

Section MaskerFacts.
Context {polygon : Type} (contains : polygon -> Q -> Q -> bool).

Lemma clip_grid_lengths (geoms : list polygon) (lat lon : list Q) (g : list (list cell)) :
  map (@length cell) (clip_grid contains geoms lat lon g) = map (@length cell) g.
Proof.
  unfold clip_grid. apply list_eq. intros i.
  change (map (@length cell)) with (fmap (M := list) (@length cell)).
  rewrite !list_lookup_fmap, list_lookup_imap.
  destruct (g !! i) as [row|]; [|reflexivity].
  cbn. f_equal. apply length_imap.
Qed.

Lemma clip_shape (geoms : list polygon) (lat lon : list Q) (p : list Grid) :
  shape (map (clip_grid contains geoms lat lon) p) = shape p.
Proof.
  unfold shape. rewrite map_map. apply map_ext. intros g. apply clip_grid_lengths.
Qed.

Lemma clip_grid_cell (geoms : list polygon) (lat lon : list Q)
    (g : list (list cell)) (i j : nat) :
  cell_row_at (clip_grid contains geoms lat lon g) i j
  = clip_cell contains geoms (lat !! i) (lon !! j) <$> cell_row_at g i j.
Proof.
  unfold cell_row_at, clip_grid. rewrite list_lookup_imap.
  destruct (g !! i) as [row|]; [|reflexivity].
  exact (list_lookup_imap
           (fun j v => clip_cell contains geoms (lat !! i) (lon !! j) v) row j).
Qed.

Lemma clip_cell_at (geoms : list polygon) (lat lon : list Q)
    (p : list (list (list cell))) (t i j : nat) :
  cell_at (map (clip_grid contains geoms lat lon) p) t i j
  = clip_cell contains geoms (lat !! i) (lon !! j) <$> cell_at p t i j.
Proof.
  unfold cell_at.
  change (map (clip_grid contains geoms lat lon) p)
    with (clip_grid contains geoms lat lon <$> p).
  rewrite list_lookup_fmap. unfold Grid.
  destruct (p !! t) as [g|]; [|reflexivity].
  apply clip_grid_cell.
Qed.

(** What [mask_data] does with a frame: it writes on [ds], then clips. *)
Lemma mask_data_frame (w : World polygon) (ds : Dataset) (gdf : list (Feature polygon)) :
  mask_data contains w ds (MaskFrame gdf)
  = (write_crs "epsg:4326" (set_spatial_dims "longitude" "latitude" ds),
     rio_clip contains (map geometry gdf)
              (write_crs "epsg:4326" (set_spatial_dims "longitude" "latitude" ds))).
Proof. reflexivity. Qed.

Lemma written_same_data (ds : Dataset) :
  same_data (write_crs "epsg:4326" (set_spatial_dims "longitude" "latitude" ds)) ds.
Proof. repeat split. Qed.

Lemma same_data_trans (a b c : Dataset) : same_data a b -> same_data b c -> same_data a c.
Proof. unfold same_data. intuition congruence. Qed.

Lemma same_data_refl (a : Dataset) : same_data a a.
Proof. repeat split. Qed.

(** Clipping a dataset that has its reference written, with some geometry,
    on a grid that is not empty. *)
Lemma rio_clip_ok (geoms : list polygon) (ds : Dataset) (crs : string) :
  spatial_ref ds = Some crs -> geoms <> [] ->
  latitude ds <> [] -> longitude ds <> [] ->
  rio_clip contains geoms ds
  = Ok {| time_name := time_name ds; time := time ds;
          latitude := latitude ds; longitude := longitude ds;
          prec := map (clip_grid contains geoms (latitude ds) (longitude ds)) (prec ds);
          attrs := attrs ds;
          rio_dims := rio_dims ds; spatial_ref := spatial_ref ds |}.
Proof.
  intros Hcrs Hg Hlat Hlon. unfold rio_clip. rewrite Hcrs.
  destruct geoms; [congruence|].
  destruct (latitude ds); [congruence|].
  destruct (longitude ds); [congruence|]. reflexivity.
Qed.

(** C9: masking a grid that is not empty with a single polygon returns a
    dataset on the same latitudes, longitudes and times, with fields of the
    same shape; a cell whose centre the polygon holds keeps its value, any
    other cell is null. *)
Theorem mask_data_keeps_extent (w : World polygon) (ds : Dataset) (row : Feature polygon) :
  latitude ds <> [] -> longitude ds <> [] ->
  exists out : Dataset,
    snd (mask_data contains w ds (MaskFrame [row])) = Ok out
    /\ latitude out = latitude ds
    /\ longitude out = longitude ds
    /\ time out = time ds
    /\ shape (prec out) = shape (prec ds)
    /\ forall (t i j : nat) (la lo : Q) (v : cell),
         latitude ds !! i = Some la -> longitude ds !! j = Some lo ->
         cell_at (prec ds) t i j = Some v ->
         cell_at (prec out) t i j
         = Some (if contains (geometry row) la lo then v else nan).
Proof.
  intros Hlat Hlon. rewrite mask_data_frame. cbn [snd].
  erewrite rio_clip_ok; [|reflexivity|discriminate|exact Hlat|exact Hlon].
  eexists. split; [reflexivity|]. cbn [latitude longitude time prec write_crs set_spatial_dims].
  split; [reflexivity|]. split; [reflexivity|]. split; [reflexivity|].
  split; [apply clip_shape|].
  intros t i j la lo v Hla Hlo Hv.
  rewrite clip_cell_at, Hv, Hla, Hlo. cbn.
  now rewrite orb_false_r.
Qed.

Lemma mask_data_changes_only_metadata (w : World polygon) (ds : Dataset) (mask : MaskArg polygon) :
  same_data (fst (mask_data contains w ds mask)) ds.
Proof.
  unfold mask_data. destruct mask as [gdf|path]; cbn.
  - apply written_same_data.
  - destruct (fst (gpd_read_file path w)); cbn;
      [apply written_same_data | apply same_data_refl].
Qed.

Lemma capitals_loop_same_data (w : World polygon) (gdf : list (Feature polygon))
    (todo : list string) (ds : Dataset) (acc : list DataFrame) :
  same_data (fst (capitals_loop contains w gdf todo ds acc)) ds.
Proof.
  revert ds acc. induction todo as [|capital todo IH]; intros ds acc; cbn [capitals_loop].
  - apply same_data_refl.
  - rewrite mask_data_frame.
    destruct (rio_clip _ _ _) as [ds_capital|e]; cbn [fst].
    + eapply same_data_trans; [apply IH | apply written_same_data].
    + apply written_same_data.
Qed.

Lemma filter_twice {A : Type} (f : A -> bool) (l : list A) :
  List.filter f (List.filter f l) = List.filter f l.
Proof.
  induction l as [|x l IH]; [reflexivity|]. cbn [List.filter].
  destruct (f x) eqn:Hx; cbn [List.filter]; [rewrite Hx; now f_equal | exact IH].
Qed.

Lemma written_twice (ds : Dataset) :
  let once := write_crs "epsg:4326" (set_spatial_dims "longitude" "latitude" ds) in
  write_crs "epsg:4326" (set_spatial_dims "longitude" "latitude" once) = once.
Proof.
  cbn. unfold write_crs, set_spatial_dims. cbn. now rewrite filter_twice.
Qed.

Lemma capitals_loop_written (w : World polygon) (gdf : list (Feature polygon))
    (todo : list string) (ds : Dataset) (acc : list DataFrame) :
  todo <> [] ->
  fst (capitals_loop contains w gdf todo ds acc)
  = write_crs "epsg:4326" (set_spatial_dims "longitude" "latitude" ds).
Proof.
  revert ds acc. induction todo as [|capital todo IH]; intros ds acc Hne; [congruence|].
  cbn [capitals_loop]. rewrite mask_data_frame.
  destruct (rio_clip _ _ _) as [ds_capital|e]; cbn [fst]; [|reflexivity].
  destruct todo as [|capital' todo]; [reflexivity|].
  rewrite IH by discriminate. apply written_twice.
Qed.

Lemma extract_fst (w : World polygon) (ds : Dataset) (gdf : list (Feature polygon)) :
  fst (extract_capitals_timeseries contains w ds gdf)
  = fst (capitals_loop contains w gdf (map NM_MUN gdf) ds []).
Proof.
  unfold extract_capitals_timeseries.
  destruct (capitals_loop _ _ _ _ _ _) as [ds' [l|e]]; reflexivity.
Qed.

(** C4 (amended): the per-region processing never changes the values, the
    times or the coordinates of the daily dataset, whatever the regions; but
    the dataset object does not stay as it was: as soon as one region is
    masked it carries the declared spatial dimensions and the coordinate
    reference "epsg:4326", written in place by [mask_data] (the following
    regions write the same again). *)
Theorem daily_field_after_extraction (w : World polygon) (ds_daily : Dataset)
    (gdf_capitals : list (Feature polygon)) (mask : list (Feature polygon)) :
  let after_mask := fst (mask_data contains w ds_daily (MaskFrame mask)) in
  let after_all := fst (extract_capitals_timeseries contains w ds_daily gdf_capitals) in
  same_data after_mask ds_daily
  /\ rio_dims after_mask = Some ("longitude", "latitude")
  /\ spatial_ref after_mask = Some "epsg:4326"
  /\ same_data after_all ds_daily
  /\ (gdf_capitals <> [] -> after_all = after_mask)
  /\ (gdf_capitals = [] -> after_all = ds_daily).
Proof.
  intros after_mask after_all. subst after_mask after_all.
  rewrite extract_fst, mask_data_frame. cbn [fst].
  split; [apply written_same_data|].
  split; [reflexivity|]. split; [reflexivity|].
  split; [apply capitals_loop_same_data|].
  split.
  - intros Hne. apply capitals_loop_written.
    destruct gdf_capitals; [congruence|discriminate].
  - intros ->. reflexivity.
Qed.

End MaskerFacts.

Lemma mask_data_keeps_extent_witness :
  latitude daily_2x2 <> [] /\ longitude daily_2x2 <> [] /\
  exists out : Dataset,
    snd (mask_data box_contains empty_world daily_2x2 (MaskFrame [row_brasilia])) = Ok out
    /\ latitude out = latitude daily_2x2
    /\ longitude out = longitude daily_2x2
    /\ time out = time daily_2x2
    /\ shape (prec out) = shape (prec daily_2x2)
    /\ forall (t i j : nat) (la lo : Q) (v : cell),
         latitude daily_2x2 !! i = Some la -> longitude daily_2x2 !! j = Some lo ->
         cell_at (prec daily_2x2) t i j = Some v ->
         cell_at (prec out) t i j
         = Some (if box_contains (geometry row_brasilia) la lo then v else nan).
Proof.
  split; [discriminate|]. split; [discriminate|].
  apply (mask_data_keeps_extent box_contains empty_world daily_2x2 row_brasilia);
    discriminate.
Defined.

Example mask_brasilia_2x2 :
  snd (mask_data box_contains empty_world daily_2x2 (MaskFrame [row_brasilia]))
  = Ok {| time_name := ref_time;
          time := [Time.timestamp 2025 1 2 12];
          latitude := [(-16)%Q; (-15)%Q];
          longitude := [(-48)%Q; (-47)%Q];
          prec := [[[1%float; nan]; [nan; nan]]];
          attrs := [aggregation_period];
          rio_dims := Some ("longitude", "latitude");
          spatial_ref := Some "epsg:4326" |}.
Proof. reflexivity. Qed.

(** C4, as stated, fails: after masking one region the daily dataset is not
    the object it was, it has received a coordinate reference. *)
Lemma mask_data_writes_on_input :
  fst (mask_data box_contains empty_world daily_2x2 (MaskFrame [row_brasilia])) <> daily_2x2
  /\ fst (extract_capitals_timeseries box_contains empty_world daily_2x2 [row_brasilia])
     <> daily_2x2.
Proof.
  split; intros H; apply (f_equal spatial_ref) in H; discriminate H.
Qed.

(* ===================================================================== *)
(** ** Capital Resolver *)
(* ===================================================================== *)

Section ResolverFacts.
Context {polygon : Type}.
Implicit Types (gdf : list (Feature polygon)) (row : Feature polygon).
Implicit Types (capitals_dict : gmap string string) (uf name : string).

Lemma is_capital_spec capitals_dict row :
  is_capital capitals_dict row = true
  <-> capitals_dict !! SIGLA_UF row = Some (NM_MUN row).
Proof.
  unfold is_capital. destruct (capitals_dict !! SIGLA_UF row) as [name|].
  - rewrite String.eqb_eq. split; [now intros -> | congruence].
  - split; discriminate.
Qed.

Lemma rows_of_region_capitals capitals_dict uf name gdf :
  capitals_dict !! uf = Some name ->
  rows_of_region uf (List.filter (is_capital capitals_dict) gdf)
  = rows_matching uf name gdf.
Proof.
  intros Hname. unfold rows_of_region, rows_matching.
  induction gdf as [|row gdf IH]; [reflexivity|].
  cbn [List.filter]. unfold is_capital at 1.
  destruct (String.eqb_spec (SIGLA_UF row) uf) as [Huf|Huf].
  - rewrite Huf, Hname. cbn [andb].
    destruct (NM_MUN row =? name)%string; cbn [List.filter].
    + rewrite Huf, String.eqb_refl. now f_equal.
    + exact IH.
  - cbn [andb].
    destruct (match capitals_dict !! SIGLA_UF row with
              | Some name0 => (NM_MUN row =? name0)%string
              | None => false
              end); cbn [List.filter]; [|exact IH].
    apply String.eqb_neq in Huf. now rewrite Huf.
Qed.

Lemma rows_matching_none uf name gdf :
  (forall row, In row gdf -> SIGLA_UF row = uf -> NM_MUN row <> name) ->
  rows_matching uf name gdf = [].
Proof.
  unfold rows_matching. induction gdf as [|row gdf IH]; intros Hnone; [reflexivity|].
  cbn [List.filter].
  destruct (String.eqb_spec (SIGLA_UF row) uf) as [Huf|Huf]; cbn [andb].
  - destruct (String.eqb_spec (NM_MUN row) name) as [Hn|Hn].
    + exfalso. apply (Hnone row); [now left|exact Huf|exact Hn].
    + apply IH. intros r Hr. apply Hnone. now right.
  - apply IH. intros r Hr. apply Hnone. now right.
Qed.

Lemma gpd_read_file_found (w : World polygon) (path : string) gdf :
  files w !! path = Some (ShapefileData gdf) ->
  gpd_read_file path w = (Ok gdf, w).
Proof. unfold gpd_read_file. now intros ->. Qed.

Lemma resolver_result (w : World polygon) (path : string) capitals_dict gdf :
  files w !! path = Some (ShapefileData gdf) ->
  extract_capitals_from_shapefile path capitals_dict w
  = (Ok (List.filter (is_capital capitals_dict) gdf), w).
Proof.
  intros Hfile. unfold extract_capitals_from_shapefile, bind.
  now rewrite (gpd_read_file_found w path gdf Hfile).
Qed.

(** C8 (amended): on a boundary file that reads as [gdf], the resolver
    returns, without raising and without touching the world, the rows of
    [gdf] whose code is in the mapping with exactly the name of the row.
    For a region of the mapping the rows returned are the rows of [gdf]
    whose code and name both equal the entry, as many as [gdf] holds:
    some row when there is one, exactly one when [gdf] holds exactly one,
    none when the name does not match. *)
Theorem capital_resolver_rows (w : World polygon) (path : string) capitals_dict gdf :
  files w !! path = Some (ShapefileData gdf) ->
  exists capitals : list (Feature polygon),
    extract_capitals_from_shapefile path capitals_dict w = (Ok capitals, w)
    /\ (forall row,
          In row capitals
          <-> In row gdf /\ capitals_dict !! SIGLA_UF row = Some (NM_MUN row))
    /\ (forall uf name,
          capitals_dict !! uf = Some name ->
          rows_of_region uf capitals = rows_matching uf name gdf)
    /\ (forall uf name,
          capitals_dict !! uf = Some name ->
          (rows_of_region uf capitals <> []
           <-> exists row, In row gdf /\ SIGLA_UF row = uf /\ NM_MUN row = name))
    /\ (forall uf name row,
          capitals_dict !! uf = Some name ->
          rows_matching uf name gdf = [row] -> rows_of_region uf capitals = [row])
    /\ (forall uf name,
          capitals_dict !! uf = Some name ->
          (forall row, In row gdf -> SIGLA_UF row = uf -> NM_MUN row <> name) ->
          rows_of_region uf capitals = []).
Proof.
  intros Hfile. exists (List.filter (is_capital capitals_dict) gdf).
  split; [now apply resolver_result|].
  split.
  { intros row. rewrite filter_In, is_capital_spec. tauto. }
  split; [intros uf name Hname; now apply rows_of_region_capitals|].
  split.
  { intros uf name Hname. rewrite (rows_of_region_capitals _ _ _ _ Hname).
    unfold rows_matching. split.
    - intros Hne.
      destruct (List.filter _ gdf) as [|row rest] eqn:Hf; [congruence|].
      assert (Hin : In row (List.filter
                (fun row => (SIGLA_UF row =? uf)%string && (NM_MUN row =? name)%string) gdf))
        by (rewrite Hf; now left).
      apply filter_In in Hin. destruct Hin as [Hin Hb].
      apply andb_true_iff in Hb. destruct Hb as [Hu Hn].
      apply String.eqb_eq in Hu, Hn. eauto.
    - intros [row [Hin [Hu Hn]]] Hnil.
      assert (Hrow : In row (List.filter
                (fun row => (SIGLA_UF row =? uf)%string && (NM_MUN row =? name)%string) gdf)).
      { apply filter_In. split; [exact Hin|].
        apply andb_true_iff. split; now apply String.eqb_eq. }
      rewrite Hnil in Hrow. destruct Hrow. }
  split.
  { intros uf name row Hname Hone.
    now rewrite (rows_of_region_capitals _ _ _ _ Hname). }
  intros uf name Hname Hnone.
  rewrite (rows_of_region_capitals _ _ _ _ Hname).
  now apply rows_matching_none.
Qed.

End ResolverFacts.

Lemma capital_resolver_rows_witness :
  files (world_with_boundaries [row_brasilia; row_goiania_misspelt]) !! shapefile_path
    = Some (ShapefileData [row_brasilia; row_goiania_misspelt])
  /\ exists capitals : list (Feature Box),
       extract_capitals_from_shapefile shapefile_path uf_br
         (world_with_boundaries [row_brasilia; row_goiania_misspelt])
       = (Ok capitals, world_with_boundaries [row_brasilia; row_goiania_misspelt])
       /\ rows_of_region "DF" capitals = [row_brasilia]
       /\ rows_of_region "GO" capitals = [].
Proof.
  assert (Hfile : files (world_with_boundaries [row_brasilia; row_goiania_misspelt])
                    !! shapefile_path
                  = Some (ShapefileData [row_brasilia; row_goiania_misspelt]))
    by (vm_compute; reflexivity).
  split; [exact Hfile|].
  destruct (capital_resolver_rows _ shapefile_path uf_br _ Hfile)
    as [capitals [Hrun [_ [Hrows _]]]].
  exists capitals. split; [exact Hrun|].
  split.
  - rewrite (Hrows "DF" "Brasília") by (vm_compute; reflexivity). reflexivity.
  - rewrite (Hrows "GO" "Goiânia") by (vm_compute; reflexivity). reflexivity.
Defined.

(** C8, as stated, fails: a boundary file with the capital of GO in two
    rows of the exact name gives two polygons for the region, not one. *)
Lemma exact_match_twice :
  uf_br !! "GO" = Some "Goiânia"
  /\ exists capitals : list (Feature Box),
       fst (extract_capitals_from_shapefile shapefile_path uf_br
              (world_with_boundaries [row_goiania; row_goiania_again]))
       = Ok capitals
       /\ rows_of_region "GO" capitals = [row_goiania; row_goiania_again]
       /\ length (rows_of_region "GO" capitals) <> 1%nat.
Proof.
  split; [vm_compute; reflexivity|].
  exists [row_goiania; row_goiania_again].
  split; [vm_compute; reflexivity|].
  split; [reflexivity|]. cbn. discriminate.
Qed.

(* ===================================================================== *)
(** ** Timeseries Extractor *)
(* ===================================================================== *)

Section ExtractorFacts.
Context {polygon : Type} (contains : polygon -> Q -> Q -> bool).
Implicit Types (gdf : list (Feature polygon)) (w : World polygon).

Lemma reindexed_names (idx : list Z) (frames : list DataFrame) :
  map fst (concat (map (fun df => map (reindex idx (index df)) (columns df)) frames))
  = concat (map column_names frames).
Proof.
  induction frames as [|g l IH]; [reflexivity|].
  cbn [map concat]. rewrite map_app, IH. f_equal.
  unfold column_names. rewrite map_map. reflexivity.
Qed.

Lemma pd_concat_axis1_names (frames : list DataFrame) (df : DataFrame) :
  pd_concat_axis1 frames = Ok df ->
  column_names df = concat (map column_names frames).
Proof.
  destruct frames as [|f frames]; [discriminate|].
  unfold pd_concat_axis1. intros H. injection H as <-.
  exact (reindexed_names (unique_sorted (concat (map index (f :: frames)))) (f :: frames)).
Qed.

Lemma capitals_loop_names w gdf (todo : list string) (ds : Dataset)
    (acc frames : list DataFrame) :
  snd (capitals_loop contains w gdf todo ds acc) = Ok frames ->
  concat (map column_names frames) = (concat (map column_names acc) ++ todo)%list.
Proof.
  revert ds acc. induction todo as [|capital todo IH]; intros ds acc; cbn [capitals_loop].
  - cbn [snd]. intros H. injection H as <-. now rewrite app_nil_r.
  - rewrite mask_data_frame.
    destruct (rio_clip _ _ _) as [ds_capital|e]; cbn [snd]; [|discriminate].
    intros H. rewrite (IH _ _ H).
    rewrite map_app, concat_app. cbn. now rewrite <- app_assoc.
Qed.

Lemma capitals_loop_ok w gdf (todo : list string) (ds : Dataset) (acc : list DataFrame) :
  (forall capital, In capital todo -> In capital (map NM_MUN gdf)) ->
  latitude ds <> [] -> longitude ds <> [] ->
  exists frames, snd (capitals_loop contains w gdf todo ds acc) = Ok frames.
Proof.
  revert ds acc. induction todo as [|capital todo IH]; intros ds acc Hin Hlat Hlon;
    cbn [capitals_loop].
  - eexists. reflexivity.
  - rewrite mask_data_frame.
    erewrite rio_clip_ok; [|reflexivity| |exact Hlat|exact Hlon].
    + apply IH; [|exact Hlat|exact Hlon].
      intros c Hc. apply Hin. now right.
    + assert (Hc : In capital (map NM_MUN gdf)) by (apply Hin; now left).
      apply in_map_iff in Hc. destruct Hc as [row [Hname Hrow]].
      intros Hnil. apply map_eq_nil in Hnil.
      assert (Hf : In row (List.filter (fun row => (NM_MUN row =? capital)%string) gdf)).
      { apply filter_In. split; [exact Hrow|]. now apply String.eqb_eq. }
      rewrite Hnil in Hf. destruct Hf.
Qed.

Lemma extract_snd w (ds : Dataset) gdf :
  snd (extract_capitals_timeseries contains w ds gdf)
  = bind_result (snd (capitals_loop contains w gdf (map NM_MUN gdf) ds []))
                pd_concat_axis1.
Proof.
  unfold extract_capitals_timeseries.
  destruct (capitals_loop _ _ _ _ _ _) as [ds' [l|e]]; reflexivity.
Qed.

(** The table has one column per row of [gdf_capitals], named after it. *)
Lemma extract_column_names w (ds : Dataset) gdf (df : DataFrame) :
  snd (extract_capitals_timeseries contains w ds gdf) = Ok df ->
  column_names df = map NM_MUN gdf.
Proof.
  rewrite extract_snd.
  destruct (snd (capitals_loop _ _ _ _ _ _)) as [frames|e] eqn:Hloop; [|discriminate].
  cbn [bind_result]. intros Hdf.
  rewrite (pd_concat_axis1_names _ _ Hdf).
  now rewrite (capitals_loop_names _ _ _ _ _ _ Hloop).
Qed.

Lemma extract_ok w (ds : Dataset) gdf :
  gdf <> [] -> latitude ds <> [] -> longitude ds <> [] ->
  exists df, snd (extract_capitals_timeseries contains w ds gdf) = Ok df.
Proof.
  intros Hne Hlat Hlon. rewrite extract_snd.
  destruct (capitals_loop_ok w gdf (map NM_MUN gdf) ds []) as [frames Hloop]; auto.
  rewrite Hloop. cbn [bind_result].
  destruct frames as [|f frames]; [|eexists; reflexivity].
  apply capitals_loop_names in Hloop. cbn in Hloop.
  destruct gdf; [congruence|discriminate].
Qed.

Lemma extract_nothing w (ds : Dataset) :
  snd (extract_capitals_timeseries contains w ds [])
  = Raise (ValueError "No objects to concatenate").
Proof. reflexivity. Qed.

(** C3 (amended): a region whose mapped capital name stands in no row of
    the boundary dataset gets no column in the table at all: the columns
    are the names of the rows the resolver kept, one per row, and that name
    is not among them.  No error comes from the region: on a grid that is
    not empty the table is built as soon as some other region is resolved,
    and the only failure is the one of a run that resolves no region. *)
Theorem unmatched_region_has_no_column w (ds_daily : Dataset) gdf
    (capitals_dict : gmap string string) (uf name : string) :
  capitals_dict !! uf = Some name ->
  (forall row, In row gdf -> NM_MUN row <> name) ->
  let gdf_capitals := List.filter (is_capital capitals_dict) gdf in
  let table := snd (extract_capitals_timeseries contains w ds_daily gdf_capitals) in
  (forall df, table = Ok df ->
     column_names df = map NM_MUN gdf_capitals /\ ~ In name (column_names df))
  /\ (gdf_capitals <> [] -> latitude ds_daily <> [] -> longitude ds_daily <> [] ->
      exists df, table = Ok df)
  /\ (gdf_capitals = [] -> table = Raise (ValueError "No objects to concatenate")).
Proof.
  intros Hname Habsent gdf_capitals table. subst table.
  split.
  { intros df Hdf. pose proof (extract_column_names _ _ _ _ Hdf) as Hcols.
    split; [exact Hcols|]. rewrite Hcols. intros Hin.
    apply in_map_iff in Hin. destruct Hin as [row [Hrow Hin]].
    apply filter_In in Hin. destruct Hin as [Hin _].
    exact (Habsent row Hin Hrow). }
  split; [apply extract_ok|].
  intros ->. apply extract_nothing.
Qed.

End ExtractorFacts.

Lemma unmatched_region_has_no_column_witness :
  uf_br !! "GO" = Some "Goiânia"
  /\ (forall df,
        snd (extract_capitals_timeseries box_contains empty_world daily_2x2
               (List.filter (is_capital uf_br) [row_brasilia; row_goiania_misspelt]))
        = Ok df ->
        column_names df
        = map NM_MUN (List.filter (is_capital uf_br) [row_brasilia; row_goiania_misspelt])
        /\ ~ In "Goiânia" (column_names df)).
Proof.
  assert (Hname : uf_br !! "GO" = Some "Goiânia") by (vm_compute; reflexivity).
  split; [exact Hname|].
  refine (proj1 (unmatched_region_has_no_column box_contains empty_world daily_2x2
                   [row_brasilia; row_goiania_misspelt] uf_br "GO" "Goiânia" Hname _)).
  intros row [<-|[<-|[]]]; cbn; discriminate.
Defined.

(** C3, as stated, fails: with the capital of GO misspelt in the boundary
    dataset the table is built, and its only column is the one of the
    region that was resolved; GO has no column, under either spelling. *)
Lemma misspelt_capital_gives_no_column :
  uf_br !! "GO" = Some "Goiânia"
  /\ fst (extract_capitals_from_shapefile shapefile_path uf_br
            (world_with_boundaries [row_brasilia; row_goiania_misspelt]))
     = Ok [row_brasilia]
  /\ exists df : DataFrame,
       snd (extract_capitals_timeseries box_contains empty_world daily_2x2 [row_brasilia])
       = Ok df
       /\ column_names df = ["Brasília"]
       /\ ~ In "Goiânia" (column_names df)
       /\ ~ In "Goiania" (column_names df).
Proof.
  split; [vm_compute; reflexivity|].
  split; [vm_compute; reflexivity|].
  eexists. split; [vm_compute; reflexivity|].
  split; [reflexivity|].
  split; intros [H|[]]; discriminate H.
Qed.

(* ===================================================================== *)
(** ** Download and the script *)
(* ===================================================================== *)

Section ScriptFacts.
Context {polygon : Type} (contains : polygon -> Q -> Q -> bool).
Context (requests_get : string -> result Response).
Context (cfgrib_decode : list Byte.byte -> option HourlyDataset).
Implicit Types (w : World polygon) (dt : Z) (datasets : list Dataset).

Lemma only_downloads_refl w : only_downloads w w.
Proof. unfold only_downloads. auto. Qed.

Lemma only_downloads_trans w1 w2 w3 :
  only_downloads w1 w2 -> only_downloads w2 w3 -> only_downloads w1 w3.
Proof.
  intros (Hf1 & Hd1 & He1) (Hf2 & Hd2 & He2). repeat split.
  - intros path Hp. now rewrite Hf2, Hf1.
  - intros dir Hdir. destruct (Hd2 dir Hdir) as [H|H]; auto.
  - intros e He. destruct (He2 e He) as [H|H]; auto.
Qed.

Lemma merge_path_in_merge_data (name : string) :
  in_merge_data (path_join merge_data_dir name) = true.
Proof. destruct name; reflexivity. Qed.

Lemma script_path_is_download_path dt :
  ("./merge_data/MERGE_CPTEC_" ++ Time.strftime_YmdH dt ++ ".grib2")%string
  = path_join merge_data_dir (merge_basename dt).
Proof. reflexivity. Qed.

(** The run of [download_merge_cptec], case by case. *)
Lemma download_makedirs_fails dt (dir : string) w (c : file_content polygon) :
  files w !! dir = Some c ->
  download_merge_cptec requests_get dt dir w = (Raise (FileExistsError dir), w).
Proof.
  intros Hdir. unfold download_merge_cptec, bind, makedirs. now rewrite Hdir.
Qed.

Lemma download_request_fails dt (dir : string) w (e : exn) :
  files w !! dir = None ->
  requests_get (merge_url dt) = Raise e ->
  download_merge_cptec requests_get dt dir w = (Raise e, after_request dt dir w).
Proof.
  intros Hdir Hget.
  unfold download_merge_cptec, bind, makedirs, log, lift. rewrite Hdir. cbn.
  now rewrite Hget.
Qed.

Lemma download_not_200 dt (dir : string) w (resp : Response) :
  files w !! dir = None ->
  requests_get (merge_url dt) = Ok resp ->
  status_code resp <> 200 ->
  download_merge_cptec requests_get dt dir w
  = (Ok (path_join dir (merge_basename dt)), after_request dt dir w).
Proof.
  intros Hdir Hget Hstatus.
  unfold download_merge_cptec, bind, makedirs, log, lift. rewrite Hdir. cbn.
  rewrite Hget. apply Z.eqb_neq in Hstatus. now rewrite Hstatus.
Qed.

Lemma download_200 dt (dir : string) w (resp : Response) :
  files w !! dir = None ->
  requests_get (merge_url dt) = Ok resp ->
  status_code resp = 200 ->
  download_merge_cptec requests_get dt dir w
  = (match stream_error resp with
     | Some e => Raise e
     | None => Ok (path_join dir (merge_basename dt))
     end,
     set_files (<[path_join dir (merge_basename dt)
                  := RawBytes (concat (iter_content resp))]> (files w))
               (after_request dt dir w)).
Proof.
  intros Hdir Hget Hstatus.
  unfold download_merge_cptec, save_stream, bind, makedirs, log, lift, write_file,
    raise, ret.
  rewrite Hdir. cbn. rewrite Hget, Hstatus. cbn.
  destruct (stream_error resp); reflexivity.
Qed.

Lemma after_request_only_downloads dt w :
  only_downloads w (after_request dt merge_data_dir w).
Proof.
  repeat split; cbn.
  - intros dir Hdir. apply elem_of_union in Hdir. destruct Hdir as [Hdir|Hdir]; auto.
    right. now apply elem_of_singleton in Hdir.
  - intros e He. apply in_app_or in He. destruct He as [He|[<-|[]]]; eauto.
Qed.

Lemma download_only_downloads dt w :
  only_downloads w (snd (download_merge_cptec requests_get dt merge_data_dir w)).
Proof.
  destruct (files w !! merge_data_dir) as [c|] eqn:Hdir.
  { rewrite (download_makedirs_fails _ _ _ _ Hdir). apply only_downloads_refl. }
  destruct (requests_get (merge_url dt)) as [resp|e] eqn:Hget.
  2:{ rewrite (download_request_fails _ _ _ _ Hdir Hget).
      apply after_request_only_downloads. }
  destruct (Z.eq_dec (status_code resp) 200) as [Hs|Hs].
  2:{ rewrite (download_not_200 _ _ _ _ Hdir Hget Hs).
      apply after_request_only_downloads. }
  rewrite (download_200 _ _ _ _ Hdir Hget Hs). cbn [snd].
  apply (only_downloads_trans _ (after_request dt merge_data_dir w));
    [apply after_request_only_downloads|].
  split; [|split]; cbn; [|auto|auto].
  intros path Hpath. apply lookup_insert_ne. intros <-.
  rewrite merge_path_in_merge_data in Hpath. discriminate.
Qed.

(** The hour never raises, and the world after it is the one after its
    download. *)
Lemma process_hour_world dt datasets w :
  snd (process_hour requests_get cfgrib_decode dt datasets w)
  = snd (download_merge_cptec requests_get dt merge_data_dir w).
Proof.
  unfold process_hour, try_except, bind.
  destruct (download_merge_cptec requests_get dt merge_data_dir w) as [[name|e] w1];
    [|reflexivity].
  unfold xr_open_dataset.
  destruct (files w1 !! _) as [[bytes|gdf|df]|]; try reflexivity.
  destruct (cfgrib_decode bytes) as [h|]; [|reflexivity].
  unfold lift, ret.
  destruct (select_prec h) as [h'|e]; [|reflexivity].
  destruct (expand_dims_valid_time (fix_coordinates h')); reflexivity.
Qed.

Lemma process_hour_returns dt datasets w :
  exists datasets', fst (process_hour requests_get cfgrib_decode dt datasets w) = Ok datasets'.
Proof.
  unfold process_hour, try_except, bind.
  destruct (download_merge_cptec requests_get dt merge_data_dir w) as [[name|e] w1];
    [|eexists; reflexivity].
  unfold xr_open_dataset.
  destruct (files w1 !! _) as [[bytes|gdf|df]|]; try (eexists; reflexivity).
  destruct (cfgrib_decode bytes) as [h|]; [|eexists; reflexivity].
  unfold lift, ret.
  destruct (select_prec h) as [h'|e]; [|eexists; reflexivity].
  destruct (expand_dims_valid_time (fix_coordinates h')); eexists; reflexivity.
Qed.

Lemma hours_loop_only_downloads (hours : list Z) datasets w :
  (exists datasets', fst (hours_loop requests_get cfgrib_decode hours datasets w) = Ok datasets')
  /\ only_downloads w (snd (hours_loop requests_get cfgrib_decode hours datasets w)).
Proof.
  revert datasets w. induction hours as [|dt hours IH]; intros datasets w; cbn [hours_loop].
  - split; [eexists; reflexivity|apply only_downloads_refl].
  - unfold bind.
    destruct (process_hour_returns dt datasets w) as [datasets' Hret].
    pose proof (process_hour_world dt datasets w) as Hworld.
    pose proof (download_only_downloads dt w) as Hquiet.
    destruct (process_hour requests_get cfgrib_decode dt datasets w) as [r w1].
    cbn [fst snd] in Hret, Hworld. subst r. rewrite <- Hworld in Hquiet.
    destruct (IH datasets' w1) as [Hok Hloop].
    split; [exact Hok|]. eapply only_downloads_trans; eassumption.
Qed.

Lemma collect_hours_only_downloads (start end_ : Z) w :
  only_downloads w (snd (collect_hours requests_get cfgrib_decode start end_ w)).
Proof.
  unfold collect_hours. destruct (end_ <? start).
  - apply only_downloads_refl.
  - apply hours_loop_only_downloads.
Qed.

Lemma parquet_path_not_in_merge_data : in_merge_data parquet_path = false.
Proof. reflexivity. Qed.

(** C1: when the loop over the hours ends with no grid accumulated, the
    script ends, on line 121, with the [NameError] of the unbound [ds_all].
    [diary_prec_12z] has not been entered (nor anything after it): the run
    leaves no event but the requests of the downloads, no file outside the
    download directory, in particular no table, no directory [./output]
    and nothing inserted into the database. *)
Theorem no_hours_no_output (start end_ : Z) w :
  fst (collect_hours requests_get cfgrib_decode start end_ w) = Ok [] ->
  exists w' : World polygon,
    main contains requests_get cfgrib_decode start end_ w = (Raise (NameError "ds_all"), w')
    /\ w' = snd (collect_hours requests_get cfgrib_decode start end_ w)
    /\ (forall e, In e (trace w') -> In e (trace w) \/ exists url, e = HttpGet url)
    /\ (~ In (Invoked "diary_prec_12z") (trace w) ->
        ~ In (Invoked "diary_prec_12z") (trace w'))
    /\ (forall ins, ~ In (InsertMany ins) (trace w) -> ~ In (InsertMany ins) (trace w'))
    /\ (forall path, in_merge_data path = false -> files w' !! path = files w !! path)
    /\ files w' !! parquet_path = files w !! parquet_path
    /\ (output_dir ∈ dirs w' -> output_dir ∈ dirs w).
Proof.
  intros Hnone.
  pose proof (collect_hours_only_downloads start end_ w) as (Hfiles & Hdirs & Htrace).
  exists (snd (collect_hours requests_get cfgrib_decode start end_ w)).
  split.
  { unfold main, bind.
    destruct (collect_hours requests_get cfgrib_decode start end_ w) as [r w1].
    cbn [fst] in Hnone. subst r. reflexivity. }
  split; [reflexivity|].
  split; [exact Htrace|].
  split.
  { intros Hno Hin. destruct (Htrace _ Hin) as [H|[url H]]; [auto|discriminate]. }
  split.
  { intros ins Hno Hin. destruct (Htrace _ Hin) as [H|[url H]]; [auto|discriminate]. }
  split; [exact Hfiles|].
  split; [apply Hfiles, parquet_path_not_in_merge_data|].
  intros Hdir. destruct (Hdirs _ Hdir) as [H|H]; [exact H|discriminate].
Qed.

(** What an hour contributes when its file opens. *)
Lemma process_hour_opened dt datasets w (name : string) w1 (bytes : list Byte.byte)
    (h : HourlyDataset) (ds : Dataset) :
  download_merge_cptec requests_get dt merge_data_dir w = (Ok name, w1) ->
  files w1 !! path_join merge_data_dir (merge_basename dt) = Some (RawBytes bytes) ->
  cfgrib_decode bytes = Some h ->
  hourly_entry h = Ok ds ->
  process_hour requests_get cfgrib_decode dt datasets w = (Ok (datasets ++ [ds])%list, w1).
Proof.
  intros Hdown Hfile Hdecode Hentry.
  unfold process_hour, try_except, bind. rewrite Hdown.
  unfold xr_open_dataset. rewrite script_path_is_download_path, Hfile, Hdecode.
  unfold hourly_entry in Hentry. unfold lift, ret.
  destruct (select_prec h) as [h'|e]; [|discriminate]. cbn [bind_result] in Hentry.
  now rewrite Hentry.
Qed.

Lemma process_hour_no_file dt datasets w (name : string) w1 :
  download_merge_cptec requests_get dt merge_data_dir w = (Ok name, w1) ->
  files w1 !! path_join merge_data_dir (merge_basename dt) = None ->
  process_hour requests_get cfgrib_decode dt datasets w = (Ok datasets, w1).
Proof.
  intros Hdown Hfile.
  unfold process_hour, try_except, bind. rewrite Hdown.
  unfold xr_open_dataset. now rewrite script_path_is_download_path, Hfile.
Qed.

(** When no hour can contribute, the loop ends with no grid: so it is when
    every request fails, and when no file decodes. *)
Lemma hours_loop_nothing (hours : list Z) datasets w :
  (forall dt datasets w, fst (process_hour requests_get cfgrib_decode dt datasets w) = Ok datasets) ->
  fst (hours_loop requests_get cfgrib_decode hours datasets w) = Ok datasets.
Proof.
  intros Hfail. revert datasets w.
  induction hours as [|dt hours IH]; intros datasets w; cbn [hours_loop]; [reflexivity|].
  unfold bind. specialize (Hfail dt datasets w).
  destruct (process_hour requests_get cfgrib_decode dt datasets w) as [r w1].
  cbn [fst] in Hfail. subst r. apply IH.
Qed.

Lemma collect_hours_nothing (start end_ : Z) w :
  (forall dt datasets w, fst (process_hour requests_get cfgrib_decode dt datasets w) = Ok datasets) ->
  fst (collect_hours requests_get cfgrib_decode start end_ w) = Ok [].
Proof.
  intros Hfail. unfold collect_hours. destruct (end_ <? start); [reflexivity|].
  now apply hours_loop_nothing.
Qed.

Lemma every_fetch_fails (start end_ : Z) w :
  (forall url, exists e, requests_get url = Raise e) ->
  fst (collect_hours requests_get cfgrib_decode start end_ w) = Ok [].
Proof.
  intros Hget. apply collect_hours_nothing. intros dt datasets w0.
  unfold process_hour, try_except, bind.
  destruct (files w0 !! merge_data_dir) as [c|] eqn:Hdir.
  - now rewrite (download_makedirs_fails _ _ _ _ Hdir).
  - destruct (Hget (merge_url dt)) as [e He].
    now rewrite (download_request_fails _ _ _ _ Hdir He).
Qed.

Lemma every_parse_fails (start end_ : Z) w :
  (forall bytes, cfgrib_decode bytes = None) ->
  fst (collect_hours requests_get cfgrib_decode start end_ w) = Ok [].
Proof.
  intros Hdecode. apply collect_hours_nothing. intros dt datasets w0.
  unfold process_hour, try_except, bind.
  destruct (download_merge_cptec requests_get dt merge_data_dir w0) as [[name|e] w1];
    [|reflexivity].
  unfold xr_open_dataset.
  destruct (files w1 !! _) as [[bytes|gdf|df]|]; try reflexivity.
  now rewrite Hdecode.
Qed.

(** C10: when the server answers with a status other than 200 (and the
    download directory can be made), [download_merge_cptec] raises nothing
    and returns the path of the target file, leaving every file as it was:
    the target is neither written nor removed.  So when a file of an
    earlier run stands at that path and opens, its grid is appended to
    [datasets] as the grid of this hour; the hour is skipped only when no
    file stands there. *)
Theorem stale_file_used_after_failed_download (dir : string) dt w (resp : Response) :
  files w !! dir = None ->
  requests_get (merge_url dt) = Ok resp ->
  status_code resp <> 200 ->
  (exists w' : World polygon,
     download_merge_cptec requests_get dt dir w = (Ok (path_join dir (merge_basename dt)), w')
     /\ files w' = files w)
  /\ (dir = merge_data_dir ->
      (forall datasets (bytes : list Byte.byte) (h : HourlyDataset) (ds : Dataset),
         files w !! path_join merge_data_dir (merge_basename dt) = Some (RawBytes bytes) ->
         cfgrib_decode bytes = Some h ->
         hourly_entry h = Ok ds ->
         fst (process_hour requests_get cfgrib_decode dt datasets w)
         = Ok (datasets ++ [ds])%list)
      /\ (forall datasets,
            files w !! path_join merge_data_dir (merge_basename dt) = None ->
            fst (process_hour requests_get cfgrib_decode dt datasets w) = Ok datasets)).
Proof.
  intros Hdir Hget Hstatus.
  pose proof (download_not_200 dt dir w resp Hdir Hget Hstatus) as Hdown.
  split; [eexists; split; [exact Hdown|reflexivity]|].
  intros ->. split.
  - intros datasets bytes h ds Hfile Hdecode Hentry.
    now rewrite (process_hour_opened dt datasets w _ _ bytes h ds Hdown Hfile Hdecode Hentry).
  - intros datasets Hfile.
    now rewrite (process_hour_no_file dt datasets w _ _ Hdown Hfile).
Qed.

End ScriptFacts.

(* ===================================================================== *)
(** ** The statements on the scenarios *)
(* ===================================================================== *)

Lemma no_hours_no_output_witness :
  fst (collect_hours server_404 decode_as_merge_like
         (Time.datetime 2025 1 2 23) (Time.datetime 2025 1 5 23) empty_world)
  = Ok []
  /\ exists w' : World Box,
       main box_contains server_404 decode_as_merge_like
            (Time.datetime 2025 1 2 23) (Time.datetime 2025 1 5 23) empty_world
       = (Raise (NameError "ds_all"), w')
       /\ ~ In (Invoked "diary_prec_12z") (trace w')
       /\ files w' !! parquet_path = None
       /\ output_dir ∉ dirs w'.
Proof.
  assert (Hnone : fst (collect_hours server_404 decode_as_merge_like
                         (Time.datetime 2025 1 2 23) (Time.datetime 2025 1 5 23)
                         empty_world) = Ok [])
    by (vm_compute; reflexivity).
  split; [exact Hnone|].
  destruct (no_hours_no_output box_contains server_404 decode_as_merge_like _ _ _ Hnone)
    as (w' & Hmain & _ & _ & Hcall & _ & _ & Hfile & Hdir).
  exists w'. split; [exact Hmain|].
  split; [apply Hcall; intros []|].
  split; [rewrite Hfile; reflexivity|].
  intros Hin. apply Hdir in Hin. cbn in Hin. now apply not_elem_of_empty in Hin.
Defined.

Lemma stale_file_used_after_failed_download_witness :
  files world_with_stale_file !! merge_data_dir = None
  /\ server_404 (merge_url (Time.datetime 2025 1 2 23))
     = Ok {| status_code := 404; iter_content := []; stream_error := None |}
  /\ 404 <> 200
  /\ exists ds : Dataset,
       hourly_entry grid_merge_like = Ok ds
       /\ time ds = [Time.timestamp 2024 12 31 0]
       /\ fst (process_hour server_404 decode_as_merge_like
                 (Time.datetime 2025 1 2 23) [] world_with_stale_file)
          = Ok [ds].
Proof.
  assert (Hdir : files world_with_stale_file !! merge_data_dir = None)
    by (vm_compute; reflexivity).
  assert (Hstatus : 404 <> 200) by discriminate.
  split; [exact Hdir|]. split; [reflexivity|]. split; [exact Hstatus|].
  destruct (stale_file_used_after_failed_download server_404 decode_as_merge_like
              merge_data_dir (Time.datetime 2025 1 2 23) world_with_stale_file
              {| status_code := 404; iter_content := []; stream_error := None |}
              Hdir eq_refl Hstatus)
    as [_ Hhour].
  destruct (Hhour eq_refl) as [Hstale _].
  eexists. split; [reflexivity|]. split; [reflexivity|].
  apply (Hstale [] [Byte.x47] grid_merge_like); [vm_compute|..]; reflexivity.
Defined.

Lemma window_assignment_witness :
  let ds := constant_hours [0%Q] [0%Q] (Time.timestamp 2025 1 2 13) 24 1%float in
  length (time ds) = length (prec ds)
  /\ Forall Time.no_overflow (time ds)
  /\ time ds !! 23%nat = Some (Time.timestamp 2025 1 3 12)
  /\ exists out : Dataset,
       diary_prec_12z ds = Ok out
       /\ time out = [Time.timestamp 2025 1 2 12; Time.timestamp 2025 1 3 12]
       /\ exists w : nat, time out !! w = Some (Time.timestamp 2025 1 3 12).
Proof.
  intros ds.
  assert (Hlen : length (time ds) = length (prec ds)) by reflexivity.
  assert (Hrange : Forall Time.no_overflow (time ds)).
  { apply List.Forall_forall. intros t Hin. apply no_overflow_bounds.
    apply in_map_iff in Hin as (j & <- & Hj). apply in_seq in Hj.
    change (Time.timestamp 1677 9 22 12) with (-9223243200000000000).
    change (Time.timestamp 2025 1 2 13) with 1735822800000000000.
    change Time.int64_max with 9223372036854775807.
    change Time.ns_per_hour with 3600000000000. lia. }
  assert (Ht : time ds !! 23%nat = Some (Time.timestamp 2025 1 3 12)) by reflexivity.
  assert (Hg : prec ds !! 23%nat = Some (const_grid 1 1 1%float)) by reflexivity.
  split; [exact Hlen|]. split; [exact Hrange|]. split; [exact Ht|].
  destruct (diary_prec_12z ds) as [out|e] eqn:Hout; [|vm_compute in Hout; discriminate Hout].
  exists out. split; [reflexivity|].
  split.
  { vm_compute in Hout. injection Hout as <-. reflexivity. }
  destruct (window_assignment ds out 23 _ _ Hlen Hrange Hout Ht Hg) as ((w & Hw & _) & _).
  exists w. exact Hw.
Defined.

Lemma fix_coordinates_axes_witness :
  Forall (fun l => (0 <= l /\ l < 360)%Q) (h_longitude grid_merge_like)
  /\ well_separated (h_longitude grid_merge_like)
  /\ strictly_ascending (h_longitude (fix_coordinates grid_merge_like))
  /\ strictly_ascending (h_latitude (fix_coordinates grid_merge_like))
  /\ Forall within_pm180 (h_longitude (fix_coordinates grid_merge_like)).
Proof.
  assert (Hr : Forall (fun l => (0 <= l /\ l < 360)%Q) (h_longitude grid_merge_like)).
  { cbn [h_longitude grid_merge_like].
    repeat (apply List.Forall_cons; [unfold Qle, Qlt; cbn; lia|]).
    apply List.Forall_nil. }
  assert (Hs : well_separated (h_longitude grid_merge_like)).
  { cbn [h_longitude grid_merge_like well_separated]. repeat split;
      repeat (apply List.Forall_cons;
              [split; unfold Qle; vm_compute; discriminate|]);
      apply List.Forall_nil. }
  destruct (fix_coordinates_axes grid_merge_like)
    as (_ & _ & _ & _ & Hrange & _ & _ & Hlat & _ & Hlon).
  split; [exact Hr|]. split; [exact Hs|].
  split; [|split].
  - apply Hlon; assumption.
  - apply Hlat. cbn [h_latitude grid_merge_like distinct_values]. repeat split;
      repeat (apply List.Forall_cons; [unfold Qeq; cbn; lia|]);
      apply List.Forall_nil.
  - apply Hrange. reflexivity.
Defined.

(** C5, as stated, fails: a longitude of exactly 180 on a grid with no
    longitude above 180 stays 180, outside the range; and the two ends 0
    and 360 of the circle come out as 0 twice, not strictly ascending. *)
Lemma fix_coordinates_not_always_normal :
  h_longitude (fix_coordinates grid_lon_0_90_180) = [0%Q; 90%Q; 180%Q]
  /\ ~ Forall in_pm180 (h_longitude (fix_coordinates grid_lon_0_90_180))
  /\ ~ strictly_ascending (h_longitude (fix_coordinates grid_lon_0_360)).
Proof.
  split; [reflexivity|]. split.
  - intros H.
    change (h_longitude (fix_coordinates grid_lon_0_90_180)) with [0%Q; 90%Q; 180%Q] in H.
    apply List.Forall_cons_iff in H. destruct H as [_ H].
    apply List.Forall_cons_iff in H. destruct H as [_ H].
    apply List.Forall_cons_iff in H. destruct H as [[_ H] _].
    unfold Qlt in H. cbn in H. lia.
  - intros H.
    change (h_longitude (fix_coordinates grid_lon_0_360)) with [0%Q; 0%Q] in H.
    apply StronglySorted_inv in H. destruct H as [_ H].
    apply List.Forall_cons_iff in H. destruct H as [H _].
    unfold Qlt in H. cbn in H. lia.
Qed.

(** Binary64 on the axis: with a longitude above 180 on the grid, a
    longitude one unit in the last place below -180 comes out as 180, and
    the longitudes 0 and [10^-20] come out as 0 both. *)
Example fix_coordinates_binary64 :
  let grid lon := {| h_valid_time := 0; h_latitude := [0%Q]; h_longitude := lon;
                     h_data_vars := [] |} in
  h_longitude (fix_coordinates (grid [(-180 - (1 # 2 ^ 45))%Q; 200%Q]))
  = [(-160)%Q; 180%Q]
  /\ h_longitude (fix_coordinates (grid [0%Q; (1 # 10 ^ 20)%Q; 200%Q]))
     = [(-160)%Q; 0%Q; 0%Q].
Proof. split; vm_compute; reflexivity. Qed.

Lemma daily_field_after_extraction_witness :
  [row_brasilia] <> []
  /\ fst (extract_capitals_timeseries box_contains empty_world daily_2x2 [row_brasilia])
     = write_crs "epsg:4326" (set_spatial_dims "longitude" "latitude" daily_2x2)
  /\ prec (fst (extract_capitals_timeseries box_contains empty_world daily_2x2 [row_brasilia]))
     = prec daily_2x2.
Proof.
  assert (Hne : [row_brasilia] <> []) by discriminate.
  destruct (daily_field_after_extraction box_contains empty_world daily_2x2
              [row_brasilia] [row_brasilia])
    as (_ & _ & _ & Hsame & Hwritten & _).
  split; [exact Hne|]. split.
  - rewrite (Hwritten Hne). reflexivity.
  - apply Hsame.
Defined.

(** A run of three hours in which every download succeeds: the three grids
    are summed into one window, the one capital that is resolved gets its
    column, and the table reaches the file and the database. *)
Example three_hours_end_to_end :
  let run := main box_contains server_200 decode_as_merge_like
               (Time.datetime 2025 1 2 23) (Time.datetime 2025 1 3 1)
               (world_with_boundaries [row_brasilia; row_goiania_misspelt]) in
  fst run = Ok tt
  /\ files (snd run) !! parquet_path
     = Some (ParquetData {| index := [Time.timestamp 2024 12 30 12];
                            columns := [("Brasília", [9%float])] |})
  /\ In (Invoked "diary_prec_12z") (trace (snd run))
  /\ In (InsertMany {| mi_db := "capitals"; mi_collection := "precipitacao_diaria";
                       mi_documents := [(Time.timestamp 2024 12 30 12,
                                         [("Brasília", 9%float)])] |})
        (trace (snd run)).
Proof.
  split; [vm_compute; reflexivity|].
  split; [vm_compute; reflexivity|].
  split; vm_compute; tauto.
Qed.

(* ===================================================================== *)
(** ** Further properties: time, file names *)
(* ===================================================================== *)

Section CalendarFacts.
Import Time.

Lemma days_civil_roundtrip (z : Z) :
  days_from_civil (fst (fst (civil_from_days z))) (snd (fst (civil_from_days z)))
                  (snd (civil_from_days z)) = z.
Proof.
  unfold civil_from_days, days_from_civil. cbv zeta. cbn [fst snd].
  set (z' := z + 719468).
  set (era := z' / 146097).
  set (doe := z' - era * 146097).
  assert (Hdoe : 0 <= doe < 146097) by (subst doe era; Z.div_mod_to_equations; lia).
  set (yoe := (doe - doe / 1460 + doe / 36524 - doe / 146096) / 365).
  assert (Hyoe : 0 <= yoe <= 399) by (subst yoe; Z.div_mod_to_equations; lia).
  set (doy := doe - (365 * yoe + yoe / 4 - yoe / 100)).
  assert (Hdoy : 0 <= doy <= 365) by (subst doy yoe; Z.div_mod_to_equations; lia).
  set (mp := (5 * doy + 2) / 153).
  assert (Hmp : 0 <= mp <= 11) by (subst mp; Z.div_mod_to_equations; lia).
  destruct (mp <? 10) eqn:E.
  - apply Z.ltb_lt in E.
    replace (mp + 3 <=? 2) with false by (symmetry; apply Z.leb_gt; lia).
    replace (2 <? mp + 3) with true by (symmetry; apply Z.ltb_lt; lia).
    replace (mp + 3 - 3) with mp by lia.
    replace ((yoe + era * 400) / 400) with era by (Z.div_mod_to_equations; lia).
    subst mp doy doe z'. Z.div_mod_to_equations. lia.
  - apply Z.ltb_ge in E.
    replace (mp - 9 <=? 2) with true by (symmetry; apply Z.leb_le; lia).
    replace (2 <? mp - 9) with false by (symmetry; apply Z.ltb_ge; lia).
    replace (mp - 9 + 9) with mp by lia.
    replace (yoe + era * 400 + 1 - 1) with (yoe + era * 400) by lia.
    replace ((yoe + era * 400) / 400) with era by (Z.div_mod_to_equations; lia).
    subst mp doy doe z'. Z.div_mod_to_equations. lia.
Qed.

Lemma civil_from_days_bounds (z : Z) :
  1 <= snd (fst (civil_from_days z)) <= 12 /\ 1 <= snd (civil_from_days z) <= 31.
Proof.
  unfold civil_from_days. cbv zeta. cbn [fst snd].
  set (z' := z + 719468).
  set (era := z' / 146097).
  set (doe := z' - era * 146097).
  assert (Hdoe : 0 <= doe < 146097) by (subst doe era; Z.div_mod_to_equations; lia).
  set (yoe := (doe - doe / 1460 + doe / 36524 - doe / 146096) / 365).
  assert (Hyoe : 0 <= yoe <= 399) by (subst yoe; Z.div_mod_to_equations; lia).
  set (doy := doe - (365 * yoe + yoe / 4 - yoe / 100)).
  assert (Hdoy : 0 <= doy <= 365) by (subst doy yoe; Z.div_mod_to_equations; lia).
  set (mp := (5 * doy + 2) / 153).
  assert (Hmp : 0 <= mp <= 11) by (subst mp; Z.div_mod_to_equations; lia).
  split.
  - destruct (mp <? 10) eqn:E; [apply Z.ltb_lt in E | apply Z.ltb_ge in E]; lia.
  - subst mp. Z.div_mod_to_equations. lia.
Qed.

Lemma digit_injective (a b : Z) :
  0 <= a < 10 -> 0 <= b < 10 -> digit a = digit b -> a = b.
Proof.
  intros Ha Hb H. unfold digit in H.
  rewrite (Z.mod_small a 10), (Z.mod_small b 10) in H by lia.
  apply (f_equal nat_of_ascii) in H.
  rewrite !nat_ascii_embedding in H by lia. lia.
Qed.

Lemma digit_mod (n : Z) : digit n = digit (n mod 10).
Proof. unfold digit. now rewrite Z.mod_mod by lia. Qed.

Lemma pad2_injective (a b : Z) :
  0 <= a < 100 -> 0 <= b < 100 -> pad2 a = pad2 b -> a = b.
Proof.
  intros Ha Hb H. unfold pad2 in H. injection H as H1 H0.
  rewrite (digit_mod a), (digit_mod b) in H0.
  apply digit_injective in H1; [|Z.div_mod_to_equations; lia..].
  apply digit_injective in H0; [|Z.div_mod_to_equations; lia..].
  Z.div_mod_to_equations. lia.
Qed.

Lemma pad4_injective (a b : Z) :
  0 <= a < 10000 -> 0 <= b < 10000 -> pad4 a = pad4 b -> a = b.
Proof.
  intros Ha Hb H. unfold pad4, pad2 in H. injection H as H3 H2 H1 H0.
  rewrite (digit_mod (a / 100)), (digit_mod (b / 100)) in H2.
  rewrite (digit_mod (a / 10)), (digit_mod (b / 10)) in H1.
  rewrite (digit_mod a), (digit_mod b) in H0.
  apply digit_injective in H3; [|Z.div_mod_to_equations; lia..].
  apply digit_injective in H2; [|Z.div_mod_to_equations; lia..].
  apply digit_injective in H1; [|Z.div_mod_to_equations; lia..].
  apply digit_injective in H0; [|Z.div_mod_to_equations; lia..].
  Z.div_mod_to_equations. lia.
Qed.

Lemma date_determines_hour (dt dt' : Z) :
  year_of dt = year_of dt' -> month_of dt = month_of dt' ->
  day_of dt = day_of dt' -> hour_of dt = hour_of dt' -> dt = dt'.
Proof.
  unfold year_of, month_of, day_of, hour_of. intros Hy Hm Hd Hh.
  assert (Hdays : dt / 24 = dt' / 24).
  { rewrite <- (days_civil_roundtrip (dt / 24)), <- (days_civil_roundtrip (dt' / 24)).
    now rewrite Hy, Hm, Hd. }
  Z.div_mod_to_equations. lia.
Qed.

Lemma strftime_YmdH_chars (dt : Z) :
  strftime_YmdH dt
  = String (digit (year_of dt / 1000)) (String (digit (year_of dt / 100))
      (String (digit (year_of dt / 10)) (String (digit (year_of dt))
      (String (digit (month_of dt / 10)) (String (digit (month_of dt))
      (String (digit (day_of dt / 10)) (String (digit (day_of dt))
      (String (digit (hour_of dt / 10)) (String (digit (hour_of dt)) ""))))))))).
Proof. reflexivity. Qed.

Lemma strftime_YmdH_injective (dt dt' : Z) :
  0 <= year_of dt < 10000 -> 0 <= year_of dt' < 10000 ->
  strftime_YmdH dt = strftime_YmdH dt' -> dt = dt'.
Proof.
  intros Hy Hy' H. rewrite !strftime_YmdH_chars in H.
  injection H as Y3 Y2 Y1 Y0 M1 M0 D1 D0 H1 H0.
  pose proof (civil_from_days_bounds (dt / 24)) as [Hm Hd].
  pose proof (civil_from_days_bounds (dt' / 24)) as [Hm' Hd'].
  fold (month_of dt) in Hm. fold (day_of dt) in Hd.
  fold (month_of dt') in Hm'. fold (day_of dt') in Hd'.
  assert (Hh : 0 <= hour_of dt < 24) by (unfold hour_of; apply Z.mod_pos_bound; lia).
  assert (Hh' : 0 <= hour_of dt' < 24) by (unfold hour_of; apply Z.mod_pos_bound; lia).
  apply date_determines_hour.
  - apply pad4_injective; [lia..|]. unfold pad4, pad2. congruence.
  - apply pad2_injective; [lia..|]. unfold pad2. congruence.
  - apply pad2_injective; [lia..|]. unfold pad2. congruence.
  - apply pad2_injective; [lia..|]. unfold pad2. congruence.
Qed.

End CalendarFacts.

Lemma append_cancel (s a b : string) : (s ++ a)%string = (s ++ b)%string -> a = b.
Proof.
  induction s as [|c s IH]; [trivial|].
  intros H. injection H as H. now apply IH.
Qed.

Lemma merge_basename_injective (dt dt' : Z) :
  0 <= Time.year_of dt < 10000 -> 0 <= Time.year_of dt' < 10000 ->
  merge_basename dt = merge_basename dt' -> dt = dt'.
Proof.
  intros Hy Hy' H. apply strftime_YmdH_injective; [assumption..|].
  unfold merge_basename in H. apply append_cancel in H.
  rewrite !strftime_YmdH_chars in H |- *.
  cbv [String.append] in H. congruence.
Qed.

Lemma merge_url_injective (dt dt' : Z) :
  0 <= Time.year_of dt < 10000 -> 0 <= Time.year_of dt' < 10000 ->
  merge_url dt = merge_url dt' -> dt = dt'.
Proof.
  intros Hy Hy' H. apply strftime_YmdH_injective; [assumption..|].
  unfold merge_url in H. apply append_cancel in H.
  rewrite !strftime_YmdH_chars in H |- *.
  unfold Time.pad4, Time.pad2 in H.
  cbv [String.append] in H. congruence.
Qed.

(** X1: distinct hours never share a cache file nor a URL: the name built
    from [%Y%m%d%H] determines the hour (for years of four digits). *)
Theorem hours_have_their_own_file (output_dir : string) (dt dt' : Z) :
  0 <= Time.year_of dt < 10000 -> 0 <= Time.year_of dt' < 10000 ->
  (path_join output_dir (merge_basename dt) = path_join output_dir (merge_basename dt')
   \/ merge_url dt = merge_url dt') ->
  dt = dt'.
Proof.
  intros Hy Hy' [H|H].
  - unfold path_join in H. apply append_cancel in H. apply append_cancel in H.
    now apply merge_basename_injective.
  - now apply merge_url_injective.
Qed.

Lemma hours_have_their_own_file_witness :
  0 <= Time.year_of (Time.datetime 2025 1 2 23) < 10000
  /\ Time.datetime 2025 1 2 23 = Time.datetime 2025 1 2 23.
Proof.
  assert (Hy : 0 <= Time.year_of (Time.datetime 2025 1 2 23) < 10000)
    by (vm_compute; split; [discriminate|reflexivity]).
  split; [exact Hy|].
  apply (hours_have_their_own_file "./merge_data" _ _ Hy Hy). left. reflexivity.
Defined.

(** X2: on timestamps on which line 103 stays within the 64 bits, the key
    is a timestamp of the same kind and is its own key, and the assignment
    of keys keeps the order of the timestamps: later hours never fall in an
    earlier window. *)
Theorem window_keys_stable_and_ordered (t t' : Z) :
  Time.no_overflow t -> Time.no_overflow t' ->
  Time.no_overflow (Time.ref_time t)
  /\ Time.ref_time (Time.ref_time t) = Time.ref_time t
  /\ (t <= t' -> Time.ref_time t <= Time.ref_time t')
  /\ (Time.ref_time t < Time.ref_time t' -> t < t').
Proof.
  intros Hr Hr'. split; [now apply ref_time_representable|]. split; [|split].
  - symmetry. apply ref_time_unique; [apply ref_time_at_noon|].
    rewrite ns_per_day_value. lia.
  - apply ref_time_monotone.
  - intros Hlt. destruct (Z_lt_le_dec t t') as [H|H]; [exact H|].
    apply ref_time_monotone in H. lia.
Qed.

Lemma window_keys_stable_and_ordered_witness :
  Time.no_overflow (Time.timestamp 2025 1 2 13)
  /\ Time.no_overflow (Time.timestamp 2025 1 3 12)
  /\ Time.ref_time (Time.timestamp 2025 1 2 13) <= Time.ref_time (Time.timestamp 2025 1 3 12).
Proof.
  assert (H1 : Time.no_overflow (Time.timestamp 2025 1 2 13))
    by (apply no_overflow_bounds; vm_compute; split; discriminate).
  assert (H2 : Time.no_overflow (Time.timestamp 2025 1 3 12))
    by (apply no_overflow_bounds; vm_compute; split; discriminate).
  split; [exact H1|]. split; [exact H2|].
  apply (window_keys_stable_and_ordered _ _ H1 H2). vm_compute. discriminate.
Defined.

(* ===================================================================== *)
(** ** Further properties: Coordinate Normalizer *)
(* ===================================================================== *)

Section SortFacts.
Context {A : Type}.

Lemma sort_keyed_of_sorted (l : list (Q * A)) :
  StronglySorted key_le l -> sort_keyed l = l.
Proof.
  induction 1 as [|[k a] l Hs IH Hall]; [reflexivity|].
  cbn [sort_keyed]. rewrite IH.
  destruct l as [|[k' a'] l']; [reflexivity|].
  cbn [insert_keyed].
  apply List.Forall_cons_iff in Hall. destruct Hall as [Hk _].
  unfold key_le in Hk. cbn in Hk. apply Qle_bool_iff in Hk. now rewrite Hk.
Qed.

Lemma combine_sorted (keys : list Q) (xs : list A) :
  ascending keys -> StronglySorted key_le (combine keys xs).
Proof.
  unfold ascending. intros Hs. revert xs.
  induction Hs as [|k keys Hs IH Hall]; intros xs; [constructor|].
  destruct xs as [|x xs]; [constructor|]. cbn [combine].
  constructor; [apply IH|].
  rewrite List.Forall_forall in Hall |- *. intros [k' a'] Hin.
  apply in_combine_l in Hin. unfold key_le. cbn. auto.
Qed.

Lemma map_snd_combine_short (keys : list Q) (xs : list A) :
  (length xs <= length keys)%nat -> map snd (combine keys xs) = xs.
Proof.
  revert xs. induction keys as [|k keys IH]; intros [|x xs] Hlen; cbn in *;
    try reflexivity; try lia.
  f_equal. apply IH. lia.
Qed.

Lemma reorder_by_sorted (keys : list Q) (xs : list A) :
  ascending keys -> (length xs <= length keys)%nat -> reorder_by keys xs = xs.
Proof.
  intros Hs Hlen. unfold reorder_by.
  rewrite sort_keyed_of_sorted by now apply combine_sorted.
  now apply map_snd_combine_short.
Qed.

Lemma reorder_by_length (keys : list Q) (xs : list A) :
  length (reorder_by keys xs) = Nat.min (length keys) (length xs).
Proof.
  unfold reorder_by. rewrite length_map.
  rewrite <- (Permutation_length (sort_keyed_perm (combine keys xs))).
  apply length_combine.
Qed.

Lemma reorder_by_In (keys : list Q) (xs : list A) (x : A) :
  In x (reorder_by keys xs) -> In x xs.
Proof.
  unfold reorder_by. intros Hin. apply in_map_iff in Hin.
  destruct Hin as [[k a] [<- Hin]].
  apply (Permutation_in _ (Permutation_sym (sort_keyed_perm _))) in Hin.
  now apply in_combine_r in Hin.
Qed.

End SortFacts.

Lemma reorder_self_length (keys : list Q) : length (reorder_by keys keys) = length keys.
Proof. rewrite reorder_by_length. apply Nat.min_id. Qed.

Lemma any_above_180_none (lon : list Q) :
  Forall (fun l => (l <= 180)%Q) lon -> any_above_180 lon = false.
Proof.
  unfold any_above_180. induction 1 as [|x lon Hx Hall IH]; [reflexivity|].
  cbn [existsb]. apply Qle_bool_iff in Hx. now rewrite Hx, IH.
Qed.

Lemma remapped_longitude_sorted_below_180 (lon : list Q) :
  any_above_180 (reorder_by (remapped_longitude lon) (remapped_longitude lon)) = false.
Proof.
  apply any_above_180_none. apply List.Forall_forall. intros x Hx.
  apply (Permutation_in _ (Permutation_sym (reorder_self_perm _))) in Hx.
  unfold remapped_longitude in Hx.
  destruct (any_above_180 lon) eqn:Hany.
  - apply in_map_iff in Hx. destruct Hx as [l [<- _]].
    destruct (remap_longitude_range l) as [_ H]. exact H.
  - pose proof (any_above_180_false _ Hany) as Hall.
    rewrite List.Forall_forall in Hall. auto.
Qed.

Lemma fix_coordinates_data_vars (ds : HourlyDataset) :
  h_data_vars (fix_coordinates ds)
  = map (fun v : string * Grid =>
           (fst v, reorder_by (h_latitude ds)
                     (map (reorder_by (remapped_longitude (h_longitude ds))) (snd v))))
        (h_data_vars ds).
Proof.
  unfold fix_coordinates, remapped_longitude.
  destruct (any_above_180 (h_longitude ds)); cbn; rewrite map_map; reflexivity.
Qed.

(** X3: normalizing twice is normalizing once: a grid that has been through
    [fix_coordinates] is left exactly as it is by a second pass. *)
Theorem fix_coordinates_idempotent (ds : HourlyDataset) :
  fix_coordinates (fix_coordinates ds) = fix_coordinates ds.
Proof.
  set (out := fix_coordinates ds).
  assert (Hlon : h_longitude out
                 = reorder_by (remapped_longitude (h_longitude ds))
                              (remapped_longitude (h_longitude ds)))
    by apply fix_coordinates_longitude.
  assert (Hlat : h_latitude out = reorder_by (h_latitude ds) (h_latitude ds))
    by apply fix_coordinates_latitude.
  assert (Hvars := fix_coordinates_data_vars ds). fold out in Hvars.
  assert (Hany : any_above_180 (h_longitude out) = false)
    by (rewrite Hlon; apply remapped_longitude_sorted_below_180).
  assert (Hasc_lon : ascending (h_longitude out))
    by (rewrite Hlon; apply reorder_self_ascending).
  assert (Hasc_lat : ascending (h_latitude out))
    by (rewrite Hlat; apply reorder_self_ascending).
  assert (Hrem : remapped_longitude (h_longitude out) = h_longitude out)
    by (unfold remapped_longitude; now rewrite Hany).
  destruct out as [t lat lon vars] eqn:Hout. cbn [h_longitude h_latitude h_data_vars] in *.
  assert (Hgoal_lon : h_longitude (fix_coordinates (mkHourly t lat lon vars)) = lon).
  { rewrite fix_coordinates_longitude. cbn [h_longitude]. rewrite Hrem.
    apply reorder_by_sorted; [exact Hasc_lon|lia]. }
  assert (Hgoal_lat : h_latitude (fix_coordinates (mkHourly t lat lon vars)) = lat).
  { rewrite fix_coordinates_latitude. cbn [h_latitude].
    apply reorder_by_sorted; [exact Hasc_lat|lia]. }
  assert (Hgoal_vars : h_data_vars (fix_coordinates (mkHourly t lat lon vars)) = vars).
  { rewrite fix_coordinates_data_vars. cbn [h_longitude h_latitude h_data_vars].
    rewrite Hrem. rewrite <- (map_id vars) at 2.
    apply map_ext_in. intros [name g] Hin. cbn [fst snd]. f_equal.
    rewrite Hvars in Hin. apply in_map_iff in Hin.
    destruct Hin as [[name0 g0] [Heq Hin0]]. cbn [fst snd] in Heq.
    injection Heq as _ Hg.
    assert (Hrows : map (reorder_by lon) g = g).
    { rewrite <- (map_id g) at 2. apply map_ext_in. intros row Hrow.
      apply reorder_by_sorted; [exact Hasc_lon|].
      rewrite <- Hg in Hrow. apply reorder_by_In in Hrow.
      apply in_map_iff in Hrow. destruct Hrow as [row0 [<- _]].
      rewrite reorder_by_length, Hlon, reorder_self_length. lia. }
    rewrite Hrows. apply reorder_by_sorted; [exact Hasc_lat|].
    rewrite <- Hg, reorder_by_length, Hlat, reorder_self_length. lia. }
  assert (Hgoal_t : h_valid_time (fix_coordinates (mkHourly t lat lon vars)) = t).
  { unfold fix_coordinates. cbn [h_longitude].
    destruct (any_above_180 lon); reflexivity. }
  destruct (fix_coordinates (mkHourly t lat lon vars)) as [t' lat' lon' vars'].
  cbn [h_longitude h_latitude h_data_vars h_valid_time] in *. congruence.
Qed.

Section RelabelFacts.
Context {A B : Type} (h : Q * A -> B).

Lemma insert_keyed_relabel (k : Q) (a : A) (l : list (Q * A)) :
  insert_keyed k (h (k, a)) (map (relabel h) l) = map (relabel h) (insert_keyed k a l).
Proof.
  induction l as [|[k' a'] l IH]; [reflexivity|].
  cbn [map insert_keyed relabel fst].
  destruct (Qle_bool k k'); [reflexivity|].
  cbn [map]. now rewrite IH.
Qed.

Lemma sort_keyed_relabel (l : list (Q * A)) :
  sort_keyed (map (relabel h) l) = map (relabel h) (sort_keyed l).
Proof.
  induction l as [|[k a] l IH]; [reflexivity|].
  cbn [map sort_keyed relabel fst]. rewrite IH. apply insert_keyed_relabel.
Qed.

End RelabelFacts.

Lemma combine_keys_relabel {A : Type} (keys : list Q) (xs : list A) :
  length keys = length xs ->
  combine keys keys = map (relabel (fun p : Q * A => fst p)) (combine keys xs).
Proof.
  revert xs. induction keys as [|k keys IH]; intros [|x xs] Hlen; try discriminate;
    [reflexivity|].
  cbn. f_equal. apply IH. now injection Hlen.
Qed.

Lemma combine_fst_snd {A B : Type} (l : list (A * B)) :
  combine (map fst l) (map snd l) = l.
Proof. induction l as [|[a b] l IH]; cbn; congruence. Qed.

(** Reordering an axis and values by the axis keeps each value with its
    coordinate. *)
Lemma reorder_keeps_pairs {A : Type} (keys : list Q) (xs : list A) :
  length keys = length xs ->
  combine (reorder_by keys keys) (reorder_by keys xs) = sort_keyed (combine keys xs).
Proof.
  intros Hlen. rewrite reorder_self. unfold reorder_by.
  rewrite (combine_keys_relabel keys xs Hlen), sort_keyed_relabel.
  rewrite List.map_map. cbn [relabel fst].
  apply combine_fst_snd.
Qed.

Lemma flat_map_perm_pointwise {A B : Type} (f g : A -> list B) (l : list A) :
  (forall x, In x l -> Permutation (f x) (g x)) ->
  Permutation (flat_map f l) (flat_map g l).
Proof.
  induction l as [|x l IH]; intros H; [reflexivity|].
  cbn [flat_map]. apply Permutation_app; [apply H; now left|].
  apply IH. intros y Hy. apply H. now right.
Qed.

Lemma flat_map_of_map {A B C : Type} (f : B -> list C) (h : A -> B) (l : list A) :
  flat_map f (map h l) = flat_map (fun x => f (h x)) l.
Proof. induction l as [|x l IH]; cbn; congruence. Qed.

Lemma combine_map_r {A B C : Type} (f : B -> C) (l : list A) (l' : list B) :
  combine l (map f l') = map (fun p => (fst p, f (snd p))) (combine l l').
Proof.
  revert l'. induction l as [|a l IH]; intros [|b l']; cbn; try reflexivity.
  now rewrite IH.
Qed.

Lemma remapped_longitude_length (lon : list Q) :
  length (remapped_longitude lon) = length lon.
Proof.
  unfold remapped_longitude. destruct (any_above_180 lon); [apply length_map|reflexivity].
Qed.

(** X4: the normalizer moves no value away from its place: in a field with
    one row per latitude and one cell per longitude, the cells of the
    output, each taken with its latitude and longitude, are those of the
    input taken with its latitude and its longitude after remapping. *)
Theorem fix_coordinates_keeps_cells (ds : HourlyDataset) (i : nat) (name : string) (g : Grid) :
  h_data_vars ds !! i = Some (name, g) ->
  well_shaped (h_latitude ds) (h_longitude ds) g ->
  exists g' : Grid,
    h_data_vars (fix_coordinates ds) !! i = Some (name, g')
    /\ well_shaped (h_latitude (fix_coordinates ds)) (h_longitude (fix_coordinates ds)) g'
    /\ Permutation
         (labelled_cells (h_latitude ds) (remapped_longitude (h_longitude ds)) g)
         (labelled_cells (h_latitude (fix_coordinates ds))
                         (h_longitude (fix_coordinates ds)) g').
Proof.
  intros Hvar [Hrows Hcols].
  rewrite fix_coordinates_data_vars, fix_coordinates_longitude, fix_coordinates_latitude.
  set (lat := h_latitude ds) in *.
  set (lonR := remapped_longitude (h_longitude ds)).
  assert (HlonR : length lonR = length (h_longitude ds))
    by apply remapped_longitude_length.
  set (g1 := map (reorder_by lonR) g).
  assert (Hg1 : length g1 = length lat) by (subst g1; now rewrite length_map).
  exists (reorder_by lat g1). split.
  { change (map ?f (h_data_vars ds)) with (f <$> h_data_vars ds).
    rewrite list_lookup_fmap, Hvar. reflexivity. }
  split.
  { split.
    - rewrite reorder_by_length, reorder_self_length, Hg1. apply Nat.min_id.
    - apply List.Forall_forall. intros row Hrow.
      apply reorder_by_In in Hrow. subst g1.
      apply in_map_iff in Hrow. destruct Hrow as [row0 [<- Hrow0]].
      rewrite List.Forall_forall in Hcols. specialize (Hcols _ Hrow0).
      rewrite reorder_by_length, reorder_self_length, HlonR, Hcols.
      apply Nat.min_id. }
  unfold labelled_cells.
  rewrite (reorder_keeps_pairs lat g1) by now rewrite Hg1.
  etransitivity; [|apply Permutation_flat_map, sort_keyed_perm].
  subst g1. rewrite combine_map_r, flat_map_of_map.
  apply flat_map_perm_pointwise. intros [la row] Hin. cbn [fst snd].
  apply in_combine_r in Hin.
  rewrite List.Forall_forall in Hcols. specialize (Hcols _ Hin).
  unfold labelled_row.
  rewrite (reorder_keeps_pairs lonR row) by lia.
  apply Permutation_map, sort_keyed_perm.
Qed.

Lemma fix_coordinates_keeps_cells_witness :
  exists g' : Grid,
    h_data_vars (fix_coordinates grid_merge_like) !! 0%nat = Some ("prec", g')
    /\ well_shaped (h_latitude (fix_coordinates grid_merge_like))
                   (h_longitude (fix_coordinates grid_merge_like)) g'
    /\ Permutation
         (labelled_cells (h_latitude grid_merge_like)
                         (remapped_longitude (h_longitude grid_merge_like))
                         [[1%float; 2%float]; [3%float; 4%float]])
         (labelled_cells (h_latitude (fix_coordinates grid_merge_like))
                         (h_longitude (fix_coordinates grid_merge_like)) g').
Proof.
  apply (fix_coordinates_keeps_cells grid_merge_like 0 "prec"
           [[1%float; 2%float]; [3%float; 4%float]]).
  - reflexivity.
  - split; [reflexivity|]. repeat constructor.
Defined.

(* ===================================================================== *)
(** ** Further properties: Temporal Aggregator *)
(* ===================================================================== *)



Lemma diary_prec_12z_fields (ds out : Dataset) :
  length (time ds) = length (prec ds) ->
  diary_prec_12z ds = Ok out ->
  prec out = map (fun k => nansum_grids (hours_in_window ds k)) (time out)
  /\ (forall k, In k (time out) -> hours_in_window ds k <> []).
Proof.
  intros Hlen Hout.
  destruct (diary_prec_12z_groups ds out Hout) as (_ & Hprec & Hin & Hkey).
  split.
  - rewrite Hprec. apply map_ext_in. intros k Hk. now rewrite Hkey.
  - intros k Hk. rewrite <- (Hkey k Hk).
    apply select_group_present; [now rewrite length_map | now apply Hin].
Qed.











Lemma add_grid_shape (lat lon : list Q) (a b : Grid) :
  well_shaped lat lon a -> well_shaped lat lon b -> well_shaped lat lon (add_grid a b).
Proof.
  unfold well_shaped, add_grid, Grid, cell. intros [Ha Hra] [Hb Hrb]. split.
  - rewrite length_zip_with. lia.
  - clear Ha Hb. revert b Hrb.
    induction Hra as [|ra a Hr Hra IH]; intros b Hrb; [constructor|].
    destruct Hrb as [|rb b Hr' Hrb]; [constructor|].
    cbn [zip_with]. constructor; [|now apply IH].
    rewrite length_zip_with. lia.
Qed.

Lemma nan_to_zero_shape (lat lon : list Q) (g : Grid) :
  well_shaped lat lon g -> well_shaped lat lon (map (map nan_to_zero) g).
Proof.
  unfold well_shaped. intros [Hg Hr]. split; [now rewrite length_map|].
  apply List.Forall_forall. intros row Hrow. apply in_map_iff in Hrow.
  destruct Hrow as [row0 [<- Hin]]. rewrite length_map.
  rewrite List.Forall_forall in Hr. auto.
Qed.

Lemma nansum_grids_shape (lat lon : list Q) (gs : list Grid) :
  gs <> [] -> Forall (well_shaped lat lon) gs -> well_shaped lat lon (nansum_grids gs).
Proof.
  intros Hne Hall. unfold nansum_grids.
  destruct gs as [|g gs]; [congruence|].
  apply List.Forall_cons_iff in Hall. destruct Hall as [Hg Hall]. cbn [map].
  assert (Hacc := nan_to_zero_shape lat lon g Hg).
  clear Hne. revert Hacc. generalize (map (map nan_to_zero) g) as acc.
  induction Hall as [|g' gs Hg' Hall IH]; intros acc Hacc; [exact Hacc|].
  cbn [map fold_left]. apply IH.
  apply add_grid_shape; [exact Hacc|]. now apply nan_to_zero_shape.
Qed.

(** X8: the aggregator keeps the shape of the fields: when every hourly
    field has one row per latitude and one cell per longitude, so has every
    window. *)
Theorem diary_prec_12z_keeps_shape (ds out : Dataset) :
  length (time ds) = length (prec ds) ->
  Forall (well_shaped (latitude ds) (longitude ds)) (prec ds) ->
  diary_prec_12z ds = Ok out ->
  Forall (well_shaped (latitude out) (longitude out)) (prec out).
Proof.
  intros Hlen Hall Hout.
  destruct (diary_prec_12z_fields ds out Hlen Hout) as [Hprec Hne].
  assert (Haxes : latitude out = latitude ds /\ longitude out = longitude ds).
  { unfold diary_prec_12z in Hout. destruct (time_name ds); [|discriminate].
    destruct (unique_sorted _); [discriminate|]. injection Hout as <-. now split. }
  destruct Haxes as [-> ->]. rewrite Hprec.
  apply List.Forall_forall. intros g Hg. apply in_map_iff in Hg.
  destruct Hg as [k [<- Hk]].
  apply nansum_grids_shape; [now apply Hne|].
  apply List.Forall_forall. intros g Hg. unfold hours_in_window in Hg.
  apply in_map_iff in Hg. destruct Hg as [[t g'] [<- Hin]]. cbn [snd].
  apply filter_In in Hin. destruct Hin as [Hin _]. apply in_combine_r in Hin.
  rewrite List.Forall_forall in Hall. auto.
Qed.

Lemma diary_prec_12z_keeps_shape_witness :
  exists out : Dataset,
    diary_prec_12z record_at_noon = Ok out
    /\ Forall (well_shaped (latitude out) (longitude out)) (prec out).
Proof.
  eexists. split; [reflexivity|].
  apply (diary_prec_12z_keeps_shape record_at_noon); [reflexivity| |reflexivity].
  repeat constructor.
Defined.

(* ===================================================================== *)
(** ** Further properties: Spatial Masker *)
(* ===================================================================== *)

Section MaskerMore.
Context {polygon : Type} (contains : polygon -> Q -> Q -> bool).
Implicit Types (w : World polygon) (ds : Dataset).

Lemma rio_clip_result (geoms : list polygon) ds (out : Dataset) :
  rio_clip contains geoms ds = Ok out ->
  out = {| time_name := time_name ds; time := time ds;
           latitude := latitude ds; longitude := longitude ds;
           prec := map (clip_grid contains geoms (latitude ds) (longitude ds)) (prec ds);
           attrs := attrs ds;
           rio_dims := rio_dims ds; spatial_ref := spatial_ref ds |}.
Proof.
  unfold rio_clip.
  destruct (spatial_ref ds); [|discriminate].
  destruct geoms; [discriminate|].
  destruct (latitude ds); [discriminate|].
  destruct (longitude ds); [discriminate|].
  intros H. now injection H as <-.
Qed.

(** X9: what a call of [mask_data] leaves on its argument.  When the mask is
    a frame, or a path that reads as a frame, the dataset carries the
    spatial dimensions and the reference afterwards, also when the clipping
    itself fails (as it does on a grid without cells); the two forms of the
    mask give the same outcome.  When the path cannot be read the call
    raises before it has written anything. *)
Theorem mask_data_effect_on_argument w ds (path : string) (gdf : list (Feature polygon)) :
  let written := write_crs "epsg:4326" (set_spatial_dims "longitude" "latitude" ds) in
  fst (mask_data contains w ds (MaskFrame gdf)) = written
  /\ (files w !! path = Some (ShapefileData gdf) ->
      mask_data contains w ds (MaskPath path) = mask_data contains w ds (MaskFrame gdf))
  /\ (latitude ds = [] -> gdf <> [] ->
      exists e, mask_data contains w ds (MaskFrame gdf) = (written, Raise e))
  /\ (files w !! path = None ->
      exists e, mask_data contains w ds (MaskPath path) = (ds, Raise e)).
Proof.
  intros written. subst written.
  split; [reflexivity|]. split; [|split].
  - intros Hfile. unfold mask_data, gpd_read_file. now rewrite Hfile.
  - intros Hlat Hne. rewrite mask_data_frame. unfold rio_clip.
    cbn [spatial_ref write_crs set_spatial_dims latitude]. rewrite Hlat.
    destruct gdf as [|row gdf]; [congruence|]. cbn [map]. eexists. reflexivity.
  - intros Hfile. unfold mask_data, gpd_read_file. rewrite Hfile. cbn.
    eexists. reflexivity.
Qed.

Lemma clip_cell_twice (geoms1 geoms2 : list polygon) (la lo : option Q) (v : cell) :
  clip_cell contains geoms2 la lo (clip_cell contains geoms1 la lo v)
  = match la, lo with
    | Some a, Some o =>
        if inside contains geoms1 a o && inside contains geoms2 a o then v else nan
    | _, _ => nan
    end.
Proof.
  unfold clip_cell. destruct la as [a|]; [|reflexivity].
  destruct lo as [o|]; [|reflexivity].
  destruct (inside contains geoms1 a o), (inside contains geoms2 a o); reflexivity.
Qed.

Lemma clip_grid_same_twice (geoms : list polygon) (lat lon : list Q) (g : list (list cell)) :
  clip_grid contains geoms lat lon (clip_grid contains geoms lat lon g)
  = clip_grid contains geoms lat lon g.
Proof.
  apply list_eq. intros i. unfold clip_grid at 1. rewrite list_lookup_imap.
  unfold clip_grid. rewrite list_lookup_imap.
  destruct (g !! i) as [row|]; [|reflexivity].
  cbn [fmap option_fmap option_map]. f_equal.
  apply list_eq. intros j. rewrite !list_lookup_imap.
  destruct (row !! j) as [v|]; [|reflexivity].
  cbn [fmap option_fmap option_map]. f_equal.
  rewrite clip_cell_twice. unfold clip_cell.
  destruct (lat !! i) as [a|]; [|reflexivity].
  destruct (lon !! j) as [o|]; [|reflexivity].
  now destruct (inside contains geoms a o).
Qed.

(** X10: masking composes by intersection and is idempotent.  After
    masking with one polygon and then with another, a cell keeps its value
    exactly when its centre lies in both, and is null otherwise; masking a
    second time with the same polygon changes nothing any more. *)
Theorem mask_data_twice w ds (row1 row2 : Feature polygon) :
  latitude ds <> [] -> longitude ds <> [] ->
  exists out1 out2 : Dataset,
    snd (mask_data contains w ds (MaskFrame [row1])) = Ok out1
    /\ snd (mask_data contains w out1 (MaskFrame [row2])) = Ok out2
    /\ (forall (t i j : nat) (la lo : Q) (v : cell),
          latitude ds !! i = Some la -> longitude ds !! j = Some lo ->
          cell_at (prec ds) t i j = Some v ->
          cell_at (prec out2) t i j
          = Some (if contains (geometry row1) la lo && contains (geometry row2) la lo
                  then v else nan))
    /\ (geometry row2 = geometry row1 ->
        mask_data contains w out1 (MaskFrame [row2]) = (out1, Ok out1)).
Proof.
  intros Hlat Hlon.
  set (written := write_crs "epsg:4326" (set_spatial_dims "longitude" "latitude" ds)).
  set (out1 := {| time_name := time_name written; time := time written;
                  latitude := latitude written; longitude := longitude written;
                  prec := map (clip_grid contains [geometry row1] (latitude written)
                                         (longitude written)) (prec written);
                  attrs := attrs written;
                  rio_dims := rio_dims written; spatial_ref := spatial_ref written |}).
  assert (H1 : rio_clip contains [geometry row1] written = Ok out1)
    by (apply (rio_clip_ok contains _ written "epsg:4326"); [reflexivity|discriminate|assumption..]).
  assert (Hfix : write_crs "epsg:4326" (set_spatial_dims "longitude" "latitude" out1) = out1).
  { unfold out1, written, write_crs, set_spatial_dims. cbn. now rewrite filter_twice. }
  assert (H2 : forall geoms, geoms <> [] ->
               rio_clip contains geoms out1
               = Ok {| time_name := time_name out1; time := time out1;
                       latitude := latitude out1; longitude := longitude out1;
                       prec := map (clip_grid contains geoms (latitude out1) (longitude out1))
                                   (prec out1);
                       attrs := attrs out1;
                       rio_dims := rio_dims out1; spatial_ref := spatial_ref out1 |}).
  { intros geoms Hg.
    apply (rio_clip_ok contains geoms out1 "epsg:4326"); [reflexivity|assumption..]. }
  exists out1. eexists.
  split; [rewrite mask_data_frame; exact H1|].
  split; [rewrite mask_data_frame, Hfix; cbn [snd map]; apply H2; discriminate|].
  split.
  - intros t i j la lo v Hla Hlo Hv.
    cbn [prec latitude longitude out1 written write_crs set_spatial_dims].
    rewrite clip_cell_at, clip_cell_at.
    rewrite Hv, Hla, Hlo. cbn [fmap option_fmap option_map].
    rewrite clip_cell_twice. cbn [inside existsb].
    now rewrite !orb_false_r.
  - intros Hgeo. rewrite mask_data_frame, Hfix. cbn [map]. rewrite Hgeo.
    rewrite H2 by discriminate. f_equal. f_equal.
    unfold out1 at 9. f_equal.
    cbn [prec latitude longitude out1].
    rewrite List.map_map. apply map_ext. intros g. apply clip_grid_same_twice.
Qed.

End MaskerMore.

Lemma mask_data_effect_on_argument_witness :
  exists e : exn,
    mask_data box_contains (world_with_boundaries [row_brasilia]) daily_2x2
              (MaskPath "missing.shp")
    = (daily_2x2, Raise e).
Proof.
  refine (proj2 (proj2 (proj2 (mask_data_effect_on_argument box_contains
            (world_with_boundaries [row_brasilia]) daily_2x2 "missing.shp" []))) _).
  vm_compute. reflexivity.
Defined.

Lemma mask_data_twice_witness :
  exists out1 out2 : Dataset,
    snd (mask_data box_contains empty_world daily_2x2 (MaskFrame [row_brasilia])) = Ok out1
    /\ snd (mask_data box_contains empty_world out1 (MaskFrame [row_goiania])) = Ok out2
    /\ cell_at (prec out2) 0 0 0 = Some nan.
Proof.
  destruct (mask_data_twice box_contains empty_world daily_2x2 row_brasilia row_goiania)
    as (out1 & out2 & H1 & H2 & Hcell & _); [discriminate..|].
  exists out1, out2. split; [exact H1|]. split; [exact H2|].
  exact (Hcell 0%nat 0%nat 0%nat (-16)%Q (-48)%Q 1%float eq_refl eq_refl eq_refl).
Defined.

(* ===================================================================== *)
(** ** Further properties: Timeseries Extractor *)
(* ===================================================================== *)

Section ExtractorMore.
Context {polygon : Type} (contains : polygon -> Q -> Q -> bool).
Implicit Types (w : World polygon) (ds : Dataset) (gdf : list (Feature polygon)).

Lemma region_means_same_data (a b : Dataset) gdf (capital : string) :
  same_data a b ->
  region_means contains a gdf capital = region_means contains b gdf capital.
Proof.
  intros (_ & Ht & Hlat & Hlon & Hp). unfold region_means.
  now rewrite Ht, Hlat, Hlon, Hp.
Qed.

Lemma region_means_same_data_frame (a b : Dataset) gdf (capital : string) :
  same_data a b ->
  region_frame contains a gdf capital = region_frame contains b gdf capital.
Proof.
  intros H. unfold region_frame. now rewrite (region_means_same_data a b gdf capital H).
Qed.

Lemma capital_frame_of_clip (geoms : list polygon) ds (out : Dataset) gdf (capital : string) :
  geoms = region_geometries gdf capital ->
  rio_clip contains geoms ds = Ok out ->
  capital_frame capital out = region_frame contains ds gdf capital.
Proof.
  intros -> Hclip. apply rio_clip_result in Hclip. subst out.
  unfold capital_frame, region_frame, region_means. cbn [time prec].
  now rewrite List.map_map.
Qed.

Lemma capitals_loop_frames w gdf (todo : list string) (d ds : Dataset)
    (acc frames : list DataFrame) :
  same_data d ds ->
  snd (capitals_loop contains w gdf todo d acc) = Ok frames ->
  frames = (acc ++ map (region_frame contains ds gdf) todo)%list.
Proof.
  revert d acc. induction todo as [|capital todo IH]; intros d acc Hsame;
    cbn [capitals_loop].
  - cbn [snd map]. intros H. injection H as <-. now rewrite app_nil_r.
  - rewrite mask_data_frame.
    destruct (rio_clip _ _ _) as [ds_capital|e] eqn:Hclip; [|discriminate].
    intros Hloop.
    assert (Hw : same_data (write_crs "epsg:4326"
                              (set_spatial_dims "longitude" "latitude" d)) ds)
      by (eapply same_data_trans; [apply written_same_data|exact Hsame]).
    rewrite (IH _ _ Hw Hloop).
    rewrite (capital_frame_of_clip _ _ _ gdf capital eq_refl Hclip).
    rewrite (region_means_same_data_frame _ _ gdf capital Hw).
    cbn [map]. now rewrite <- app_assoc.
Qed.

Lemma pd_concat_axis1_result (frames : list DataFrame) (df : DataFrame) :
  pd_concat_axis1 frames = Ok df ->
  index df = unique_sorted (concat (map index frames))
  /\ columns df
     = concat (map (fun f => map (reindex (index df) (index f)) (columns f)) frames).
Proof.
  destruct frames as [|f fs]; [discriminate|].
  unfold pd_concat_axis1. intros H. injection H as <-. now split.
Qed.

(** The table, column by column. *)
Lemma extract_table w ds gdf (df : DataFrame) :
  snd (extract_capitals_timeseries contains w ds gdf) = Ok df ->
  index df = unique_sorted (concat (map (fun c => index (region_frame contains ds gdf c))
                                        (map NM_MUN gdf)))
  /\ columns df
     = map (fun c => (c, map (lookup_row (index (region_frame contains ds gdf c))
                                         (map snd (List.filter
                                            (fun r : Z * cell => negb (is_nan (snd r)))
                                            (region_means contains ds gdf c))))
                             (index df)))
           (map NM_MUN gdf).
Proof.
  rewrite extract_snd.
  destruct (snd (capitals_loop _ _ _ _ _ _)) as [frames|e] eqn:Hloop; [|discriminate].
  apply (capitals_loop_frames w gdf _ ds ds [] frames (same_data_refl ds)) in Hloop.
  rewrite app_nil_l in Hloop. subst frames. cbn [bind_result]. intros Hdf.
  apply pd_concat_axis1_result in Hdf. destruct Hdf as [Hidx Hcols].
  rewrite List.map_map in Hidx. split; [exact Hidx|].
  rewrite Hcols. generalize (index df) as idx. intros idx. clear Hidx Hcols.
  induction (map NM_MUN gdf) as [|c names IH]; [reflexivity|].
  cbn [map concat]. rewrite IH. reflexivity.
Qed.

Lemma region_frame_index_In ds gdf (capital : string) (t : Z) :
  In t (index (region_frame contains ds gdf capital))
  <-> exists m, In (t, m) (region_means contains ds gdf capital) /\ is_nan m = false.
Proof.
  unfold region_frame. cbn [index]. rewrite in_map_iff. split.
  - intros [[t' m] [Heq Hin]]. cbn in Heq. subst t'.
    apply filter_In in Hin. destruct Hin as [Hin Hm]. cbn in Hm.
    exists m. split; [exact Hin|]. now apply negb_true_iff in Hm.
  - intros [m [Hin Hm]]. exists (t, m). split; [reflexivity|].
    apply filter_In. split; [exact Hin|]. cbn. now rewrite Hm.
Qed.

(** X11: the table is well formed.  Its index is strictly ascending and
    holds exactly the windows at which some region has a mean that is not
    null (all of them windows of the daily dataset); there is one column
    per row of [gdf_capitals], and every column has one cell per index
    entry. *)
Theorem extracted_table_well_formed w ds gdf (df : DataFrame) :
  snd (extract_capitals_timeseries contains w ds gdf) = Ok df ->
  StronglySorted Z.lt (index df)
  /\ (forall t, In t (index df)
                <-> exists row m, In row gdf
                      /\ In (t, m) (region_means contains ds gdf (NM_MUN row))
                      /\ is_nan m = false)
  /\ (forall t, In t (index df) -> In t (time ds))
  /\ length (columns df) = length gdf
  /\ Forall (fun col : string * list cell => length (snd col) = length (index df))
            (columns df).
Proof.
  intros Hdf. destruct (extract_table w ds gdf df Hdf) as [Hidx Hcols].
  assert (Hin : forall t, In t (index df)
                <-> exists row m, In row gdf
                      /\ In (t, m) (region_means contains ds gdf (NM_MUN row))
                      /\ is_nan m = false).
  { intros t. rewrite Hidx, unique_sorted_In, in_concat. split.
    - intros [l [Hl Ht]]. apply in_map_iff in Hl. destruct Hl as [c [<- Hc]].
      apply in_map_iff in Hc. destruct Hc as [row [<- Hrow]].
      apply region_frame_index_In in Ht. destruct Ht as [m [Hm Hnan]]. eauto.
    - intros (row & m & Hrow & Hm & Hnan).
      exists (index (region_frame contains ds gdf (NM_MUN row))). split.
      + apply in_map_iff. exists (NM_MUN row). split; [reflexivity|]. now apply in_map.
      + apply region_frame_index_In. eauto. }
  split; [rewrite Hidx; apply unique_sorted_sorted|].
  split; [exact Hin|]. split.
  { intros t Ht. apply Hin in Ht. destruct Ht as (row & m & _ & Hm & _).
    unfold region_means in Hm. now apply in_combine_l in Hm. }
  split; [rewrite Hcols; now rewrite !length_map|].
  rewrite Hcols at 1. apply List.Forall_forall. intros col Hcol.
  apply in_map_iff in Hcol. destruct Hcol as [c [<- _]]. cbn [snd].
  apply length_map.
Qed.

Lemma find_in_filtered (t : Z) (l : list (Z * cell)) :
  List.NoDup (map fst l) ->
  match List.find (fun p : Z * cell => fst p =? t)
                  (List.filter (fun r : Z * cell => negb (is_nan (snd r))) l) with
  | Some p => snd p
  | None => nan
  end
  = match List.find (fun p : Z * cell => fst p =? t) l with
    | Some p => if is_nan (snd p) then nan else snd p
    | None => nan
    end.
Proof.
  induction l as [|[t' m] l IH]; intros Hnd; [reflexivity|].
  cbn [map fst] in Hnd. apply List.NoDup_cons_iff in Hnd. destruct Hnd as [Hfresh Hnd].
  cbn [List.filter List.find fst snd].
  destruct (t' =? t) eqn:E.
  - apply Z.eqb_eq in E. subst t'. cbn [fst snd].
    destruct (is_nan m) eqn:Hm; cbn [negb].
    + destruct (List.find _ (List.filter _ l)) as [p|] eqn:Hfind; [|reflexivity].
      exfalso. apply find_some in Hfind. destruct Hfind as [Hin Hkey].
      apply filter_In in Hin. destruct Hin as [Hin _].
      apply Z.eqb_eq in Hkey. apply Hfresh. rewrite <- Hkey. now apply in_map.
    + cbn [List.find fst snd]. now rewrite Z.eqb_refl.
  - cbn [fst snd]. destruct (is_nan m); cbn [negb]; [now apply IH|].
    cbn [List.find fst]. rewrite E. now apply IH.
Qed.

Lemma NoDup_fst_combine {A : Type} (ts : list Z) (xs : list A) :
  List.NoDup ts -> List.NoDup (map fst (combine ts xs)).
Proof.
  intros Hnd. revert xs. induction Hnd as [|t ts Hfresh Hnd IH]; intros xs;
    [constructor|].
  destruct xs as [|x xs]; [constructor|]. cbn [combine map fst].
  constructor; [|apply IH].
  intros Hin. apply Hfresh. apply in_map_iff in Hin.
  destruct Hin as [[t' x'] [<- Hin]]. now apply in_combine_l in Hin.
Qed.

Lemma lookup_region_frame ds gdf (capital : string) (t : Z) :
  List.NoDup (time ds) ->
  lookup_row (index (region_frame contains ds gdf capital))
             (map snd (List.filter (fun r : Z * cell => negb (is_nan (snd r)))
                                   (region_means contains ds gdf capital))) t
  = region_value contains ds gdf capital t.
Proof.
  intros Hnd. unfold lookup_row, region_frame, region_value. cbn [index].
  rewrite combine_fst_snd. apply find_in_filtered.
  unfold region_means. now apply NoDup_fst_combine.
Qed.

(** X12: the value of the table for a region and a window is the mean of
    the daily field over the cells that lie in the polygons of that name
    and are not null; it is null when there is no such cell.  (The windows
    of the daily dataset are distinct, as the aggregator returns them.) *)
Theorem extracted_table_values w ds gdf (df : DataFrame) (i : nat) (row : Feature polygon) :
  snd (extract_capitals_timeseries contains w ds gdf) = Ok df ->
  List.NoDup (time ds) ->
  gdf !! i = Some row ->
  columns df !! i
  = Some (NM_MUN row, map (region_value contains ds gdf (NM_MUN row)) (index df)).
Proof.
  intros Hdf Hnd Hrow. destruct (extract_table w ds gdf df Hdf) as [_ Hcols].
  rewrite Hcols.
  change (map ?f (map NM_MUN gdf)) with (f <$> (NM_MUN <$> gdf)).
  rewrite !list_lookup_fmap, Hrow. cbn [fmap option_fmap option_map]. f_equal. f_equal.
  apply map_ext. intros t. now apply lookup_region_frame.
Qed.

Lemma clip_grid_all_null (geoms : list polygon) (lat lon : list Q) (g : list (list cell)) :
  (forall la lo, In la lat -> In lo lon -> inside contains geoms la lo = false) ->
  forall row v, In row (clip_grid contains geoms lat lon g) -> In v row -> v = nan.
Proof.
  intros Hout row v Hrow Hv.
  apply list_elem_of_In, list_elem_of_lookup in Hrow. destruct Hrow as [i Hi].
  unfold clip_grid in Hi. rewrite list_lookup_imap in Hi.
  destruct (g !! i) as [row0|]; [|discriminate]. cbn in Hi. injection Hi as <-.
  apply list_elem_of_In, list_elem_of_lookup in Hv. destruct Hv as [j Hj].
  rewrite list_lookup_imap in Hj.
  destruct (row0 !! j) as [v0|]; [|discriminate]. cbn in Hj. injection Hj as <-.
  unfold clip_cell.
  destruct (lat !! i) as [la|] eqn:Hla; [|reflexivity].
  destruct (lon !! j) as [lo|] eqn:Hlo; [|reflexivity].
  rewrite Hout; [reflexivity| |].
  - apply list_elem_of_In, list_elem_of_lookup. eauto.
  - apply list_elem_of_In, list_elem_of_lookup. eauto.
Qed.

Lemma nanmean_all_null (g : Grid) :
  (forall row v, In row g -> In v row -> v = nan) -> nanmean g = nan.
Proof.
  intros Hall. unfold nanmean.
  assert (Hvalid : valid_cells g = []).
  { unfold valid_cells.
    assert (Hcells : forall v, In v (concat g) -> v = nan).
    { intros v Hv. apply in_concat in Hv. destruct Hv as [row [Hrow Hv]]. eauto. }
    induction (concat g) as [|v l IH]; [reflexivity|].
    cbn [List.filter]. rewrite (Hcells v) by now left.
    change (negb (is_nan nan)) with false. apply IH.
    intros v' Hv'. apply Hcells. now right. }
  now rewrite Hvalid.
Qed.

(** X13: a region whose polygons hold no cell centre of the grid has a
    column of nulls only: the column is there, with one null per row of
    the table. *)
Theorem region_without_cells_all_null w ds gdf (df : DataFrame) (i : nat)
    (row : Feature polygon) :
  snd (extract_capitals_timeseries contains w ds gdf) = Ok df ->
  gdf !! i = Some row ->
  (forall la lo, In la (latitude ds) -> In lo (longitude ds) ->
     inside contains (region_geometries gdf (NM_MUN row)) la lo = false) ->
  columns df !! i = Some (NM_MUN row, repeat nan (length (index df))).
Proof.
  intros Hdf Hrow Hout. destruct (extract_table w ds gdf df Hdf) as [_ Hcols].
  rewrite Hcols.
  change (map ?f (map NM_MUN gdf)) with (f <$> (NM_MUN <$> gdf)).
  rewrite !list_lookup_fmap, Hrow. cbn [fmap option_fmap option_map]. f_equal. f_equal.
  assert (Hnone : List.filter (fun r : Z * cell => negb (is_nan (snd r)))
                              (region_means contains ds gdf (NM_MUN row)) = []).
  { unfold region_means.
    assert (Hmeans : forall p, In p (combine (time ds)
                       (map (fun g => nanmean (clip_grid contains
                                        (region_geometries gdf (NM_MUN row))
                                        (latitude ds) (longitude ds) g)) (prec ds)))
                     -> snd p = nan).
    { intros [t m] Hp. apply in_combine_r in Hp. apply in_map_iff in Hp.
      destruct Hp as [g [<- _]]. cbn [snd]. apply nanmean_all_null.
      intros r v. now apply clip_grid_all_null. }
    induction (combine _ _) as [|p l IH]; [reflexivity|].
    cbn [List.filter]. rewrite (Hmeans p) by now left.
    change (negb (is_nan nan)) with false. apply IH.
    intros p' Hp'. apply Hmeans. now right. }
  rewrite Hnone. unfold region_frame. rewrite Hnone. cbn [map index].
  clear. induction (index df) as [|t idx IH]; [reflexivity|].
  cbn [map repeat length]. rewrite IH. reflexivity.
Qed.

End ExtractorMore.

Lemma extracted_table_well_formed_witness :
  exists df : DataFrame,
    snd (extract_capitals_timeseries box_contains empty_world daily_2x2
           [row_brasilia; row_manaus_far]) = Ok df
    /\ StronglySorted Z.lt (index df)
    /\ length (columns df) = 2%nat
    /\ Forall (fun col : string * list cell => length (snd col) = length (index df))
              (columns df).
Proof.
  eexists. split; [vm_compute; reflexivity|].
  destruct (extracted_table_well_formed box_contains empty_world daily_2x2
              [row_brasilia; row_manaus_far] _ ltac:(vm_compute; reflexivity))
    as (Hs & _ & _ & Hlen & Hcols).
  split; [exact Hs|]. split; [exact Hlen|exact Hcols].
Defined.

Lemma extracted_table_values_witness :
  exists df : DataFrame,
    snd (extract_capitals_timeseries box_contains empty_world daily_2x2
           [row_brasilia; row_manaus_far]) = Ok df
    /\ columns df !! 0%nat
       = Some ("Brasília",
               map (region_value box_contains daily_2x2 [row_brasilia; row_manaus_far]
                                 "Brasília") (index df))
    /\ region_value box_contains daily_2x2 [row_brasilia; row_manaus_far] "Brasília"
                    (Time.timestamp 2025 1 2 12) = 1%float.
Proof.
  eexists. split; [vm_compute; reflexivity|]. split; [|reflexivity].
  apply (extracted_table_values box_contains empty_world daily_2x2
           [row_brasilia; row_manaus_far] _ 0 row_brasilia).
  - vm_compute. reflexivity.
  - repeat constructor. intros [].
  - reflexivity.
Defined.

Lemma region_without_cells_all_null_witness :
  exists df : DataFrame,
    snd (extract_capitals_timeseries box_contains empty_world daily_2x2
           [row_brasilia; row_manaus_far]) = Ok df
    /\ columns df !! 1%nat = Some ("Manaus", repeat nan (length (index df))).
Proof.
  eexists. split; [vm_compute; reflexivity|].
  apply (region_without_cells_all_null box_contains empty_world daily_2x2
           [row_brasilia; row_manaus_far] _ 1 row_manaus_far).
  - vm_compute. reflexivity.
  - reflexivity.
  - intros la lo [<-|[<-|[]]] [<-|[<-|[]]]; reflexivity.
Defined.

(* ===================================================================== *)
(** ** Further properties: download and the loop over the hours *)
(* ===================================================================== *)

Section ScriptMore.
Context {polygon : Type} (contains : polygon -> Q -> Q -> bool).
Context (requests_get : string -> result Response).
Context (cfgrib_decode : list Byte.byte -> option HourlyDataset).
Implicit Types (w : World polygon) (dt : Z) (datasets : list Dataset).

Lemma download_world_cases dt (dir : string) w :
  snd (download_merge_cptec requests_get dt dir w) = w
  \/ snd (download_merge_cptec requests_get dt dir w) = after_request dt dir w
  \/ exists c, snd (download_merge_cptec requests_get dt dir w)
               = set_files (<[path_join dir (merge_basename dt) := c]> (files w))
                           (after_request dt dir w).
Proof.
  destruct (files w !! dir) as [c|] eqn:Hdir.
  { left. now rewrite (download_makedirs_fails requests_get _ _ _ _ Hdir). }
  destruct (requests_get (merge_url dt)) as [resp|e] eqn:Hget.
  2:{ right. left. now rewrite (download_request_fails requests_get _ _ _ _ Hdir Hget). }
  destruct (Z.eq_dec (status_code resp) 200) as [Hs|Hs].
  - right. right. eexists.
    now rewrite (download_200 requests_get _ _ _ _ Hdir Hget Hs).
  - right. left. now rewrite (download_not_200 requests_get _ _ _ _ Hdir Hget Hs).
Qed.

Lemma download_keeps_files dt (dir : string) w (path : string) :
  is_Some (files w !! path) ->
  is_Some (files (snd (download_merge_cptec requests_get dt dir w)) !! path).
Proof.
  intros Hsome.
  destruct (download_world_cases dt dir w) as [->|[->|[c ->]]];
    cbn [files after_request set_files]; auto.
  destruct (decide (path_join dir (merge_basename dt) = path)) as [<-|Hne].
  - rewrite lookup_insert_eq. eauto.
  - now rewrite lookup_insert_ne.
Qed.

(** X14: [download_merge_cptec] touches the file of its hour and no other:
    whatever the server answers and whether or not the call raises, every
    other path holds afterwards what it held before, and no file that was
    there is gone. *)
Theorem download_touches_only_its_file dt (dir : string) w :
  let w' := snd (download_merge_cptec requests_get dt dir w) in
  (forall path, path <> path_join dir (merge_basename dt) ->
     files w' !! path = files w !! path)
  /\ (forall path, is_Some (files w !! path) -> is_Some (files w' !! path)).
Proof.
  intros w'. subst w'. split; [|intros path; apply download_keeps_files].
  destruct (download_world_cases dt dir w) as [->|[->|[c ->]]];
    cbn [files after_request set_files]; auto.
  intros path Hpath. now apply lookup_insert_ne.
Qed.

Lemma hourly_entry_record (h : HourlyDataset) (ds : Dataset) :
  hourly_entry h = Ok ds ->
  hourly_record ds /\ time ds = [h_valid_time h].
Proof.
  unfold hourly_entry. destruct (select_prec h) as [h'|e] eqn:Hsel; [|discriminate].
  cbn [bind_result]. unfold expand_dims_valid_time.
  assert (Ht : h_valid_time (fix_coordinates h') = h_valid_time h).
  { unfold select_prec in Hsel. destruct (List.find is_prec (h_data_vars h)); [|discriminate].
    injection Hsel as <-. unfold fix_coordinates. cbn [h_longitude].
    destruct (any_above_180 (h_longitude h)); reflexivity. }
  pose proof (fix_coordinates_latitude h') as Hlat.
  pose proof (fix_coordinates_longitude h') as Hlon.
  remember (fix_coordinates h') as F eqn:HF.
  destruct (List.find is_prec (h_data_vars F)) as [v|]; [|discriminate].
  intros H. injection H as <-. unfold hourly_record.
  cbn [time_name time prec latitude longitude length].
  rewrite Ht, Hlat, Hlon. repeat split; apply reorder_self_ascending.
Qed.

Lemma process_hour_cases dt datasets w :
  fst (process_hour requests_get cfgrib_decode dt datasets w) = Ok datasets
  \/ exists (bytes : list Byte.byte) (h : HourlyDataset) (ds : Dataset),
       files (snd (download_merge_cptec requests_get dt merge_data_dir w))
         !! path_join merge_data_dir (merge_basename dt) = Some (RawBytes bytes)
       /\ cfgrib_decode bytes = Some h
       /\ hourly_entry h = Ok ds
       /\ fst (process_hour requests_get cfgrib_decode dt datasets w)
          = Ok (datasets ++ [ds])%list.
Proof.
  destruct (download_merge_cptec requests_get dt merge_data_dir w) as [[name|e] w1] eqn:Hdown.
  2:{ left. unfold process_hour, try_except, bind. now rewrite Hdown. }
  cbn [snd].
  destruct (files w1 !! path_join merge_data_dir (merge_basename dt))
    as [[bytes|gdf|df]|] eqn:Hfile;
    try (left; unfold process_hour, try_except, bind; rewrite Hdown;
         unfold xr_open_dataset; now rewrite script_path_is_download_path, Hfile).
  destruct (cfgrib_decode bytes) as [h|] eqn:Hdec.
  2:{ left. unfold process_hour, try_except, bind. rewrite Hdown.
      unfold xr_open_dataset. now rewrite script_path_is_download_path, Hfile, Hdec. }
  destruct (hourly_entry h) as [ds|e] eqn:Hentry.
  - right. exists bytes, h, ds. repeat split; try assumption.
    now rewrite (process_hour_opened requests_get cfgrib_decode dt datasets w _ _
                   bytes h ds Hdown Hfile Hdec Hentry).
  - left. unfold process_hour, try_except, bind. rewrite Hdown.
    unfold xr_open_dataset. rewrite script_path_is_download_path, Hfile, Hdec.
    unfold hourly_entry in Hentry. unfold lift, ret.
    destruct (select_prec h) as [h'|e']; [|reflexivity].
    cbn [bind_result] in Hentry. now rewrite Hentry.
Qed.

(** X15: an hour of the loop never raises and never loses what has been
    accumulated: it leaves [datasets] as it is or appends one dataset to
    its end, and what it appends is a single record over [valid_time] on
    ascending axes, read from the file that stands at the path of the hour
    after the download. *)
Theorem process_hour_appends_at_most_one dt datasets w :
  fst (process_hour requests_get cfgrib_decode dt datasets w) = Ok datasets
  \/ exists (bytes : list Byte.byte) (h : HourlyDataset) (ds : Dataset),
       files (snd (process_hour requests_get cfgrib_decode dt datasets w))
         !! path_join merge_data_dir (merge_basename dt) = Some (RawBytes bytes)
       /\ cfgrib_decode bytes = Some h
       /\ hourly_record ds
       /\ time ds = [h_valid_time h]
       /\ fst (process_hour requests_get cfgrib_decode dt datasets w)
          = Ok (datasets ++ [ds])%list.
Proof.
  destruct (process_hour_cases dt datasets w)
    as [H|(bytes & h & ds & Hfile & Hdec & Hentry & Hres)]; [now left|].
  right. exists bytes, h, ds. rewrite process_hour_world.
  destruct (hourly_entry_record h ds Hentry) as [Hrec Htime].
  split; [exact Hfile|]. split; [exact Hdec|]. split; [exact Hrec|].
  split; assumption.
Qed.

(** X16: when the server answers 200, whatever stood at the path of the
    hour is replaced by what arrives of the body.  When the body arrives
    whole, the hour uses it: if it decodes, its grid is what is appended;
    if it does not, the hour is skipped and the file that does not decode
    stays in the directory.  When the transfer breaks off, the hour is
    skipped, and the file holds the part that has arrived: a file left
    there by an earlier run is lost. *)
Theorem fresh_download_is_used dt datasets w (resp : Response) :
  files w !! merge_data_dir = None ->
  requests_get (merge_url dt) = Ok resp ->
  status_code resp = 200 ->
  let received := concat (iter_content resp) in
  let run := process_hour requests_get cfgrib_decode dt datasets w in
  files (snd run) !! path_join merge_data_dir (merge_basename dt)
  = Some (RawBytes received)
  /\ (stream_error resp = None ->
      (forall h ds, cfgrib_decode received = Some h -> hourly_entry h = Ok ds ->
         fst run = Ok (datasets ++ [ds])%list)
      /\ (cfgrib_decode received = None -> fst run = Ok datasets))
  /\ (forall e, stream_error resp = Some e -> fst run = Ok datasets).
Proof.
  intros Hdir Hget Hs received run. subst run.
  pose proof (download_200 requests_get dt merge_data_dir w resp Hdir Hget Hs) as Hdown.
  fold received in Hdown.
  assert (Hfile : files (set_files (<[path_join merge_data_dir (merge_basename dt)
                                      := RawBytes received]> (files w))
                                   (after_request dt merge_data_dir w))
                    !! path_join merge_data_dir (merge_basename dt)
                  = Some (RawBytes received))
    by (cbn [files set_files]; apply lookup_insert_eq).
  split; [|split].
  - rewrite process_hour_world, Hdown. exact Hfile.
  - intros Hwhole. rewrite Hwhole in Hdown. split.
    + intros h ds Hdec Hentry.
      now rewrite (process_hour_opened requests_get cfgrib_decode dt datasets w _ _
                     received h ds Hdown Hfile Hdec Hentry).
    + intros Hdec. unfold process_hour, try_except, bind. rewrite Hdown.
      unfold xr_open_dataset. rewrite script_path_is_download_path, Hfile, Hdec.
      reflexivity.
  - intros e Hbroken. rewrite Hbroken in Hdown.
    unfold process_hour, try_except, bind. now rewrite Hdown.
Qed.

Lemma merge_data_dir_not_a_download (name : string) :
  path_join merge_data_dir name <> merge_data_dir.
Proof. unfold path_join, merge_data_dir. cbn. discriminate. Qed.

Lemma download_requests_once dt w :
  files w !! merge_data_dir = None ->
  trace (snd (download_merge_cptec requests_get dt merge_data_dir w))
  = (trace w ++ [HttpGet (merge_url dt)])%list
  /\ files (snd (download_merge_cptec requests_get dt merge_data_dir w)) !! merge_data_dir
     = None.
Proof.
  intros Hdir.
  destruct (requests_get (merge_url dt)) as [resp|e] eqn:Hget.
  2:{ rewrite (download_request_fails requests_get _ _ _ _ Hdir Hget).
      cbn [snd after_request trace files]. auto. }
  destruct (Z.eq_dec (status_code resp) 200) as [Hs|Hs].
  - rewrite (download_200 requests_get _ _ _ _ Hdir Hget Hs).
    cbn [snd after_request set_files trace files]. split; [reflexivity|].
    rewrite lookup_insert_ne; [exact Hdir|apply merge_data_dir_not_a_download].
  - rewrite (download_not_200 requests_get _ _ _ _ Hdir Hget Hs).
    cbn [snd after_request trace files]. auto.
Qed.

Lemma hours_loop_requests (hours : list Z) datasets w :
  files w !! merge_data_dir = None ->
  exists added : list Dataset,
    fst (hours_loop requests_get cfgrib_decode hours datasets w)
    = Ok (datasets ++ added)%list
    /\ (length added <= length hours)%nat
    /\ Forall hourly_record added
    /\ trace (snd (hours_loop requests_get cfgrib_decode hours datasets w))
       = (trace w ++ map (fun dt => HttpGet (merge_url dt)) hours)%list
    /\ files (snd (hours_loop requests_get cfgrib_decode hours datasets w))
         !! merge_data_dir = None.
Proof.
  revert datasets w. induction hours as [|dt hours IH]; intros datasets w Hdir;
    cbn [hours_loop].
  - exists []. cbn. rewrite !app_nil_r. repeat split; auto.
  - unfold bind.
    pose proof (process_hour_world requests_get cfgrib_decode dt datasets w) as Hworld.
    destruct (download_requests_once dt w Hdir) as [Htrace Hdir1].
    rewrite <- Hworld in Htrace, Hdir1.
    pose proof (process_hour_cases dt datasets w) as Hcases.
    destruct (process_hour requests_get cfgrib_decode dt datasets w) as [r w1].
    cbn [fst snd] in *.
    destruct Hcases as [->|(bytes & h & ds & _ & _ & Hentry & ->)].
    + destruct (IH datasets w1 Hdir1) as (added & Hres & Hlen & Hall & Htr & Hd).
      exists added. rewrite Hres, Htr, Htrace, <- app_assoc. cbn [length map app].
      repeat split; auto.
    + destruct (IH (datasets ++ [ds])%list w1 Hdir1)
        as (added & Hres & Hlen & Hall & Htr & Hd).
      exists (ds :: added). rewrite Hres, Htr, Htrace, <- !app_assoc.
      cbn [length map app]. repeat split; auto.
      * lia.
      * constructor; [exact (proj1 (hourly_entry_record h ds Hentry))|exact Hall].
Qed.

(** X17: with a download directory that can be made, the loop sends one
    request for each hour from [start] to [end], in ascending order of the
    hours and none twice, whatever the answers are; it never raises, and
    it accumulates at most one dataset per hour, each a single record over
    [valid_time] on ascending axes. *)
Theorem collect_hours_requests_and_grids (start end_ : Z) w :
  files w !! merge_data_dir = None ->
  let run := collect_hours requests_get cfgrib_decode start end_ w in
  trace (snd run)
  = (trace w ++ map (fun dt => HttpGet (merge_url dt)) (hours_in_range start end_))%list
  /\ exists datasets : list Dataset,
       fst run = Ok datasets
       /\ (length datasets <= Z.to_nat (end_ - start + 1))%nat
       /\ Forall hourly_record datasets.
Proof.
  intros Hdir run. subst run. unfold collect_hours.
  destruct (end_ <? start) eqn:Hlt.
  - apply Z.ltb_lt in Hlt. unfold hours_in_range.
    replace (Z.to_nat (end_ - start + 1)) with 0%nat by lia.
    cbn. rewrite app_nil_r. split; [reflexivity|].
    exists []. repeat split; auto.
  - destruct (hours_loop_requests (hours_in_range start end_) [] w Hdir)
      as (added & Hres & Hlen & Hall & Htr & _).
    split; [exact Htr|]. exists added. cbn [app] in Hres.
    split; [exact Hres|]. split; [|exact Hall].
    unfold hours_in_range in Hlen. now rewrite length_map, length_seq in Hlen.
Qed.

Lemma hours_loop_blocked (hours : list Z) datasets w (c : file_content polygon) :
  files w !! merge_data_dir = Some c ->
  hours_loop requests_get cfgrib_decode hours datasets w = (Ok datasets, w).
Proof.
  intros Hdir. induction hours as [|dt hours IH]; cbn [hours_loop]; [reflexivity|].
  unfold bind.
  assert (Hp : process_hour requests_get cfgrib_decode dt datasets w = (Ok datasets, w)).
  { unfold process_hour, try_except, bind.
    now rewrite (download_makedirs_fails requests_get _ _ _ _ Hdir). }
  now rewrite Hp.
Qed.

Lemma hours_loop_keeps_files (hours : list Z) datasets w (path : string) :
  is_Some (files w !! path) ->
  is_Some (files (snd (hours_loop requests_get cfgrib_decode hours datasets w)) !! path).
Proof.
  revert datasets w. induction hours as [|dt hours IH]; intros datasets w Hsome;
    cbn [hours_loop]; [exact Hsome|].
  unfold bind.
  pose proof (process_hour_world requests_get cfgrib_decode dt datasets w) as Hworld.
  destruct (process_hour_returns requests_get cfgrib_decode dt datasets w) as [r Hr].
  destruct (process_hour requests_get cfgrib_decode dt datasets w) as [r' w1].
  cbn [fst snd] in *. subst r'. apply IH. rewrite Hworld.
  now apply download_keeps_files.
Qed.

(** The worlds in which the part of the script after the loop can end:
    nothing done, [diary_prec_12z] entered, the table written, the table
    written and inserted. *)
Lemma after_loop_cases datasets w :
  let entered := {| files := files w; dirs := dirs w;
                    trace := trace w ++ [Invoked "diary_prec_12z"] |} in
  let written (df : DataFrame) :=
    {| files := <[parquet_path := ParquetData df]> (files w);
       dirs := {[output_dir]} ∪ dirs w;
       trace := trace w ++ [Invoked "diary_prec_12z"] |} in
  let inserted (df : DataFrame) :=
    {| files := <[parquet_path := ParquetData df]> (files w);
       dirs := {[output_dir]} ∪ dirs w;
       trace := (trace w ++ [Invoked "diary_prec_12z"])
                ++ [InsertMany {| mi_db := "capitals";
                                  mi_collection := "precipitacao_diaria";
                                  mi_documents := to_records df |}] |} in
  (exists e, after_loop contains datasets w = (Raise e, w))
  \/ (exists e, after_loop contains datasets w = (Raise e, entered))
  \/ (exists e df, after_loop contains datasets w = (Raise e, written df))
  \/ (exists (ds_all ds_daily : Dataset) (gdf : GeoDataFrame polygon) (df : DataFrame),
        xr_concat datasets = Ok ds_all
        /\ diary_prec_12z ds_all = Ok ds_daily
        /\ files w !! shapefile_path = Some (ShapefileData gdf)
        /\ snd (extract_capitals_timeseries contains entered ds_daily
                  (List.filter (is_capital uf_br) gdf)) = Ok df
        /\ to_records df <> []
        /\ after_loop contains datasets w = (Ok tt, inserted df)).
Proof.
  intros entered written inserted.
  unfold after_loop, bind, lift, ret, raise, log.
  destruct datasets as [|d l]; [left; eexists; reflexivity|].
  destruct (xr_concat (d :: l)) as [ds_all|e] eqn:Hcat; [|left; eexists; reflexivity].
  cbv beta iota. fold entered.
  destruct (diary_prec_12z ds_all) as [ds_daily|e] eqn:Hday;
    [|right; left; eexists; reflexivity].
  unfold extract_capitals_from_shapefile, gpd_read_file, bind, ret.
  change (files entered) with (files w).
  destruct (files w !! shapefile_path) as [[bytes|gdf|df0]|] eqn:Hshp;
    try (right; left; eexists; reflexivity).
  destruct (snd (extract_capitals_timeseries contains entered ds_daily
                   (List.filter (is_capital uf_br) gdf))) as [df|e] eqn:Hdf;
    [|right; left; eexists; reflexivity].
  unfold makedirs. change (files entered) with (files w).
  destruct (files w !! output_dir) as [c|] eqn:Hout;
    [right; left; eexists; reflexivity|].
  unfold write_file, save_parquet_to_mongodb.
  change (path_join output_dir "capitals_br_daily_prec.parquet") with parquet_path.
  cbn [files set_files set_dirs dirs trace].
  rewrite lookup_insert_eq.
  destruct (to_records df) as [|doc docs] eqn:Hrec.
  - right. right. left. eexists. exists df. reflexivity.
  - right. right. right. exists ds_all, ds_daily, gdf, df.
    split; [reflexivity|]. split; [exact Hday|]. split; [reflexivity|].
    split; [exact Hdf|]. split; [rewrite Hrec; discriminate|].
    subst inserted. cbv beta. rewrite Hrec. reflexivity.
Qed.

(** What the part of the script after the loop can change. *)
Lemma after_loop_world datasets w :
  let w' := snd (after_loop contains datasets w) in
  (forall path, path <> parquet_path -> files w' !! path = files w !! path)
  /\ (forall path, is_Some (files w !! path) -> is_Some (files w' !! path))
  /\ (forall dir, dir ∈ dirs w' -> dir ∈ dirs w \/ dir = output_dir)
  /\ (forall e, In e (trace w') ->
        In e (trace w) \/ e = Invoked "diary_prec_12z"
        \/ exists docs, e = InsertMany {| mi_db := "capitals";
                                          mi_collection := "precipitacao_diaria";
                                          mi_documents := docs |}).
Proof.
  intros w'. subst w'.
  assert (Hin : forall (e x : event) (l : list event),
            In e (l ++ [x]) -> In e l \/ e = x).
  { intros e x l H. apply in_app_or in H. destruct H as [H|[H|[]]]; auto. }
  assert (Hkeep : forall path : string, forall c : file_content polygon,
            is_Some (files w !! path) ->
            is_Some (<[parquet_path := c]> (files w) !! path)).
  { intros path c Hsome. destruct (decide (parquet_path = path)) as [<-|Hne].
    - rewrite lookup_insert_eq. eauto.
    - now rewrite lookup_insert_ne. }
  destruct (after_loop_cases datasets w)
    as [[e ->]|[[e ->]|[(e & df & ->)|(a & b & g & df & _ & _ & _ & _ & _ & ->)]]];
    cbn [snd files dirs trace];
    (split; [|split; [|split]]);
    auto;
    try (intros path Hpath; now rewrite lookup_insert_ne);
    try (intros dir Hd; apply elem_of_union in Hd as [Hd%elem_of_singleton|Hd]; auto);
    try (intros ev He; apply Hin in He as [He|He]; eauto;
         apply Hin in He as [He|He]; eauto).
Qed.

(** X18: whatever a run of the script does and however it ends, it writes
    no file outside the download directory but the table, removes no file,
    makes no directory but the two of the script, and leaves no event but
    requests, the entry into [diary_prec_12z] and insertions into the
    collection "precipitacao_diaria" of the database "capitals". *)
Theorem main_writes_only_cache_and_table (start end_ : Z) w :
  let w' := snd (main contains requests_get cfgrib_decode start end_ w) in
  (forall path, in_merge_data path = false -> path <> parquet_path ->
     files w' !! path = files w !! path)
  /\ (forall path, is_Some (files w !! path) -> is_Some (files w' !! path))
  /\ (forall dir, dir ∈ dirs w' ->
        dir ∈ dirs w \/ dir = merge_data_dir \/ dir = output_dir)
  /\ (forall e, In e (trace w') ->
        In e (trace w) \/ (exists url, e = HttpGet url)
        \/ e = Invoked "diary_prec_12z"
        \/ exists docs, e = InsertMany {| mi_db := "capitals";
                                          mi_collection := "precipitacao_diaria";
                                          mi_documents := docs |}).
Proof.
  intros w'. subst w'. unfold main, bind.
  pose proof (collect_hours_only_downloads requests_get cfgrib_decode start end_ w)
    as (Hfiles & Hdirs & Htrace).
  assert (Hkeep : forall path, is_Some (files w !! path) ->
            is_Some (files (snd (collect_hours requests_get cfgrib_decode start end_ w))
                       !! path)).
  { intros path Hsome. unfold collect_hours. destruct (end_ <? start); [exact Hsome|].
    now apply hours_loop_keeps_files. }
  assert (Hret : exists r, fst (collect_hours requests_get cfgrib_decode start end_ w) = Ok r).
  { unfold collect_hours. destruct (end_ <? start); [eexists; reflexivity|].
    apply (hours_loop_only_downloads requests_get cfgrib_decode). }
  destruct Hret as [r Hr].
  destruct (collect_hours requests_get cfgrib_decode start end_ w) as [r' w1].
  cbn [fst snd] in *. subst r'.
  destruct (after_loop_world r w1) as (Hf & Hk & Hd & He).
  split; [|split; [|split]].
  - intros path Hpath Hne. now rewrite Hf, Hfiles.
  - intros path Hsome. auto.
  - intros dir Hdir. destruct (Hd dir Hdir) as [H|H]; auto.
    destruct (Hdirs dir H); auto.
  - intros e Hin. destruct (He e Hin) as [H|[H|H]]; auto.
    destruct (Htrace e H); auto.
Qed.

Lemma to_records_length (df : DataFrame) :
  length (to_records df) = length (index df).
Proof. unfold to_records. apply length_imap. Qed.

Lemma in_merge_data_shapefile_path : in_merge_data shapefile_path = false.
Proof. reflexivity. Qed.

(** X19: a run of the script that ends without an exception has had a
    download directory to write into, an interval with [start <= end] and
    a boundary file; it has sent one request per hour, entered
    [diary_prec_12z] once and inserted once; the table it leaves in the
    file has at least one row and one column per resolved capital, and its
    rows are the documents of the one insertion. *)
Theorem main_success_outputs (start end_ : Z) w w' :
  main contains requests_get cfgrib_decode start end_ w = (Ok tt, w') ->
  start <= end_
  /\ files w !! merge_data_dir = None
  /\ exists (gdf : GeoDataFrame polygon) (df : DataFrame),
       files w !! shapefile_path = Some (ShapefileData gdf)
       /\ column_names df = map NM_MUN (List.filter (is_capital uf_br) gdf)
       /\ index df <> []
       /\ files w' !! parquet_path = Some (ParquetData df)
       /\ output_dir ∈ dirs w'
       /\ trace w'
          = (trace w
             ++ map (fun dt => HttpGet (merge_url dt)) (hours_in_range start end_)
             ++ [Invoked "diary_prec_12z";
                 InsertMany {| mi_db := "capitals";
                               mi_collection := "precipitacao_diaria";
                               mi_documents := to_records df |}])%list.
Proof.
  intros Hmain. unfold main, bind, collect_hours in Hmain.
  destruct (end_ <? start) eqn:Hlt; [discriminate Hmain|].
  apply Z.ltb_ge in Hlt. split; [exact Hlt|].
  destruct (files w !! merge_data_dir) as [c|] eqn:Hdir.
  { rewrite (hours_loop_blocked _ _ _ c Hdir) in Hmain. discriminate Hmain. }
  split; [reflexivity|].
  destruct (hours_loop_requests (hours_in_range start end_) [] w Hdir)
    as (added & Hres & _ & _ & Htr & _).
  pose proof (hours_loop_only_downloads requests_get cfgrib_decode
                (hours_in_range start end_) [] w) as (_ & Hfiles & _ & _).
  destruct (hours_loop requests_get cfgrib_decode (hours_in_range start end_) [] w)
    as [r w1].
  cbn [fst snd] in *. subst r. rewrite app_nil_l in Hmain.
  destruct (after_loop_cases added w1)
    as [[e He]|[[e He]|[(e & df & He)
        |(ds_all & ds_daily & gdf & df & _ & _ & Hshp & Hdf & Hrec & He)]]];
    rewrite He in Hmain; try discriminate Hmain.
  injection Hmain as <-. exists gdf, df.
  cbn [files dirs trace].
  split; [now rewrite <- (Hfiles _ in_merge_data_shapefile_path)|].
  split; [exact (extract_column_names contains _ _ _ _ Hdf)|].
  split.
  { intros Hidx. apply Hrec. unfold to_records. now rewrite Hidx. }
  split; [apply lookup_insert_eq|].
  split; [apply elem_of_union_l, elem_of_singleton; reflexivity|].
  rewrite Htr, <- !app_assoc. reflexivity.
Qed.

(** X20: [save_parquet_to_mongodb] on a file that holds a table inserts,
    in one call of [insert_many], one document per row of the table: the
    document of a row carries the time of the row and, for every column,
    the value of the column in that row under the name of the column.  The
    file is left as it is; a second call inserts the same documents again;
    a table without rows is refused by [insert_many] and nothing is
    inserted. *)
Theorem save_parquet_documents (path db coll : string) (df : DataFrame) w :
  files w !! path = Some (ParquetData df) ->
  (index df = [] -> exists e, save_parquet_to_mongodb path db coll w = (Raise e, w))
  /\ (index df <> [] ->
      exists (docs : list (Z * list (string * cell))) (w1 w2 : World polygon),
        let ins := InsertMany {| mi_db := db; mi_collection := coll;
                                 mi_documents := docs |} in
        save_parquet_to_mongodb path db coll w = (Ok tt, w1)
        /\ files w1 = files w /\ dirs w1 = dirs w
        /\ trace w1 = (trace w ++ [ins])%list
        /\ length docs = length (index df)
        /\ (forall (k i : nat) (t : Z) (name : string) (vals : list cell) (v : cell),
              index df !! k = Some t ->
              columns df !! i = Some (name, vals) ->
              vals !! k = Some v ->
              exists fields : list (string * cell),
                docs !! k = Some (t, fields)
                /\ length fields = length (columns df)
                /\ fields !! i = Some (name, v))
        /\ save_parquet_to_mongodb path db coll w1 = (Ok tt, w2)
        /\ trace w2 = (trace w ++ [ins; ins])%list).
Proof.
  intros Hfile. split.
  - intros Hidx. unfold save_parquet_to_mongodb. rewrite Hfile.
    unfold to_records. rewrite Hidx. cbn. eexists. reflexivity.
  - intros Hidx.
    assert (Hrun : forall w0 : World polygon,
              files w0 !! path = Some (ParquetData df) ->
              save_parquet_to_mongodb path db coll w0
              = (Ok tt, {| files := files w0; dirs := dirs w0;
                           trace := trace w0
                                    ++ [InsertMany {| mi_db := db; mi_collection := coll;
                                                      mi_documents := to_records df |}] |})).
    { intros w0 H0. unfold save_parquet_to_mongodb. rewrite H0.
      pose proof (to_records_length df) as Hlen.
      destruct (to_records df) as [|doc docs] eqn:Hrec; [|reflexivity].
      destruct (index df); [congruence|discriminate Hlen]. }
    exists (to_records df). eexists. eexists. cbv zeta.
    split; [exact (Hrun w Hfile)|].
    cbn [files dirs trace].
    split; [reflexivity|]. split; [reflexivity|]. split; [reflexivity|].
    split; [apply to_records_length|].
    split.
    + intros k i t name vals v Ht Hcol Hv.
      eexists. split; [|split].
      * unfold to_records. rewrite list_lookup_imap, Ht. reflexivity.
      * apply length_map.
      * change (map ?f ?l) with (f <$> l). rewrite list_lookup_fmap, Hcol.
        cbn [fmap option_fmap option_map fst snd].
        rewrite nth_lookup, Hv. reflexivity.
    + split; [apply Hrun; exact Hfile|].
      cbn [trace]. now rewrite <- app_assoc.
Qed.

Lemma keys_bounded_by_size (dict : gmap string string) (l : list string) :
  List.NoDup l -> (forall x, In x l -> is_Some (dict !! x)) ->
  (length l <= size dict)%nat.
Proof.
  intros Hnd Hin.
  rewrite <- (length_map_to_list dict), <- (length_fmap fst).
  apply submseteq_length, NoDup_submseteq.
  - now apply NoDup_ListNoDup.
  - intros x Hx. apply list_elem_of_In in Hx. destruct (Hin x Hx) as [v Hv].
    apply list_elem_of_fmap. exists (x, v). split; [reflexivity|].
    now apply elem_of_map_to_list.
Qed.

Lemma filter_sublist {A : Type} (f : A -> bool) (l : list A) :
  sublist (List.filter f l) l.
Proof.
  induction l as [|a l IH]; cbn [List.filter]; [constructor|].
  destruct (f a); now constructor.
Qed.

Lemma capitals_distinct_codes (dict : gmap string string) (gdf : GeoDataFrame polygon) :
  List.NoDup (map (fun row => (SIGLA_UF row, NM_MUN row)) gdf) ->
  List.NoDup (map SIGLA_UF (List.filter (is_capital dict) gdf)).
Proof.
  induction gdf as [|r gdf IH]; cbn [map List.filter]; intros Hnd; [constructor|].
  apply List.NoDup_cons_iff in Hnd as [Hnot Hnd].
  destruct (is_capital dict r) eqn:Hr; [|auto].
  cbn [map]. constructor; [|auto].
  intros Hin. apply in_map_iff in Hin as (r' & Huf & Hin').
  apply filter_In in Hin' as [Hin' Hr'].
  apply Hnot. apply in_map_iff. exists r'. split; [|exact Hin'].
  apply is_capital_spec in Hr, Hr'. rewrite Huf in Hr'.
  f_equal; congruence.
Qed.

(** X21: on a boundary dataset in which no two rows share both the code of
    the region and the name, the resolver returns at most one row per
    region: the codes of the rows returned are pairwise distinct, so there
    are no more rows than the mapping has regions.  The rows come in the
    order of the boundary dataset, and resolving the result again returns
    it unchanged. *)
Theorem resolver_one_row_per_region (w : World polygon) (path : string)
    (capitals_dict : gmap string string) (gdf : GeoDataFrame polygon) :
  files w !! path = Some (ShapefileData gdf) ->
  List.NoDup (map (fun row => (SIGLA_UF row, NM_MUN row)) gdf) ->
  exists capitals : GeoDataFrame polygon,
    extract_capitals_from_shapefile path capitals_dict w = (Ok capitals, w)
    /\ sublist capitals gdf
    /\ List.NoDup (map SIGLA_UF capitals)
    /\ (length capitals <= size capitals_dict)%nat
    /\ List.filter (is_capital capitals_dict) capitals = capitals.
Proof.
  intros Hfile Hnd. exists (List.filter (is_capital capitals_dict) gdf).
  split; [exact (resolver_result w path capitals_dict gdf Hfile)|].
  split; [apply filter_sublist|].
  pose proof (capitals_distinct_codes capitals_dict gdf Hnd) as Hcodes.
  split; [exact Hcodes|]. split; [|apply filter_twice].
  rewrite <- (length_map SIGLA_UF).
  apply keys_bounded_by_size; [exact Hcodes|].
  intros uf Hin. apply in_map_iff in Hin as (r & <- & Hin).
  apply filter_In in Hin as [_ Hr]. apply is_capital_spec in Hr. eauto.
Qed.

End ScriptMore.

Lemma fresh_download_is_used_witness :
  files world_with_stale_file !! merge_data_dir = None
  /\ server_200 (merge_url (Time.datetime 2025 1 2 23))
     = Ok {| status_code := 200;
             iter_content := [[Byte.x47; Byte.x52]; [Byte.x49; Byte.x42]];
             stream_error := None |}
  /\ 200 = 200
  /\ files (snd (process_hour server_200 decode_as_merge_like
                   (Time.datetime 2025 1 2 23) [] world_with_stale_file))
       !! path_join merge_data_dir (merge_basename (Time.datetime 2025 1 2 23))
     = Some (RawBytes [Byte.x47; Byte.x52; Byte.x49; Byte.x42]).
Proof.
  assert (Hdir : files world_with_stale_file !! merge_data_dir = None)
    by (vm_compute; reflexivity).
  split; [exact Hdir|]. split; [reflexivity|]. split; [reflexivity|].
  exact (proj1 (fresh_download_is_used server_200 decode_as_merge_like
                  (Time.datetime 2025 1 2 23) [] world_with_stale_file
                  {| status_code := 200;
                     iter_content := [[Byte.x47; Byte.x52]; [Byte.x49; Byte.x42]];
                     stream_error := None |}
                  Hdir eq_refl eq_refl)).
Defined.

(** A transfer that breaks off after the first chunk: the file left by an
    earlier run is overwritten by that chunk, and the hour contributes
    nothing, although the decoder would have read the old file. *)
Example broken_transfer_loses_stale_file :
  let hour := Time.datetime 2025 1 2 23 in
  let path := path_join merge_data_dir (merge_basename hour) in
  let run := process_hour server_200_broken decode_as_merge_like hour []
               world_with_stale_file in
  files world_with_stale_file !! path = Some (RawBytes [Byte.x47])
  /\ files (snd run) !! path = Some (RawBytes [Byte.x47; Byte.x52])
  /\ fst run = Ok [].
Proof. repeat split; vm_compute; reflexivity. Qed.

Lemma collect_hours_requests_and_grids_witness :
  files empty_world !! merge_data_dir = None
  /\ trace (snd (collect_hours server_404 decode_as_merge_like
                   (Time.datetime 2025 1 2 23) (Time.datetime 2025 1 3 1) empty_world))
     = ([] ++ map (fun dt => HttpGet (merge_url dt))
                  (hours_in_range (Time.datetime 2025 1 2 23)
                                  (Time.datetime 2025 1 3 1)))%list.
Proof.
  assert (Hdir : files empty_world !! merge_data_dir = None)
    by (vm_compute; reflexivity).
  split; [exact Hdir|].
  exact (proj1 (collect_hours_requests_and_grids server_404 decode_as_merge_like
                  (Time.datetime 2025 1 2 23) (Time.datetime 2025 1 3 1)
                  empty_world Hdir)).
Defined.

Lemma main_success_outputs_witness :
  let w := world_with_boundaries [row_brasilia; row_goiania_misspelt] in
  let run := main box_contains server_200 decode_as_merge_like
               (Time.datetime 2025 1 2 23) (Time.datetime 2025 1 3 1) w in
  run = (Ok tt, snd run)
  /\ Time.datetime 2025 1 2 23 <= Time.datetime 2025 1 3 1
  /\ files w !! merge_data_dir = None.
Proof.
  intros w run.
  assert (Hrun : run = (Ok tt, snd run)) by (vm_compute; reflexivity).
  split; [exact Hrun|].
  destruct (main_success_outputs box_contains server_200 decode_as_merge_like
              _ _ w (snd run) Hrun) as (Hle & Hdir & _).
  split; assumption.
Defined.

Lemma save_parquet_documents_witness :
  files world_with_table !! parquet_path
  = Some (ParquetData {| index := [Time.timestamp 2024 12 30 12];
                         columns := [("Brasília", [9%float])] |})
  /\ [Time.timestamp 2024 12 30 12] <> []
  /\ exists (docs : list (Z * list (string * cell))) (w1 : World Box),
       save_parquet_to_mongodb parquet_path "capitals" "precipitacao_diaria"
         world_with_table = (Ok tt, w1)
       /\ length docs = 1%nat.
Proof.
  assert (Hfile : files world_with_table !! parquet_path
                  = Some (ParquetData {| index := [Time.timestamp 2024 12 30 12];
                                         columns := [("Brasília", [9%float])] |}))
    by (vm_compute; reflexivity).
  assert (Hidx : [Time.timestamp 2024 12 30 12] <> []) by discriminate.
  split; [exact Hfile|]. split; [exact Hidx|].
  destruct (proj2 (save_parquet_documents parquet_path "capitals" "precipitacao_diaria"
                     _ world_with_table Hfile) Hidx)
    as (docs & w1 & w2 & Hrun & _ & _ & _ & Hlen & _).
  exists docs, w1. split; [exact Hrun|exact Hlen].
Defined.

Lemma resolver_one_row_per_region_witness :
  files (world_with_boundaries [row_brasilia; row_goiania]) !! shapefile_path
  = Some (ShapefileData [row_brasilia; row_goiania])
  /\ List.NoDup (map (fun row : Feature Box => (SIGLA_UF row, NM_MUN row))
                     [row_brasilia; row_goiania])
  /\ exists capitals : GeoDataFrame Box,
       extract_capitals_from_shapefile shapefile_path uf_br
         (world_with_boundaries [row_brasilia; row_goiania])
       = (Ok capitals, world_with_boundaries [row_brasilia; row_goiania])
       /\ List.NoDup (map SIGLA_UF capitals).
Proof.
  assert (Hfile : files (world_with_boundaries [row_brasilia; row_goiania])
                    !! shapefile_path
                  = Some (ShapefileData [row_brasilia; row_goiania]))
    by (vm_compute; reflexivity).
  assert (Hnd : List.NoDup (map (fun row : Feature Box => (SIGLA_UF row, NM_MUN row))
                                [row_brasilia; row_goiania])).
  { cbn [map]. repeat (constructor; [cbn; intuition discriminate|]). constructor. }
  split; [exact Hfile|]. split; [exact Hnd|].
  destruct (resolver_one_row_per_region _ shapefile_path uf_br _ Hfile Hnd)
    as (capitals & Hrun & _ & Hcodes & _).
  exists capitals. split; [exact Hrun|exact Hcodes].
Defined.
